(* ===== verification/_CoqProject ===== *)
-Q . S2P
Prelude.v
PyStr.v
PyCsv.v
Effects.v
Instrument.v
CsvLoad.v
TagText.v
Layout.v
Geometry.v
MakeTags.v
Main.v
