(* ===== verification/Prelude.v ===== *)
(** * GOTag: a verification development of the instrument-tag printer

    The repository (palmerc/GOTag) is a Python program that reads an
    instrument inventory (a [;]-separated CSV file) and prints one
    identification tag per instrument whose [PRINT] column is [TRUE],
    nine tags (3 x 3 frames of 69 mm x 98 mm) per A4 page, through the
    reportlab library.  It has two near-identical entry points:
    - [src/main.py]: hard-coded paths ([./violin_inventory.csv],
      [tuto1.pdf]) and a hard-coded return address [return_address];
    - [src/make_tags.py]: the same pipeline with [argparse] flags for the
      address file, the inventory and the output, and an [address] helper
      that reads the address file.

    ** How the parts interact

    The data flows one way: inventory file -> [instruments_from_csv] (a
    list of [Instrument], each wrapping a [csv.DictReader] row) -> the
    loop of [main] (skip the rows whose [PRINT] is not [TRUE], place the
    others on the grid, break pages) -> calls on a reportlab [Canvas]
    ([Frame(...).addFromList], [showPage], [save]).  Each tag holds two
    paragraphs: the return address and [text_from_instrument] of the
    record, both passed through [replace_new_lines].  A run is modelled as
    the sequence of its effects (file opens and canvas calls, the events of
    [Effects]) together with its outcome (a value, or the Python exception
    that aborted it): the monad [WM] of this file.

    ** Files

    - [Prelude] (this file): Python values [pyval] (a [str] or [None]) and
      exceptions [exc]; [res] for fallible code and the trace-and-error
      monad [WM] (bind [wbind], notation [x <- m ;; k] in [gotag_scope])
      with its laws; Python's [%] and [math.floor(a / b)] on naturals
      ([py_mod], [py_floor_div], raising [ZeroDivisionError]); the hint and
      rewrite database [gotag], the tactics [wsimp] and [decide_by_eval];
      generic lemmas on division and on filling a map ([insert_all]).
    - [PyStr]: [str.replace] ([py_replace], by fuel), f-string formatting
      ([py_format]), [len] ([py_len]), [==] with a literal ([py_eq_str]);
      text-mode files: line ends translated ([universal_newlines]) and
      iteration by lines ([text_lines]).
    - [PyCsv]: the C reader of Python's [csv] module (CPython 3.12
      [Modules/_csv.c]): the [dialect] with the program's [gotag_dialect]
      ([delimiter=';'], the double quote as [quotechar]), the parser state
      machine [parse_process_char] over [parser_state], the field-size
      limit of [parse_add_char], and [Reader_iternext] as [reader_rows];
      [csv_read] is the interface [CsvReader] implemented by
      [python_csv_reader].  A quoting writer ([write_rows]) and a plain
      splitter ([plain_rows]) are the reference definitions of its
      theorems.
    - [Effects]: the events of a trace ([OpenFile], [NewCanvas], [SetFont],
      [AddFrame], [ShowPage], [SavePdf]); the file system ([gmap] from path
      to contents) and [open_read], which reads in text mode; reportlab's [Frame], [Paragraph],
      [ParagraphStyle], [mm] and [A4].
    - [Instrument]: the class [Instrument] ([src/main.py] 16-36) over a row
      [dict_row]; each accessor is [getitem], raising [KeyError].
    - [CsvLoad]: [instruments_from_csv] (39-45) and [csv.DictReader]'s
      handling of rows ([dict_of_row], [dict_rows], [dict_reader]), on the
      rows of the tokeniser [CsvReader] of [PyCsv].
    - [TagText]: [text_from_instrument] and its f-string [tag_template]
      (48-65), [replace_new_lines] (68-69), the styles (72-84),
      and [return_address] (10-13).
    - [Layout]: the interface [TagScript] of the five helpers the loop
      calls ([print_please], [text_from_instrument], [replace_new_lines],
      the two styles), with [main_py_script] for [src/main.py]; the loop of
      [main] (99-120) as the section [Loop]:
      [page_break] (102-108), [place_tag] (110-120), [loop_body],
      [main_loop]; its state [loop_state] ([tag_index], [page]) and the
      constants [main_config] (90-95).  The section [Spec] is the abstract
      specification: slot [k] on page [k / (rows*cols)], row
      [(k mod (rows*cols)) / cols], column [(k mod (rows*cols)) mod cols],
      with the trace [spec_trace].  The page lifecycle is the step relation
      [loop_step] with [reachable] states and the invariant
      [lifecycle_inv].
    - [Geometry]: frames as rectangles in exact rationals; grid cells on
      the page and pairwise disjoint.
    - [MakeTags]: the module [make_tags], [src/make_tags.py] on its own:
      its copies of the helpers (13-86), [address] (36-38), the
      [TagScript] [make_tags_script], the [args] of [parse_args()] and
      [main] (89-133), which runs the loop of [Layout] with that script
      and a file read as the address.
    - [Main]: [main_py.main] ([src/main.py] 87-122), reportlab's page
      stream ([page_stream], [canvas_call], [document]) and the theorems
      on runs of both entry points.

    ** What the theorems show (claims C1-C33)

    - Layout (C1-C6): the loop refines the specification from its initial
      state ([main_loop_refines]); placements, page breaks and the final
      page counter follow the closed form; non-printable records consume
      no slot; every reachable state satisfies the page-lifecycle
      invariant (rule induction on [loop_step]); every drawn frame is a
      cell of the grid, even in runs that raise.
    - Geometry (C7-C8): with [main]'s constants every frame lies on A4 and
      two tags of one page never overlap.
    - Entry points (C9-C15): [main] end to end refines the specification;
      the written PDF has [(n - 1) / 9 + 1] pages (one blank page for no
      record), nine tags on each page but the last; [make_tags] reads the
      address file once per tag, and a missing address file is noticed
      only when a tag is drawn; a failing record aborts the run with the
      first error and nothing is saved; a missing inventory aborts before
      any canvas call.
    - Tag text (C16-C19): the exact text with the [N/A] fallback and
      [None] printed as [None]; [TypeError] on a missing serial number; the
      newline translation equals a per-character map and leaves no
      newline, and is undone by the reverse replace on text without [<].
    - Loader (C20-C22): [row[key]] on short and full rows; a short row
      without [PRINT] is skipped silently; one [Instrument] per non-blank
      row, in order.
    - csv reader (C23-C25): a file written with every field quoted reads
      back as the table written, through text mode, when no field holds a
      carriage return (round trip; fields may hold the delimiter, quotes
      and newlines); on text without quote characters the reader is the
      plain splitter (equivalence); the field-size limit is exact
      (bounds).
    - Loader with the reader (C26-C27): a written inventory loads as the
      dicts of its rows; when the header names the six columns once, no
      accessor of a loaded instrument raises [KeyError] (type).
    - C28: [make_tags.main], run with its own helpers, performs the run of
      [main_py.main] (every event and the outcome, errors included) with
      its own paths and one read of the address file before each tag, when
      the address file reads as [return_address]: the two entry points
      differ only there.
    - C29: a blank first line of the inventory becomes [DictReader]'s
      (empty) header; [main] then raises [KeyError('PRINT')] at the first
      record and saves nothing.
    - C30: a header naming a column twice: [row[key]] is the field of the
      last such column.
    - C31: a field opening a quote that is never closed swallows every
      later line of the file into one field of one last row, silently
      (the reader is not strict).  C32: through [instruments_from_csv],
      that row becomes one last record whose [PRINT] is [None]: every
      record from the stray quote on is left without a tag, silently.
    - C33: the pipeline end to end, from the bytes of the inventory to
      the pages of the PDF: on a file written with every field quoted
      under the six-column header, [main] draws exactly the rows whose
      [PRINT] is [TRUE], in file order, at the specified slots, saves, and
      the PDF has [(n - 1) / 9 + 1] pages for [n] such rows (the reader,
      [DictReader], the accessors, the loop and the page stream composed).

    ** Bounds and fuel

    Python integers are unbounded: the counters are [nat].  Python's
    [tag_index / cols] is a float division; for the values reached here
    (below 2^53) [math.floor] of it is the integer quotient, which
    [py_floor_div] computes.  Coordinates are products of an integer and a
    length in points, kept exact in [Q]; floating-point rounding is not
    modelled (the margins are 3 mm on each axis, far above rounding).
    [py_replace] recurses on fuel, one unit per character plus one; the
    lemma [PyStr.replace_fuel_enough] shows that more fuel changes
    nothing.  The loops over records are structural on the list, as is
    the csv reader (on the characters of a line and on the lines).  The
    field-size limit is a parameter of the reader, [128 * 1024] in
    [python_csv_reader] as in CPython; the examples use small limits.

    ** Not modelled

    How reportlab draws a frame and flows paragraphs into it (fonts, text
    that does not fit, markup parsing), and failures when writing the PDF.
    [argparse] is not modelled: [parse_args()] is library code with
    version-specific corner cases (abbreviated long options, clustered
    short options, [--] removed from option values), and the program only
    reads three string attributes of its result, which is the record
    [make_tags.args] (defaults [make_tags.default_args]).  The csv
    reader leaves out the quoting modes the program does not use
    ([QUOTE_NONE], [QUOTE_NONNUMERIC]); files are byte strings, so
    decoding errors are not modelled.  The guard
    [if __name__ == '__main__': main()] of both scripts only calls [main],
    which is the entry point the theorems are about.  A missing file is
    the only failure of [open] modelled ([FileNotFoundError]).
*)

From stdpp Require Import base strings gmap list.
From Stdlib Require Import String Ascii Lia.

(** stdpp makes [String.append] opaque to [simpl]; the models compute
    strings, so let it unfold on a constructor again. *)
Global Arguments String.append : simpl nomatch.

(** ** Python values and exceptions *)

(** A value read from a [csv.DictReader] row: a string, or [None] (the
    [restval] of a short row). *)
Inductive pyval : Type :=
| PyStr (s : string)
| PyNone.

#[export] Instance pyval_eq_dec : EqDecision pyval.
Proof. solve_decision. Defined.

(** The exceptions the program can raise. *)
Inductive exc : Type :=
| KeyError (key : string)
| TypeError (msg : string)
| ZeroDivisionError
| FileNotFoundError (path : string)
| CsvError (msg : string).

#[export] Instance exc_eq_dec : EqDecision exc.
Proof. solve_decision. Defined.

(** The result of a fallible computation without effects. *)
Inductive res (A : Type) : Type :=
| Ok (a : A)
| Err (e : exc).
Arguments Ok {A} a.
Arguments Err {A} e.

Definition rbind {A B} (r : res A) (f : A -> res B) : res B :=
  match r with
  | Ok a => f a
  | Err e => Err e
  end.

(** ** The trace-and-error monad

    A computation performs effects (events of type [E]) in order and ends
    with a value or an exception; an exception stops the computation, the
    effects performed before it remain. *)
Definition WM (E A : Type) : Type := list E * res A.

Definition wret {E A} (a : A) : WM E A := ([], Ok a).

Definition wbind {E A B} (m : WM E A) (f : A -> WM E B) : WM E B :=
  match m with
  | (t, Err e) => (t, Err e)
  | (t, Ok a) => let '(t', r) := f a in (t ++ t', r)
  end.

Definition emit {E} (e : E) : WM E unit := ([e], Ok tt).

Definition lift {E A} (r : res A) : WM E A := ([], r).

Definition throw {E A} (e : exc) : WM E A := ([], Err e).

(** A computation whose trace is rewritten event by event ([f] gives the
    events that replace one), its outcome unchanged. *)
Definition wmap_trace {E A} (f : E -> list E) (m : WM E A) : WM E A :=
  (flat_map f m.1, m.2).

Declare Scope gotag_scope.
Delimit Scope gotag_scope with gotag.

Notation "'let?' x := r 'in' k" := (rbind r (fun x => k))
  (at level 10, x name, r at level 100, k at level 200) : gotag_scope.
Notation "x <- m ;; k" := (wbind m (fun x => k))
  (at level 100, m at next level, right associativity) : gotag_scope.
Notation "m ;; k" := (wbind m (fun _ : unit => k))
  (at level 100, right associativity) : gotag_scope.

Open Scope gotag_scope.

(** ** Python integer operations on non-negative integers *)

(** [a % b]: raises [ZeroDivisionError] when [b = 0]. *)
Definition py_mod (a b : nat) : res nat :=
  if b =? 0 then Err ZeroDivisionError else Ok (a mod b).

(** [math.floor(a / b)]: [a / b] raises [ZeroDivisionError] when [b = 0]. *)
Definition py_floor_div (a b : nat) : res nat :=
  if b =? 0 then Err ZeroDivisionError else Ok (a / b).

(** ** Laws of the monad *)

Create HintDb gotag discriminated.
Create Rewrite HintDb gotag.

Lemma wbind_ret_l {E A B} (a : A) (f : A -> WM E B) : wbind (wret a) f = f a.
Proof. unfold wbind, wret. by destruct (f a). Qed.

Lemma wbind_ret_r {E A} (m : WM E A) : wbind m wret = m.
Proof. destruct m as [t [a|e]]; simpl; by rewrite ?app_nil_r. Qed.

Lemma wbind_assoc {E A B C} (m : WM E A) (f : A -> WM E B) (g : B -> WM E C) :
  wbind (wbind m f) g = wbind m (fun a => wbind (f a) g).
Proof.
  destruct m as [t [a|e]]; simpl; [|done].
  destruct (f a) as [t1 [b|e1]]; simpl; [|done].
  destruct (g b) as [t2 r2]. by rewrite app_assoc.
Qed.

Lemma wbind_lift_ok {E A B} (a : A) (f : A -> WM E B) :
  wbind (lift (Ok a)) f = f a.
Proof. apply wbind_ret_l. Qed.

Lemma wbind_lift_err {E A B} (e : exc) (f : A -> WM E B) :
  wbind (lift (Err e)) f = ([], Err e).
Proof. reflexivity. Qed.

Lemma wbind_throw {E A B} (e : exc) (f : A -> WM E B) :
  wbind (throw e) f = ([], Err e).
Proof. reflexivity. Qed.

(** Running [m] then [f]: when [m] succeeds, the trace is the trace of
    [m] followed by that of [f]. *)
Lemma wbind_ok {E A B} t (a : A) (f : A -> WM E B) :
  wbind (t, Ok a) f = (t ++ (f a).1, (f a).2).
Proof. simpl. by destruct (f a). Qed.

Lemma wbind_emit {E B} (ev : E) (f : unit -> WM E B) :
  wbind (emit ev) f = (ev :: (f tt).1, (f tt).2).
Proof. unfold emit. by rewrite wbind_ok. Qed.

(** The two halves of a bind: the trace and the outcome. *)
Lemma wbind_fst {E A B} (m : WM E A) (f : A -> WM E B) :
  (wbind m f).1 = m.1 ++ match m.2 with Ok a => (f a).1 | Err _ => [] end.
Proof.
  destruct m as [t [a|e]]; simpl; [|by rewrite app_nil_r].
  by destruct (f a).
Qed.

Lemma wbind_snd {E A B} (m : WM E A) (f : A -> WM E B) :
  (wbind m f).2 = match m.2 with Ok a => (f a).2 | Err e => Err e end.
Proof. destruct m as [t [a|e]]; simpl; [|done]. by destruct (f a). Qed.

(** Rewriting the trace commutes with sequencing. *)
Lemma wmap_trace_bind {E A B} (f : E -> list E) (m : WM E A) (k k' : A -> WM E B) :
  (forall a, k' a = wmap_trace f (k a)) ->
  wbind (wmap_trace f m) k' = wmap_trace f (wbind m k).
Proof.
  intros Hk. destruct m as [t [a|e]]; unfold wmap_trace; simpl; [|done].
  rewrite Hk. destruct (k a) as [t' r]. simpl. by rewrite flat_map_app.
Qed.

(** A rewriting that leaves each event of the trace alone changes nothing. *)
Lemma wmap_trace_id {E A} (f : E -> list E) (m : WM E A) :
  Forall (fun e => f e = [e]) m.1 -> wmap_trace f m = m.
Proof.
  destruct m as [t r]. unfold wmap_trace. simpl. intros Ht. f_equal.
  induction Ht as [|e t He Ht IH]; [done|]. simpl. by rewrite He, IH.
Qed.

Lemma flat_map_Forall_ext {A B} (f g : A -> list B) (l : list A) :
  Forall (fun x => f x = g x) l -> flat_map f l = flat_map g l.
Proof. induction 1 as [|x l Hx _ IH]; [done|]. simpl. by rewrite Hx, IH. Qed.

Lemma rbind_ok {A B} (a : A) (f : A -> res B) : rbind (Ok a) f = f a.
Proof. reflexivity. Qed.

Lemma rbind_err {A B} (e : exc) (f : A -> res B) : rbind (Err e) f = Err e.
Proof. reflexivity. Qed.

#[export] Hint Rewrite @wbind_ret_l @wbind_ret_r @wbind_assoc @wbind_lift_ok
  @wbind_lift_err @wbind_throw @wbind_emit @rbind_ok @rbind_err : gotag.

(** ** Python arithmetic on non-negative integers *)

Lemma py_mod_ok a b : b <> 0 -> py_mod a b = Ok (a mod b).
Proof. intros Hb. unfold py_mod. by destruct (Nat.eqb_spec b 0). Qed.

Lemma py_mod_zero a : py_mod a 0 = Err ZeroDivisionError.
Proof. reflexivity. Qed.

Lemma py_floor_div_ok a b : b <> 0 -> py_floor_div a b = Ok (a / b).
Proof. intros Hb. unfold py_floor_div. by destruct (Nat.eqb_spec b 0). Qed.

#[export] Hint Rewrite py_mod_ok py_floor_div_ok using lia : gotag.

(** ** Tactics of the development *)

(** Normalise a monadic program: monad laws and Python arithmetic. *)
Ltac wsimp := autorewrite with gotag in *; simpl in *.

(** Case on a boolean test written with [=?] on [nat], keeping the
    proposition it decides. *)
Ltac case_nat_eqb :=
  match goal with
  | |- context [?a =? ?b] => destruct (Nat.eqb_spec a b)
  end.

(** Invert a hypothesis and clean up. *)
Ltac invc H := inversion H; subst; clear H.

(** ** Division and remainder by a positive [cap] *)

(** Counting up by one: the remainder grows until it reaches [cap], then
    wraps to 0 and the quotient grows. *)
Lemma succ_mod_div (cap k : nat) :
  cap <> 0 ->
  (S (k mod cap) = cap -> S k mod cap = 0 /\ S k / cap = S (k / cap)) /\
  (S (k mod cap) <> cap -> S k mod cap = S (k mod cap) /\ S k / cap = k / cap).
Proof.
  intros Hc. pose proof (Nat.div_mod_eq k cap) as Hk.
  pose proof (Nat.mod_upper_bound k cap Hc) as Hb. split; intros Hr.
  - split; [symmetry; apply (Nat.mod_unique _ _ (S (k / cap)))
           |symmetry; apply (Nat.div_unique _ _ _ 0)]; lia.
  - split; [symmetry; apply (Nat.mod_unique _ _ (k / cap))
           |symmetry; apply (Nat.div_unique _ _ _ (S (k mod cap)))]; lia.
Qed.

Lemma mod_div_zero (cap : nat) : 0 mod cap = 0 /\ 0 / cap = 0.
Proof. split; [apply Nat.Div0.mod_0_l | apply Nat.Div0.div_0_l]. Qed.

(** ** Filling a map from a list, as [dict(...)] and [d[k] = v] loops do *)

Section FoldlInsert.
Context {K V B : Type} `{Countable K} (g : B -> V).

Definition insert_all (m : gmap K V) (l : list (K * B)) : gmap K V :=
  foldl (fun m kv => <[kv.1 := g kv.2]> m) m l.

(** A key that the list does not mention keeps its value. *)
Lemma insert_all_notin m l k :
  k ∉ l.*1 -> insert_all m l !! k = m !! k.
Proof.
  unfold insert_all. revert m. induction l as [|[k' b] l IH]; intros m Hk; simpl; [done|].
  rewrite fmap_cons, elem_of_cons in Hk. simpl in Hk.
  rewrite IH by naive_solver. apply lookup_insert_ne. naive_solver.
Qed.

(** The last binding of a key wins. *)
Lemma insert_all_last m l i k b :
  l !! i = Some (k, b) -> k ∉ (drop (S i) l).*1 -> insert_all m l !! k = Some (g b).
Proof.
  unfold insert_all. revert m i. induction l as [|[k' b'] l IH]; intros m [|i] Hi Hk;
    simpl in *; try done.
  - simplify_eq. fold (insert_all (<[k:=g b]> m) l).
    rewrite insert_all_notin by done. apply lookup_insert_eq.
  - by apply (IH _ i).
Qed.
End FoldlInsert.

(** Prove a decidable proposition about concrete data by evaluation. *)
Ltac decide_by_eval := apply (bool_decide_unpack _); vm_compute; exact I.
