(* ===== verification/PyStr.v ===== *)
(** * Python string operations used by the tag printer

    [str.replace] ([py_replace], defined by fuel, with its fuel-adequacy
    theorem and its equivalence with a per-character map when the
    pattern is one character), f-string formatting of a row value
    ([py_format]), [len] ([py_len]) and [==] against a literal
    ([py_eq_str]); reading a file in text mode ([universal_newlines],
    [text_lines]).  Strings are [String.string] (byte strings); the code
    only compares [len] with 0, which does not depend on the encoding. *)

From S2P Require Import Prelude.
From stdpp Require Import base strings list.
From Stdlib Require Import String Ascii Lia.

Local Open Scope string_scope.

(** ** Values as the code uses them *)

(** [f"{v}"]: a string is inserted as it is, [None] as ["None"]. *)
Definition py_format (v : pyval) : string :=
  match v with
  | PyStr s => s
  | PyNone => "None"
  end.

(** [len(v)]: [None] has no length. *)
Definition py_len (v : pyval) : res nat :=
  match v with
  | PyStr s => Ok (String.length s)
  | PyNone => Err (TypeError "object of type 'NoneType' has no len()")
  end.

(** [v == lit] for a string literal [lit]: [None] is never equal. *)
Definition py_eq_str (v : pyval) (lit : string) : bool :=
  match v with
  | PyStr s => String.eqb s lit
  | PyNone => false
  end.

(** The newline character and the one-character string ["\n"]. *)
Definition nl_char : ascii := "010"%char.
Definition nl : string := String nl_char EmptyString.

(** ** [str.replace(old, new)] *)

(** The suffix of [s] after its first [n] characters. *)
Fixpoint str_drop (n : nat) (s : string) : string :=
  match n, s with
  | 0, _ => s
  | S _, EmptyString => EmptyString
  | S n', String _ s' => str_drop n' s'
  end.

(** With an empty pattern Python inserts [new] before every character
    and at the end. *)
Fixpoint replace_empty (new s : string) : string :=
  match s with
  | EmptyString => new
  | String c s' => new ++ String c (replace_empty new s')
  end.

(** Left-to-right scan: where [old] starts, emit [new] and skip [old];
    otherwise keep the character.  One unit of fuel per step. *)
Fixpoint replace_fuel (fuel : nat) (old new s : string) : string :=
  match fuel with
  | 0 => s
  | S f =>
      match s with
      | EmptyString => EmptyString
      | String c s' =>
          if String.prefix old s
          then new ++ replace_fuel f old new (str_drop (String.length old) s)
          else String c (replace_fuel f old new s')
      end
  end.

Definition py_replace (old new s : string) : string :=
  if String.eqb old "" then replace_empty new s
  else replace_fuel (S (String.length s)) old new s.

(** The reference definition for a one-character pattern: every
    occurrence of [c] becomes [new]. *)
Fixpoint replace_char (c : ascii) (new s : string) : string :=
  match s with
  | EmptyString => EmptyString
  | String c' s' =>
      (if ascii_dec c' c then new else String c' EmptyString) ++ replace_char c new s'
  end.

(** Occurrence test and count of a character. *)
Fixpoint str_mem (c : ascii) (s : string) : bool :=
  match s with
  | EmptyString => false
  | String c' s' => if ascii_dec c' c then true else str_mem c s'
  end.

Fixpoint str_count (c : ascii) (s : string) : nat :=
  match s with
  | EmptyString => 0
  | String c' s' => (if ascii_dec c' c then 1 else 0) + str_count c s'
  end.

(** ** Text-mode files *)

(** The carriage return. *)
Definition cr_char : ascii := "013"%char.

(** [open(path)] reads in text mode with [newline=None] (universal
    newlines): [\r\n] and a lone [\r] both reach the program as [\n]. *)
Fixpoint universal_newlines (s : string) : string :=
  match s with
  | EmptyString => EmptyString
  | String c s' =>
      if ascii_dec c cr_char then
        match s' with
        | String c' s'' =>
            if ascii_dec c' nl_char then String nl_char (universal_newlines s'')
            else String nl_char (universal_newlines s')
        | EmptyString => nl
        end
      else String c (universal_newlines s')
  end.

(** Iterating a text file: its lines, each with its terminating [\n]
    (the last one without it when the file does not end in [\n]). *)
Fixpoint text_lines (s : string) : list string :=
  match s with
  | EmptyString => []
  | String c s' =>
      if ascii_dec c nl_char then nl :: text_lines s'
      else match text_lines s' with
           | [] => [String c EmptyString]
           | l :: ls => String c l :: ls
           end
  end.

(** ** Generic lemmas on strings *)

Lemma string_app_assoc (s1 s2 s3 : string) : (s1 ++ s2) ++ s3 = s1 ++ (s2 ++ s3).
Proof. induction s1; simpl; congruence. Qed.

Lemma string_app_nil_r (s : string) : s ++ "" = s.
Proof. induction s; simpl; congruence. Qed.

Lemma length_string_app (s1 s2 : string) :
  String.length (s1 ++ s2) = String.length s1 + String.length s2.
Proof. induction s1; simpl; lia. Qed.

Lemma str_mem_app c (s1 s2 : string) : str_mem c (s1 ++ s2) = str_mem c s1 || str_mem c s2.
Proof. induction s1 as [|c' s1 IH]; simpl; [done|]. by destruct (ascii_dec c' c). Qed.

Lemma str_count_app c (s1 s2 : string) :
  str_count c (s1 ++ s2) = str_count c s1 + str_count c s2.
Proof. induction s1 as [|c' s1 IH]; simpl; [done|]. rewrite IH. lia. Qed.

Lemma length_str_drop n s : String.length (str_drop n s) = String.length s - n.
Proof. revert s. induction n; intros [|c s]; simpl; auto with lia. Qed.

#[export] Hint Rewrite string_app_assoc string_app_nil_r length_string_app
  str_mem_app str_count_app : gotag.

Lemma prefix_nil (s : string) : String.prefix "" s = true.
Proof. by destruct s. Qed.

(** ** Fuel *)

Lemma prefix_nonempty_length (old s : string) :
  old <> "" -> String.prefix old s = true -> 0 < String.length old <= String.length s.
Proof.
  revert s. induction old as [|a old IH]; intros [|b s] Hne Hp; simpl in *;
    try congruence.
  destruct (ascii_dec a b); [|congruence].
  destruct old as [|a' old']; [simpl; lia|].
  specialize (IH s ltac:(discriminate) Hp). lia.
Qed.

(** Two fuels larger than the input give the same result. *)
Lemma replace_fuel_stable (old new : string) :
  old <> "" ->
  forall f1 f2 s, String.length s < f1 -> String.length s < f2 ->
  replace_fuel f1 old new s = replace_fuel f2 old new s.
Proof.
  intros Hne f1. induction f1 as [|f1 IH]; intros [|f2] s H1 H2; try lia.
  destruct s as [|c s']; [done|]. cbn [replace_fuel].
  destruct (String.prefix old (String c s')) eqn:Hp.
  - f_equal. apply IH; rewrite length_str_drop;
      pose proof (prefix_nonempty_length _ _ Hne Hp); simpl in *; lia.
  - f_equal. apply IH; simpl in *; lia.
Qed.

(** The fuel of [py_replace] is enough: the scan consumes at least one
    character per unit of fuel, so any fuel beyond the length of the
    input gives the same result as [py_replace] (for a non-empty
    pattern); the model of [str.replace] never stops for lack of fuel. *)
Lemma replace_fuel_enough (old new s : string) (fuel : nat) :
  old <> "" -> String.length s < fuel ->
  replace_fuel fuel old new s = py_replace old new s.
Proof.
  intros Hne Hf. unfold py_replace.
  destruct (String.eqb_spec old ""); [done|].
  apply replace_fuel_stable; simpl; auto with lia.
Qed.

(** For a one-character pattern, [str.replace] is the per-character map. *)
Lemma replace_fuel_char (c : ascii) (new s : string) (fuel : nat) :
  String.length s < fuel ->
  replace_fuel fuel (String c EmptyString) new s = replace_char c new s.
Proof.
  revert s. induction fuel as [|f IH]; intros [|c' s] Hf; simpl in *; try lia; [done|].
  destruct (ascii_dec c c') as [->|Hneq].
  - destruct (ascii_dec c' c'); [|congruence]. rewrite prefix_nil. simpl.
    f_equal. apply IH. lia.
  - destruct (ascii_dec c' c); [congruence|]. simpl. f_equal. apply IH. lia.
Qed.

Lemma py_replace_char (c : ascii) (new s : string) :
  py_replace (String c EmptyString) new s = replace_char c new s.
Proof. unfold py_replace. cbn [String.eqb]. apply replace_fuel_char. lia. Qed.

(** After replacing [c] by a string without [c], no [c] is left. *)
Lemma replace_char_mem (c : ascii) (new s : string) :
  str_mem c new = false -> str_mem c (replace_char c new s) = false.
Proof.
  intros Hn. induction s as [|c' s IH]; simpl; [done|].
  rewrite str_mem_app, IH, orb_false_r.
  destruct (ascii_dec c' c); simpl; [done|].
  by destruct (ascii_dec c' c).
Qed.

(** Each occurrence of [c] is replaced by [new]: the length grows by
    [length new - 1] per occurrence. *)
Lemma length_replace_char (c : ascii) (new s : string) :
  String.length (replace_char c new s) + str_count c s
  = String.length s + str_count c s * String.length new.
Proof.
  induction s as [|c' s IH]; simpl; [done|].
  rewrite length_string_app. destruct (ascii_dec c' c); simpl; lia.
Qed.

(** [replace_char] maps each piece of a concatenation. *)
Lemma replace_char_app (c : ascii) (new s1 s2 : string) :
  replace_char c new (s1 ++ s2) = replace_char c new s1 ++ replace_char c new s2.
Proof.
  induction s1 as [|c' s1 IH]; simpl; [done|].
  by rewrite IH, string_app_assoc.
Qed.

(** A string without [c] is left unchanged. *)
Lemma replace_char_id (c : ascii) (new s : string) :
  str_mem c s = false -> replace_char c new s = s.
Proof.
  induction s as [|c' s IH]; simpl; [done|].
  destruct (ascii_dec c' c); [done|]. intros H. by rewrite IH.
Qed.

#[export] Hint Rewrite replace_char_app : gotag.

(** Text-mode reading changes nothing in a text without carriage returns. *)
Lemma universal_newlines_id (s : string) :
  str_mem cr_char s = false -> universal_newlines s = s.
Proof.
  induction s as [|c s IH]; intros Hs; [done|]. cbn in Hs |- *.
  destruct (ascii_dec c cr_char); [done|]. by rewrite IH.
Qed.
