(* ===== verification/PyCsv.v ===== *)
(** * Python's [csv.reader]

    [csv.DictReader(csvfile, delimiter=';', quotechar=...)] in
    [instruments_from_csv] ([src/main.py], line 42; [src/make_tags.py],
    line 44) tokenises the file with the C reader of the [csv] module
    (CPython 3.12, [Modules/_csv.c]).  This file models that reader:
    the dialect ([dialect], with the program's [gotag_dialect]), the
    parser state machine of [parse_process_char] (one [parser_state]
    constructor per state of the C enum), the field-size limit of
    [parse_add_char], and [Reader_iternext], which feeds the parser the
    lines of the file, each followed by the end-of-line marker [EOL], and
    returns a row once a line leaves the parser at [START_RECORD].

    The reader is the implementation of the interface [CsvReader] through
    which [CsvLoad] uses it.  The theorems show that the reader reads
    back what a quoting writer writes, that on a file without quote
    characters it only splits lines at the delimiter, and when it
    raises. *)

From S2P Require Import Prelude PyStr.
From stdpp Require Import base strings list pretty.
From Stdlib Require Import String Ascii Lia.

Local Open Scope string_scope.

(** ** Dialects *)

(** The dialect parameters the parser reads.  [quoting] is
    [QUOTE_MINIMAL] (the default) and is left out: it only matters for
    [QUOTE_NONE], which disables quote characters, and
    [QUOTE_NONNUMERIC], which converts unquoted fields to floats. *)
Record dialect : Type := mk_dialect {
  delimiter : ascii;
  quotechar : ascii;
  escapechar : option ascii;
  doublequote : bool;
  skipinitialspace : bool;
  strict : bool
}.

(** The double quote character. *)
Definition dquote : ascii := "034"%char.

(** [csv.excel] with [delimiter=';'] and the double quote as
    [quotechar]: no escape character, doubled quotes, no initial space
    skipping, not strict. *)
Definition gotag_dialect : dialect := mk_dialect ";"%char dquote None true false false.

(** [csv.field_size_limit()] when the program runs: [128 * 1024]. *)
Definition field_size_limit_default : nat := 128 * 1024.

(** ** The parser *)

(** [enum ParserState] of [_csv.c]. *)
Inductive parser_state : Type :=
| START_RECORD | START_FIELD | ESCAPED_CHAR | IN_FIELD | IN_QUOTED_FIELD
| ESCAPE_IN_QUOTED_FIELD | QUOTE_IN_QUOTED_FIELD | EAT_CRNL | AFTER_ESCAPED_CRNL.

#[export] Instance parser_state_eq_dec : EqDecision parser_state.
Proof. solve_decision. Defined.

(** What [parse_process_char] is given: a character of the line, or the
    marker [EOL] the reader passes after each line. *)
Inductive pchar : Type :=
| Chr (c : ascii)
| EOL.

(** The reader's fields: the parser state, the field being read
    ([field], [field_len]) and the fields of the row so far. *)
Record reader : Type := mk_reader {
  state : parser_state;
  field : string;
  fields : list string
}.

(** [parse_reset]: an empty row at [START_RECORD]. *)
Definition parse_reset : reader := mk_reader START_RECORD "" [].

Definition set_state (st : parser_state) (r : reader) : reader :=
  mk_reader st (field r) (fields r).

(** [parse_save_field]: append the field to the row and clear it. *)
Definition parse_save_field (r : reader) : reader :=
  mk_reader (state r) "" (fields r ++ [field r])%list.

(** [c == '\n' || c == '\r'] *)
Definition is_crlf (c : ascii) : bool :=
  bool_decide (c = nl_char) || bool_decide (c = cr_char).

Section Parser.
Context (d : dialect).
(** [csv.field_size_limit()], a module-wide setting. *)
Context (field_limit : nat).

(** [c == dialect->escapechar]: never true without an escape character. *)
Definition is_escape (c : ascii) : bool :=
  match escapechar d with
  | Some e => bool_decide (c = e)
  | None => false
  end.

Definition field_limit_error : exc :=
  CsvError ("field larger than field limit (" ++ pretty (N.of_nat field_limit) ++ ")").

(** [parse_add_char]: a field may not grow past the limit. *)
Definition parse_add_char (r : reader) (c : ascii) : res reader :=
  if bool_decide (field_limit <= String.length (field r)) then Err field_limit_error
  else Ok (mk_reader (state r) (field r ++ String c "") (fields r)).

(** The message of a strict dialect for a character after a closing
    quote: the delimiter, then [expected after], then the quote
    character, each in single quotes. *)
Definition expected_after_quote_msg : string :=
  String "'"%char (String (delimiter d) ("' expected after '" ++
    String (quotechar d) (String "'"%char ""))).

(** [case START_FIELD] of [parse_process_char]; the case [START_RECORD]
    falls through to it on an ordinary character. *)
Definition start_field (r : reader) (c : pchar) : res reader :=
  match c with
  | EOL => Ok (set_state START_RECORD (parse_save_field r))
  | Chr a =>
      if is_crlf a then Ok (set_state EAT_CRNL (parse_save_field r))
      else if bool_decide (a = quotechar d) then Ok (set_state IN_QUOTED_FIELD r)
      else if is_escape a then Ok (set_state ESCAPED_CHAR r)
      else if bool_decide (a = " "%char) && skipinitialspace d then Ok r
      else if bool_decide (a = delimiter d) then Ok (parse_save_field r)
      else let? r' := parse_add_char r a in Ok (set_state IN_FIELD r')
  end.

(** [case IN_FIELD]; the case [AFTER_ESCAPED_CRNL] falls through to it on
    anything but [EOL]. *)
Definition in_field (r : reader) (c : pchar) : res reader :=
  match c with
  | EOL => Ok (set_state START_RECORD (parse_save_field r))
  | Chr a =>
      if is_crlf a then Ok (set_state EAT_CRNL (parse_save_field r))
      else if is_escape a then Ok (set_state ESCAPED_CHAR r)
      else if bool_decide (a = delimiter d) then Ok (set_state START_FIELD (parse_save_field r))
      else parse_add_char r a
  end.

(** [parse_process_char(self, module_state, c)]. *)
Definition parse_process_char (r : reader) (c : pchar) : res reader :=
  match state r with
  | START_RECORD =>
      match c with
      | EOL => Ok r
      | Chr a =>
          if is_crlf a then Ok (set_state EAT_CRNL r)
          else start_field (set_state START_FIELD r) c
      end
  | START_FIELD => start_field r c
  | ESCAPED_CHAR =>
      match c with
      | Chr a =>
          if is_crlf a then let? r' := parse_add_char r a in Ok (set_state AFTER_ESCAPED_CRNL r')
          else let? r' := parse_add_char r a in Ok (set_state IN_FIELD r')
      | EOL => let? r' := parse_add_char r nl_char in Ok (set_state IN_FIELD r')
      end
  | AFTER_ESCAPED_CRNL =>
      match c with
      | EOL => Ok r
      | Chr _ => in_field r c
      end
  | IN_FIELD => in_field r c
  | IN_QUOTED_FIELD =>
      match c with
      | EOL => Ok r
      | Chr a =>
          if is_escape a then Ok (set_state ESCAPE_IN_QUOTED_FIELD r)
          else if bool_decide (a = quotechar d) then
            Ok (set_state (if doublequote d then QUOTE_IN_QUOTED_FIELD else IN_FIELD) r)
          else parse_add_char r a
      end
  | ESCAPE_IN_QUOTED_FIELD =>
      let a := match c with Chr a => a | EOL => nl_char end in
      let? r' := parse_add_char r a in Ok (set_state IN_QUOTED_FIELD r')
  | QUOTE_IN_QUOTED_FIELD =>
      match c with
      | EOL => Ok (set_state START_RECORD (parse_save_field r))
      | Chr a =>
          if bool_decide (a = quotechar d) then
            let? r' := parse_add_char r a in Ok (set_state IN_QUOTED_FIELD r')
          else if bool_decide (a = delimiter d) then
            Ok (set_state START_FIELD (parse_save_field r))
          else if is_crlf a then Ok (set_state EAT_CRNL (parse_save_field r))
          else if negb (strict d) then
            let? r' := parse_add_char r a in Ok (set_state IN_FIELD r')
          else Err (CsvError expected_after_quote_msg)
      end
  | EAT_CRNL =>
      match c with
      | EOL => Ok (set_state START_RECORD r)
      | Chr a =>
          if is_crlf a then Ok r
          else Err (CsvError
            "new-line character seen in unquoted field - do you need to open the file with newline=''?")
      end
  end.

(** The characters of a line, one [parse_process_char] each. *)
Fixpoint parse_chars (r : reader) (l : string) : res reader :=
  match l with
  | EmptyString => Ok r
  | String c l' => let? r' := parse_process_char r (Chr c) in parse_chars r' l'
  end.

(** One line: its characters, then [EOL]. *)
Definition parse_line (r : reader) (l : string) : res reader :=
  let? r' := parse_chars r l in parse_process_char r' EOL.

(** The end of the file inside a row: an unfinished field is saved (or,
    for a strict dialect, an error); otherwise iteration stops. *)
Definition parse_eof (r : reader) : res (list (list string)) :=
  if bool_decide (field r <> "") || bool_decide (state r = IN_QUOTED_FIELD) then
    if strict d then Err (CsvError "unexpected end of data")
    else Ok [(fields r ++ [field r])%list]
  else Ok [].

(** [Reader_iternext], iterated to the end of the file: lines are fed to
    the parser until one leaves it at [START_RECORD]; that row is
    returned and the parser reset. *)
Fixpoint reader_rows (r : reader) (lines : list string) : res (list (list string)) :=
  match lines with
  | [] => parse_eof r
  | l :: ls =>
      let? r' := parse_line r l in
      if bool_decide (state r' = START_RECORD) then
        let? rows := reader_rows parse_reset ls in Ok (fields r' :: rows)
      else reader_rows r' ls
  end.

(** [list(csv.reader(f, dialect))] on the text of the file [f]. *)
Definition csv_read (text : string) : res (list (list string)) :=
  reader_rows parse_reset (text_lines text).
End Parser.

(** ** Reference definitions *)

(** The parser input of a text: its characters, with [EOL] after each
    newline, which is what [reader_rows] feeds the parser for a text
    that ends in a newline. *)
Fixpoint nl_tokens (s : string) : list pchar :=
  match s with
  | EmptyString => []
  | String c s' => Chr c :: (if ascii_dec c nl_char then [EOL] else []) ++ nl_tokens s'
  end.

(** The parser input of one line. *)
Fixpoint line_tokens (l : string) : list pchar :=
  match l with
  | EmptyString => [EOL]
  | String c l' => Chr c :: line_tokens l'
  end.

Section Tokens.
Context (d : dialect) (field_limit : nat).

(** The reader on a stream of parser inputs: a row is complete whenever
    the parser returns to [START_RECORD]. *)
Fixpoint parse_tokens (r : reader) (ts : list pchar) : res (list (list string)) :=
  match ts with
  | [] => parse_eof d r
  | t :: ts' =>
      let? r' := parse_process_char d field_limit r t in
      if bool_decide (state r' = START_RECORD) then
        let? rows := parse_tokens parse_reset ts' in Ok (fields r' :: rows)
      else parse_tokens r' ts'
  end.
End Tokens.

(** Split [s] at each [c]: [s.split(c)]. *)
Fixpoint split_on (c : ascii) (s : string) : list string :=
  match s with
  | EmptyString => [EmptyString]
  | String c' s' =>
      if ascii_dec c' c then EmptyString :: split_on c s'
      else match split_on c s' with
           | [] => [String c' EmptyString]
           | w :: ws => String c' w :: ws
           end
  end.

(** A line without its terminating newline. *)
Fixpoint strip_nl (l : string) : string :=
  match l with
  | EmptyString => EmptyString
  | String c EmptyString => if ascii_dec c nl_char then EmptyString else String c EmptyString
  | String c l' => String c (strip_nl l')
  end.

(** The reference reader for text without quote characters: a blank
    line is the empty row, any other line is split at the delimiter. *)
Definition plain_row (d : dialect) (l : string) : list string :=
  let w := strip_nl l in
  if bool_decide (w = "") then [] else split_on (delimiter d) w.

Definition plain_rows (d : dialect) (s : string) : list (list string) :=
  map (plain_row d) (text_lines s).

(** The parser reading an unquoted field. *)
Definition unquoted (r : reader) : Prop := state r = START_FIELD \/ state r = IN_FIELD.

Section Writer.
Context (d : dialect).

(** [csv.writer(f, dialect, quoting=csv.QUOTE_ALL, lineterminator='\n')]:
    every field quoted, a quote character inside doubled, fields joined by
    the delimiter, each row ended by a newline. *)
Fixpoint escape_quotes (s : string) : string :=
  match s with
  | EmptyString => EmptyString
  | String c s' =>
      if ascii_dec c (quotechar d) then String c (String c (escape_quotes s'))
      else String c (escape_quotes s')
  end.

Definition quote_field (f : string) : string :=
  String (quotechar d) (escape_quotes f ++ String (quotechar d) "").

Definition write_row (row : list string) : string :=
  String.concat (String (delimiter d) "") (map quote_field row) ++ nl.

Definition write_rows (rows : list (list string)) : string :=
  fold_right (fun row text => write_row row ++ text) "" rows.
End Writer.

(** ** Samples *)

(** A table whose fields hold the delimiter, a quote character and a
    newline, with an empty row. *)
Definition sample_table : list (list string) :=
  [["Violin"; "Yamaha; 4/4"]; []; [String dquote "Strad" ++ String dquote ""; "two" ++ nl ++ "lines"]].

(** An inventory without quote characters, with a blank line and a
    last line without its newline. *)
Definition sample_plain_text : string :=
  "Category;Model" ++ nl ++ "Violin;Yamaha" ++ nl ++ nl ++ "Cello;".

(** ** The interface the loader uses *)

(** [csv.reader] as [DictReader] uses it: the text of the file to its
    rows of fields, or the [csv.Error] the reader raises. *)
Class CsvReader := { csv_reader : string -> res (list (list string)) }.

#[export] Instance python_csv_reader : CsvReader := {|
  csv_reader := csv_read gotag_dialect field_size_limit_default
|}.

(** ** Lemmas on the parser *)

Local Close Scope string_scope.

Section ParserFacts.
Context (d : dialect) (field_limit : nat).

Lemma parse_add_char_ok (r : reader) (a : ascii) :
  String.length (field r) < field_limit ->
  parse_add_char field_limit r a = Ok (mk_reader (state r) (field r ++ String a "") (fields r)).
Proof. intros H. unfold parse_add_char. rewrite bool_decide_false by lia. done. Qed.

Lemma parse_add_char_err (r : reader) (a : ascii) :
  field_limit <= String.length (field r) ->
  parse_add_char field_limit r a = Err (field_limit_error field_limit).
Proof. intros H. unfold parse_add_char. by rewrite bool_decide_true. Qed.

Lemma parse_add_char_state (r r' : reader) (a : ascii) :
  parse_add_char field_limit r a = Ok r' -> state r' = state r.
Proof. unfold parse_add_char. case_bool_decide; intros; by simplify_eq. Qed.

(** A character never completes a row: only [EOL] brings the parser back
    to [START_RECORD]. *)
Lemma process_chr_not_start (r r' : reader) (a : ascii) :
  parse_process_char d field_limit r (Chr a) = Ok r' -> state r' <> START_RECORD.
Proof.
  unfold parse_process_char, start_field, in_field, rbind.
  destruct (state r) eqn:Hs; repeat case_match; intros Hr; simplify_eq;
    try (apply parse_add_char_state in Hr || apply parse_add_char_state in H);
    simpl in *; congruence.
Qed.
End ParserFacts.

(** ** From lines to a stream of parser inputs *)

Section Streams.
Context (d : dialect) (field_limit : nat).

(** Feeding a line through the stream is [parse_line], and a row can only
    be complete at its [EOL]. *)
Lemma parse_tokens_line (r : reader) (l : string) (ts : list pchar) :
  parse_tokens d field_limit r (line_tokens l ++ ts) =
  let? r' := parse_line d field_limit r l in
  if bool_decide (state r' = START_RECORD) then
    let? rows := parse_tokens d field_limit parse_reset ts in Ok (fields r' :: rows)
  else parse_tokens d field_limit r' ts.
Proof.
  revert r. induction l as [|c l IH]; intros r; [done|].
  unfold parse_line. cbn [line_tokens app parse_tokens parse_chars].
  destruct (parse_process_char d field_limit r (Chr c)) as [r1|e] eqn:E; [|done].
  cbn [rbind]. rewrite bool_decide_false by (eapply process_chr_not_start; eauto).
  apply IH.
Qed.

Lemma reader_rows_tokens (r : reader) (ls : list string) :
  reader_rows d field_limit r ls = parse_tokens d field_limit r (mjoin (map line_tokens ls)).
Proof.
  revert r. induction ls as [|l ls IH]; intros r; [done|].
  cbn [map mjoin list_join]. rewrite parse_tokens_line. simpl.
  destruct (parse_line d field_limit r l); simpl; [|done].
  by case_bool_decide; rewrite IH.
Qed.
End Streams.

Lemma text_lines_cons_nonempty (c : ascii) (s : string) : text_lines (String c s) <> [].
Proof. simpl. destruct (ascii_dec c nl_char); [done|]. by destruct (text_lines s). Qed.

(** A text that is empty or ends in a newline. *)
Lemma ends_nl_tail (c : ascii) (s : string) :
  (String c s = "" \/ exists p, String c s = p +:+ nl) ->
  (s = "" \/ exists p, s = p +:+ nl) /\ (c <> nl_char -> s <> "").
Proof.
  intros [?|[[|c' p] Hp]]; [done| |].
  - injection Hp as -> ->. by split; [left|].
  - injection Hp as -> ->. split; [by right; exists p|]. by destruct p.
Qed.

Lemma text_lines_tokens (s : string) :
  (s = "" \/ exists p, s = p +:+ nl) ->
  mjoin (map line_tokens (text_lines s)) = nl_tokens s.
Proof.
  induction s as [|c s IH]; intros Hs; [done|].
  destruct (ends_nl_tail c s Hs) as [Hs' Hne]. cbn [text_lines nl_tokens].
  destruct (ascii_dec c nl_char) as [->|Hc].
  - simpl. by rewrite IH.
  - specialize (Hne Hc). destruct s as [|c' s]; [done|].
    pose proof (text_lines_cons_nonempty c' s) as Hl.
    rewrite <- (IH Hs'). destruct (text_lines (String c' s)); [done|]. done.
Qed.

Lemma nl_tokens_app (s1 s2 : string) : nl_tokens (s1 +:+ s2) = nl_tokens s1 ++ nl_tokens s2.
Proof. induction s1 as [|c s1 IH]; [done|]. simpl. by rewrite IH, app_assoc. Qed.

(** A field without the quote character is written as it is. *)
Lemma escape_quotes_id (d : dialect) (f : string) :
  str_mem (quotechar d) f = false -> escape_quotes d f = f.
Proof.
  induction f as [|c f IH]; intros Hf; [done|]. cbn in Hf |- *.
  destruct (ascii_dec c (quotechar d)); [done|]. by rewrite IH.
Qed.

(** ** Reading back what a quoting writer writes *)

Section RoundTrip.
Context (d : dialect) (field_limit : nat).
Hypothesis Hesc : escapechar d = None.
Hypothesis Hdq : doublequote d = true.
Hypothesis Hqd : quotechar d <> delimiter d.
Hypothesis Hq : is_crlf (quotechar d) = false.
Hypothesis Hdl : is_crlf (delimiter d) = false.

Local Ltac len_ok := simpl; rewrite ?length_string_app; simpl; (done || lia).

Lemma is_crlf_nl : is_crlf nl_char = true.
Proof. reflexivity. Qed.

Lemma quote_not_nl : quotechar d <> nl_char.
Proof. intros E. rewrite E in Hq. unfold is_crlf in Hq. by rewrite bool_decide_true in Hq. Qed.

Lemma is_escape_none (a : ascii) : is_escape d a = false.
Proof. unfold is_escape. by rewrite Hesc. Qed.

(** The body of a quoted field, its quote characters doubled, adds the
    field's characters to the field being read, newlines included. *)
Lemma parse_quoted_body (f : string) (r : reader) (ts : list pchar) :
  state r = IN_QUOTED_FIELD ->
  String.length (field r) + String.length f <= field_limit ->
  parse_tokens d field_limit r (nl_tokens (escape_quotes d f) ++ ts) =
  parse_tokens d field_limit (mk_reader IN_QUOTED_FIELD (field r +:+ f) (fields r)) ts.
Proof.
  revert r. induction f as [|c f IH]; intros r Hs Hlen.
  { destruct r as [st fl fls]; simpl in *. subst. by rewrite string_app_nil_r. }
  cbn [String.length] in Hlen.
  cbn [escape_quotes]. destruct (ascii_dec c (quotechar d)) as [->|Hc].
  - cbn [nl_tokens]. destruct (ascii_dec (quotechar d) nl_char) as [E|_];
      [by destruct quote_not_nl|].
    cbn [app parse_tokens]. unfold parse_process_char at 1. rewrite Hs, is_escape_none.
    rewrite bool_decide_true, Hdq by done. cbn [rbind state set_state].
    rewrite bool_decide_false by done.
    cbn [parse_tokens]. unfold parse_process_char at 1. cbn [state set_state].
    rewrite bool_decide_true by done. rewrite parse_add_char_ok by (simpl; lia). cbn [rbind].
    rewrite bool_decide_false by done. rewrite IH by len_ok.
    simpl. by rewrite string_app_assoc.
  - cbn [nl_tokens]. cbn [app parse_tokens]. unfold parse_process_char at 1.
    rewrite Hs, is_escape_none, bool_decide_false by done.
    rewrite parse_add_char_ok by lia. cbn [rbind state]. rewrite bool_decide_false by congruence.
    destruct (ascii_dec c nl_char); cbn [app parse_tokens].
    + unfold parse_process_char at 1. cbn [state]. rewrite Hs. cbn [rbind].
      rewrite bool_decide_false by done.
      rewrite IH by len_ok. simpl. by rewrite string_app_assoc.
    + rewrite IH by len_ok. simpl. by rewrite string_app_assoc.
Qed.

(** A quoted field read from the start of a field: the parser is left
    after its closing quote, holding the field. *)
Lemma parse_quoted_field (f : string) (r : reader) (ts : list pchar) :
  state r = START_RECORD \/ state r = START_FIELD -> field r = "" ->
  String.length f <= field_limit ->
  parse_tokens d field_limit r (nl_tokens (quote_field d f) ++ ts) =
  parse_tokens d field_limit (mk_reader QUOTE_IN_QUOTED_FIELD f (fields r)) ts.
Proof.
  intros Hs Hf Hlen. unfold quote_field. cbn [nl_tokens].
  destruct (ascii_dec (quotechar d) nl_char) as [E|_]; [by destruct quote_not_nl|].
  rewrite nl_tokens_app. cbn [app parse_tokens].
  assert (parse_process_char d field_limit r (Chr (quotechar d)) =
          Ok (mk_reader IN_QUOTED_FIELD (field r) (fields r))) as ->.
  { unfold parse_process_char, start_field.
    destruct Hs as [Hs|Hs]; rewrite Hs, Hq, bool_decide_true by done; reflexivity. }
  cbn [rbind]. rewrite bool_decide_false by done.
  rewrite <- app_assoc, parse_quoted_body by (simpl; rewrite ?Hf; simpl; done || lia).
  cbn [nl_tokens app parse_tokens field fields]. rewrite Hf. cbn [String.append].
  destruct (ascii_dec (quotechar d) nl_char) as [E|_]; [by destruct quote_not_nl|].
  unfold parse_process_char at 1. cbn [state]. rewrite is_escape_none, bool_decide_true, Hdq by done.
  cbn [rbind]. by rewrite bool_decide_false.
Qed.

(** A written row, read from the start of a row or of a field. *)
Lemma parse_row_fields (fs : list string) (r : reader) (ts : list pchar) :
  fs <> [] -> Forall (fun f => String.length f <= field_limit) fs ->
  state r = START_RECORD \/ state r = START_FIELD -> field r = "" ->
  parse_tokens d field_limit r
    (nl_tokens (String.concat (String (delimiter d) "") (map (quote_field d) fs) +:+ nl) ++ ts) =
  let? rows := parse_tokens d field_limit parse_reset ts in Ok ((fields r ++ fs) :: rows).
Proof.
  revert r. induction fs as [|f fs IH]; intros r Hne Hall Hs Hf; [done|].
  apply Forall_cons in Hall as [Hlen Hall].
  destruct fs as [|f' fs]; cbn [map String.concat].
  - rewrite nl_tokens_app, <- app_assoc, parse_quoted_field by done.
    cbn [nl nl_tokens]. destruct (ascii_dec nl_char nl_char) as [_|]; [|done].
    cbn [app parse_tokens]. unfold parse_process_char at 1. cbn [state].
    rewrite (bool_decide_false (nl_char = quotechar d)) by (intros E; by destruct quote_not_nl).
    rewrite (bool_decide_false (nl_char = delimiter d))
      by (intros E; rewrite <- E in Hdl; unfold is_crlf in Hdl; by rewrite bool_decide_true in Hdl).
    cbn. done.
  - rewrite !string_app_assoc, nl_tokens_app, <- app_assoc, parse_quoted_field by done.
    cbn [String.append nl_tokens].
    destruct (ascii_dec (delimiter d) nl_char) as [E|_].
    { rewrite E in Hdl. unfold is_crlf in Hdl. by rewrite bool_decide_true in Hdl. }
    cbn [app parse_tokens]. unfold parse_process_char at 1. cbn [state].
    rewrite bool_decide_false by congruence. rewrite bool_decide_true by done.
    cbn [rbind]. rewrite bool_decide_false by done.
    rewrite IH by (done || (simpl; auto)). cbn [fields parse_save_field set_state].
    by rewrite <- app_assoc.
Qed.

(** A written text, read from the start of a row. *)
Lemma parse_written_rows (rows : list (list string)) (ts : list pchar) :
  Forall (Forall (fun f => String.length f <= field_limit)) rows ->
  parse_tokens d field_limit parse_reset (nl_tokens (write_rows d rows) ++ ts) =
  let? rows' := parse_tokens d field_limit parse_reset ts in Ok (rows ++ rows').
Proof.
  induction rows as [|row rows IH]; intros Hall.
  { simpl. by destruct (parse_tokens _ _ _ ts). }
  apply Forall_cons in Hall as [Hrow Hall].
  change (write_rows d (row :: rows)) with (write_row d row +:+ write_rows d rows).
  rewrite nl_tokens_app, <- app_assoc.
  destruct row as [|f fs].
  - change (write_row d []) with nl. cbn [nl nl_tokens].
    destruct (ascii_dec nl_char nl_char) as [_|]; [|done].
    cbn [app parse_tokens]. unfold parse_process_char at 1. cbn [state parse_reset].
    rewrite is_crlf_nl. cbn. rewrite IH by done. by destruct (parse_tokens _ _ _ ts).
  - unfold write_row at 1. rewrite parse_row_fields by (done || by left). rewrite IH by done.
    by destruct (parse_tokens _ _ _ ts).
Qed.

Lemma write_rows_ends_nl (rows : list (list string)) :
  write_rows d rows = "" \/ exists p, write_rows d rows = p +:+ nl.
Proof.
  induction rows as [|row rows [Hr|[p Hr]]]; [by left| |]; right;
    change (write_rows d (row :: rows)) with (write_row d row +:+ write_rows d rows);
    rewrite Hr; unfold write_row.
  - exists (String.concat (String (delimiter d) "") (map (quote_field d) row)).
    by rewrite string_app_nil_r.
  - exists (write_row d row +:+ p). unfold write_row. by rewrite !string_app_assoc.
Qed.

(** The csv reader reads back every table written with all fields
    quoted, fields within the limit. *)
Lemma csv_read_write_rows (rows : list (list string)) :
  Forall (Forall (fun f => String.length f <= field_limit)) rows ->
  csv_read d field_limit (write_rows d rows) = Ok rows.
Proof.
  intros Hall. unfold csv_read.
  rewrite reader_rows_tokens, text_lines_tokens by apply write_rows_ends_nl.
  rewrite <- (app_nil_r (nl_tokens _)), parse_written_rows by done.
  simpl. by rewrite app_nil_r.
Qed.
(** An opening quote that is never closed: the rest of the stream, line
    ends and delimiters included, is added to the field, and the end of
    the file saves it (a dialect that is not strict raises nothing). *)
Lemma parse_unclosed_quote (f : string) :
  strict d = false -> str_mem (quotechar d) f = false -> String.length f <= field_limit ->
  parse_tokens d field_limit parse_reset (nl_tokens (String (quotechar d) f)) = Ok [[f]].
Proof.
  intros Hs Hf Hlen. cbn [nl_tokens].
  destruct (ascii_dec (quotechar d) nl_char) as [E|_]; [by destruct quote_not_nl|].
  cbn [app parse_tokens].
  assert (parse_process_char d field_limit parse_reset (Chr (quotechar d)) =
          Ok (mk_reader IN_QUOTED_FIELD "" [])) as ->.
  { unfold parse_process_char, start_field. cbn [state parse_reset].
    rewrite Hq, bool_decide_true by done. reflexivity. }
  cbn [rbind]. rewrite bool_decide_false by done.
  pose proof (parse_quoted_body f (mk_reader IN_QUOTED_FIELD "" []) [] eq_refl Hlen) as Hb.
  rewrite escape_quotes_id, app_nil_r in Hb by done. rewrite Hb.
  cbn [parse_tokens]. unfold parse_eof. cbn [state field fields].
  rewrite (bool_decide_true (IN_QUOTED_FIELD = IN_QUOTED_FIELD)), orb_true_r, Hs by done.
  done.
Qed.

End RoundTrip.

(** ** Text without quote characters *)

Lemma not_crlf (c : ascii) : c <> nl_char -> c <> cr_char -> is_crlf c = false.
Proof. intros. unfold is_crlf. by rewrite !bool_decide_false. Qed.

Lemma string_char_app (s : string) (c : ascii) (w : string) :
  (s +:+ String c "") +:+ w = s +:+ String c w.
Proof. by rewrite string_app_assoc. Qed.

Lemma parse_line_cons (d : dialect) (field_limit : nat) (r : reader) (c : ascii) (l : string) :
  parse_line d field_limit r (String c l) =
  let? r1 := parse_process_char d field_limit r (Chr c) in parse_line d field_limit r1 l.
Proof. unfold parse_line. cbn [parse_chars]. by destruct (parse_process_char _ _ r _). Qed.

(** A row that starts with an ordinary character starts a field. *)
Lemma parse_line_reset (d : dialect) (field_limit : nat) (c : ascii) (l : string) :
  is_crlf c = false ->
  parse_line d field_limit parse_reset (String c l) =
  parse_line d field_limit (mk_reader START_FIELD "" []) (String c l).
Proof.
  intros Hc. rewrite !parse_line_cons. unfold parse_process_char at 1.
  cbn [state parse_reset]. by rewrite Hc.
Qed.

Lemma Forall_Forall_and {A} (P Q : A -> Prop) (xss : list (list A)) :
  Forall (Forall (fun x => P x /\ Q x)) xss -> Forall (Forall P) xss /\ Forall (Forall Q) xss.
Proof.
  rewrite !Forall_forall. intros H. split; intros xs Hxs; specialize (H xs Hxs);
    rewrite Forall_forall in H |- *; intros x Hx; by apply H.
Qed.

Lemma crlf_not_cr (a : ascii) : is_crlf a = false -> cr_char <> a.
Proof. unfold is_crlf. intros H <-. by rewrite orb_true_r in H. Qed.

Lemma cr_not_nl : cr_char <> nl_char.
Proof. discriminate. Qed.

Lemma str_mem_cons_false (c a : ascii) (s : string) :
  str_mem c (String a s) = false -> a <> c /\ str_mem c s = false.
Proof. simpl. by destruct (ascii_dec a c). Qed.

Lemma split_on_no_delim (c : ascii) (s : string) : str_mem c s = false -> split_on c s = [s].
Proof.
  induction s as [|a s IH]; [done|]. intros [Ha Hs]%str_mem_cons_false.
  simpl. destruct (ascii_dec a c); [done|]. by rewrite IH.
Qed.

(** A prefix without the delimiter joins the first piece. *)
Lemma split_on_app_head (c : ascii) (acc w h : string) (t : list string) :
  str_mem c acc = false -> split_on c w = h :: t ->
  split_on c (acc +:+ w) = (acc +:+ h) :: t.
Proof.
  induction acc as [|a acc IH]; intros Hacc Hw; [done|].
  apply str_mem_cons_false in Hacc as [Ha Hacc]. cbn [String.append split_on].
  destruct (ascii_dec a c); [done|]. by rewrite (IH Hacc Hw).
Qed.

Lemma split_on_cons (c : ascii) (w : string) : exists h t, split_on c w = h :: t.
Proof.
  induction w as [|a w [h [t IH]]]; [by eexists _, _|]. simpl.
  destruct (ascii_dec a c); rewrite ?IH; by eexists _, _.
Qed.

Lemma text_lines_shape (s : string) :
  Forall (fun l => exists w e, l = w +:+ e /\ (e = "" \/ e = nl) /\ str_mem nl_char w = false)
    (text_lines s).
Proof.
  induction s as [|c s IH]; [constructor|]. cbn [text_lines].
  destruct (ascii_dec c nl_char) as [->|Hc].
  - constructor; [|done]. exists "", nl. by split; [|split; [right|]].
  - destruct (text_lines s) as [|l ls] eqn:E.
    + constructor; [|done]. exists (String c ""), "". cbn.
      destruct (ascii_dec c nl_char); [done|]. by split; [|split; [left|]].
    + apply Forall_cons in IH as [(w & e & -> & He & Hw) IH].
      constructor; [|done]. exists (String c w), e. cbn.
      destruct (ascii_dec c nl_char); [done|]. done.
Qed.

Lemma text_lines_mem (a : ascii) (s : string) :
  str_mem a s = false -> Forall (fun l => str_mem a l = false) (text_lines s).
Proof.
  induction s as [|c s IH]; intros Hs; [constructor|].
  apply str_mem_cons_false in Hs as [Hc Hs]. specialize (IH Hs). cbn [text_lines].
  destruct (ascii_dec c nl_char) as [->|Hn].
  - constructor; [|done]. cbn [nl str_mem]. destruct (ascii_dec nl_char a); congruence.
  - destruct (text_lines s) as [|l ls].
    + constructor; [|done]. cbn. destruct (ascii_dec c a); congruence.
    + apply Forall_cons in IH as [Hl IH]. constructor; [|done].
      cbn. destruct (ascii_dec c a); congruence.
Qed.

Section Plain.
Context (d : dialect) (field_limit : nat).
Hypothesis Hesc : escapechar d = None.
Hypothesis Hsp : skipinitialspace d = false.
Hypothesis Hqd : quotechar d <> delimiter d.
Hypothesis Hdl : is_crlf (delimiter d) = false.

Lemma process_delim (r : reader) :
  unquoted r ->
  parse_process_char d field_limit r (Chr (delimiter d)) =
  Ok (mk_reader START_FIELD "" (fields r ++ [field r])).
Proof.
  intros Hs. unfold parse_process_char.
  destruct Hs as [Hs|Hs]; rewrite Hs; unfold start_field, in_field, is_escape; rewrite Hdl, Hesc.
  - rewrite (bool_decide_false (delimiter d = quotechar d)) by congruence.
    rewrite Hsp, andb_false_r, bool_decide_true by done. destruct r; cbn in *; by subst.
  - rewrite bool_decide_true by done. done.
Qed.

Lemma process_plain_char (r : reader) (c : ascii) :
  unquoted r -> c <> delimiter d -> c <> quotechar d -> is_crlf c = false ->
  parse_process_char d field_limit r (Chr c) =
  let? r' := parse_add_char field_limit r c in Ok (set_state IN_FIELD r').
Proof.
  intros Hs Hcd Hcq Hc. unfold parse_process_char.
  destruct Hs as [Hs|Hs]; rewrite Hs; unfold start_field, in_field, is_escape; rewrite Hc, Hesc.
  - rewrite Hsp, andb_false_r, !bool_decide_false by done. done.
  - rewrite bool_decide_false by done.
    destruct (parse_add_char field_limit r c) as [r'|] eqn:E; [|done]. cbn.
    apply parse_add_char_state in E. destruct r'; cbn in *. by rewrite E, Hs.
Qed.

(** The end of a line, with or without its newline, in an unquoted field
    ends the field and the row. *)
Lemma process_line_end (r : reader) (e : string) :
  unquoted r -> e = "" \/ e = nl ->
  parse_line d field_limit r e = Ok (mk_reader START_RECORD "" (fields r ++ [field r])).
Proof.
  intros [Hs|Hs] [-> | ->]; unfold parse_line; cbn [parse_chars nl rbind];
    unfold parse_process_char at 1; rewrite Hs; try done;
    unfold start_field, in_field; rewrite is_crlf_nl; done.
Qed.

(** A line of unquoted fields is split at the delimiter. *)
Lemma parse_plain_line (w e : string) (r : reader) :
  unquoted r -> str_mem (delimiter d) (field r) = false -> e = "" \/ e = nl ->
  str_mem nl_char w = false -> str_mem cr_char w = false -> str_mem (quotechar d) w = false ->
  Forall (fun f => String.length f <= field_limit) (split_on (delimiter d) (field r +:+ w)) ->
  parse_line d field_limit r (w +:+ e) =
  Ok (mk_reader START_RECORD "" (fields r ++ split_on (delimiter d) (field r +:+ w))).
Proof.
  revert r. induction w as [|c w IH]; intros r Hr Hf He Hnl Hcr Hq Hlen.
  { rewrite string_app_nil_r, split_on_no_delim by done. by apply process_line_end. }
  apply str_mem_cons_false in Hnl as [Hcn Hnl], Hcr as [Hcc Hcr], Hq as [Hcq Hq].
  cbn [String.append]. rewrite parse_line_cons.
  destruct (ascii_dec c (delimiter d)) as [->|Hcd].
  - rewrite process_delim by done. cbn [rbind].
    assert (split_on (delimiter d) (field r +:+ String (delimiter d) w) =
            field r :: split_on (delimiter d) w) as Hsplit.
    { rewrite (split_on_app_head _ _ _ "" (split_on (delimiter d) w)) by
        (done || by cbn; destruct (ascii_dec (delimiter d) (delimiter d))).
      by rewrite string_app_nil_r. }
    rewrite Hsplit in Hlen |- *. apply Forall_cons in Hlen as [_ Hlen].
    rewrite IH by (done || by left). cbn. by rewrite <- app_assoc.
  - destruct (split_on_cons (delimiter d) w) as (h & t & Hw).
    assert (split_on (delimiter d) (field r +:+ String c w) = (field r +:+ String c h) :: t) as Hsplit.
    { apply split_on_app_head; [done|]. cbn. destruct (ascii_dec c (delimiter d)); [done|].
      by rewrite Hw. }
    pose proof Hlen as Hlen'. rewrite Hsplit in Hlen'. apply Forall_cons in Hlen' as [Hh _].
    rewrite length_string_app in Hh. cbn [String.length] in Hh.
    rewrite process_plain_char, parse_add_char_ok by (done || lia || by apply not_crlf).
    cbn [rbind]. rewrite <- (string_char_app (field r) c w) in Hlen |- *.
    rewrite IH by (cbn [field fields state set_state]; first [done | by right |
      by rewrite str_mem_app, Hf; cbn; destruct (ascii_dec c (delimiter d))]). done.
Qed.

Lemma strip_nl_app (w e : string) :
  str_mem nl_char w = false -> e = "" \/ e = nl -> strip_nl (w +:+ e) = w.
Proof.
  intros Hw He. induction w as [|c w IH].
  - by destruct He as [-> | ->].
  - apply str_mem_cons_false in Hw as [Hc Hw]. cbn [String.append strip_nl].
    rewrite (IH Hw). destruct w; [|done].
    destruct He as [-> | ->]; [|done]. cbn. by destruct (ascii_dec c nl_char).
Qed.

(** A line of the file without quote characters, read from the start
    of a row, gives its [plain_row]. *)
Lemma parse_plain_row (w e : string) :
  e = "" \/ e = nl ->
  str_mem nl_char w = false -> str_mem cr_char w = false -> str_mem (quotechar d) w = false ->
  Forall (fun f => String.length f <= field_limit) (plain_row d (w +:+ e)) ->
  parse_line d field_limit parse_reset (w +:+ e) =
  Ok (mk_reader START_RECORD "" (plain_row d (w +:+ e))).
Proof.
  intros He Hnl Hcr Hq. unfold plain_row. rewrite strip_nl_app by done.
  destruct w as [|c w].
  - intros _. destruct He as [-> | ->]; [done|]. unfold parse_line. cbn. done.
  - rewrite bool_decide_false by done. intros Hlen.
    pose proof Hnl as [Hcn _]%str_mem_cons_false. pose proof Hcr as [Hcc _]%str_mem_cons_false.
    cbn [String.append]. rewrite parse_line_reset by (by apply not_crlf).
    change (String c (w +:+ e)) with (String c w +:+ e).
    by rewrite parse_plain_line by (done || by left).
Qed.

Lemma reader_rows_plain (ls : list string) :
  Forall (fun l => exists w e, l = w +:+ e /\ (e = "" \/ e = nl) /\ str_mem nl_char w = false) ls ->
  Forall (fun l => str_mem cr_char l = false) ls ->
  Forall (fun l => str_mem (quotechar d) l = false) ls ->
  Forall (fun l => Forall (fun f => String.length f <= field_limit) (plain_row d l)) ls ->
  reader_rows d field_limit parse_reset ls = Ok (map (plain_row d) ls).
Proof.
  induction ls as [|l ls IH]; intros Hsh Hcr Hq Hlen; [done|].
  apply Forall_cons in Hsh as [(w & e & -> & He & Hw) Hsh], Hcr as [Hcr' Hcr],
    Hq as [Hq' Hq], Hlen as [Hl Hlen].
  rewrite str_mem_app in Hcr', Hq'. apply orb_false_iff in Hcr' as [Hcr' _], Hq' as [Hq' _].
  cbn [reader_rows]. rewrite parse_plain_row by done. cbn [rbind state].
  rewrite bool_decide_true by done. by rewrite IH.
Qed.

(** A word of ordinary characters read into an unquoted field: it is
    added to the field unless the field then exceeds the limit. *)
Lemma parse_word (w : string) (r : reader) :
  unquoted r -> w <> "" ->
  str_mem (delimiter d) w = false -> str_mem nl_char w = false -> str_mem cr_char w = false ->
  str_mem (quotechar d) w = false ->
  parse_chars d field_limit r w =
  if bool_decide (String.length (field r) + String.length w <= field_limit)
  then Ok (mk_reader IN_FIELD (field r +:+ w) (fields r))
  else Err (field_limit_error field_limit).
Proof.
  revert r. induction w as [|c w IH]; intros r Hr Hne Hd Hnl Hcr Hq; [done|].
  apply str_mem_cons_false in Hd as [Hcd Hd], Hnl as [Hcn Hnl], Hcr as [Hcc Hcr], Hq as [Hcq Hq].
  cbn [parse_chars]. rewrite process_plain_char by (done || by apply not_crlf).
  cbn [String.length]. destruct (decide (String.length (field r) < field_limit)) as [Hlt|Hge].
  - rewrite parse_add_char_ok by done. cbn [rbind].
    destruct w as [|c' w].
    + cbn. rewrite bool_decide_true by lia. done.
    + rewrite IH by (done || by right). cbn [field fields set_state].
      rewrite length_string_app, (string_char_app (field r) c). cbn [String.length].
      repeat case_bool_decide; done || lia.
  - rewrite parse_add_char_err by lia. cbn. rewrite bool_decide_false by lia. done.
Qed.

Lemma text_lines_no_nl (w : string) :
  w <> "" -> str_mem nl_char w = false -> text_lines w = [w].
Proof.
  induction w as [|c w IH]; intros Hne Hw; [done|].
  apply str_mem_cons_false in Hw as [Hc Hw]. cbn [text_lines].
  destruct (ascii_dec c nl_char); [done|].
  destruct w as [|c' w]; [done|]. by rewrite IH.
Qed.

(** C25: the field-size limit is exact: a one-field line of [n] ordinary
    characters is read when [n] is at most the limit, and raises
    [csv.Error] with the limit in its message when [n] exceeds it. *)
Theorem csv_read_field_limit (w : string) :
  w <> "" -> str_mem (delimiter d) w = false -> str_mem nl_char w = false ->
  str_mem cr_char w = false -> str_mem (quotechar d) w = false ->
  csv_read d field_limit w =
  if bool_decide (String.length w <= field_limit) then Ok [[w]]
  else Err (field_limit_error field_limit).
Proof.
  intros Hne Hd Hnl Hcr Hq. unfold csv_read. rewrite text_lines_no_nl by done.
  destruct w as [|c w']; [done|]. pose proof Hnl as [Hcn _]%str_mem_cons_false.
  pose proof Hcr as [Hcc _]%str_mem_cons_false.
  cbn [reader_rows]. rewrite parse_line_reset by (by apply not_crlf). unfold parse_line.
  rewrite parse_word by (done || by left). cbn [field fields String.length String.append].
  rewrite Nat.add_0_l. case_bool_decide; [|done]. cbn. done.
Qed.

(** C24: on a text without quote characters and carriage returns, whose
    fields are within the field-size limit, the csv reader is the plain
    splitter: one row per line, the empty row for a blank line, and
    otherwise the line split at the delimiter. *)
Theorem csv_read_plain (s : string) :
  str_mem (quotechar d) s = false -> str_mem cr_char s = false ->
  Forall (Forall (fun f => String.length f <= field_limit)) (plain_rows d s) ->
  csv_read d field_limit s = Ok (plain_rows d s).
Proof.
  intros Hq Hcr Hlen. unfold csv_read, plain_rows in *.
  rewrite Forall_map in Hlen.
  apply reader_rows_plain; [apply text_lines_shape | by apply text_lines_mem | by apply text_lines_mem | done].
Qed.
End Plain.



(** ** Characters of a written table *)

Lemma escape_quotes_mem (d : dialect) (a : ascii) (f : string) :
  a <> quotechar d -> str_mem a (escape_quotes d f) = str_mem a f.
Proof.
  intros Ha. induction f as [|c f IH]; [done|]. cbn [escape_quotes].
  destruct (ascii_dec c (quotechar d)) as [->|]; cbn; [|by rewrite IH].
  destruct (ascii_dec (quotechar d) a); [congruence|]. by rewrite IH.
Qed.

Lemma str_mem_concat (a : ascii) (sep : string) (l : list string) :
  str_mem a sep = false -> Forall (fun s => str_mem a s = false) l ->
  str_mem a (String.concat sep l) = false.
Proof.
  intros Hsep Hl. induction Hl as [|s l Hs Hl IH]; [done|].
  destruct l as [|s' l]; [done|].
  change (String.concat sep (s :: s' :: l)) with (s +:+ sep +:+ String.concat sep (s' :: l)).
  by rewrite !str_mem_app, Hs, Hsep, IH.
Qed.

(** A character other than the quote character, the delimiter and the
    newline occurs in a written table only inside its fields. *)
Lemma write_rows_mem (d : dialect) (a : ascii) (rows : list (list string)) :
  a <> quotechar d -> a <> delimiter d -> a <> nl_char ->
  Forall (Forall (fun f => str_mem a f = false)) rows ->
  str_mem a (write_rows d rows) = false.
Proof.
  intros Hq Hd Hn Hall. induction Hall as [|row rows Hrow Hall IH]; [done|].
  change (write_rows d (row :: rows)) with (write_row d row +:+ write_rows d rows).
  unfold write_row. rewrite !str_mem_app, IH, orb_false_r.
  apply orb_false_iff. split.
  - apply str_mem_concat.
    + cbn. by destruct (ascii_dec (delimiter d) a); [congruence|].
    + apply Forall_map, (Forall_impl _ _ _ Hrow). intros f Hf. unfold quote_field.
      cbn. destruct (ascii_dec (quotechar d) a); [congruence|].
      rewrite str_mem_app, escape_quotes_mem, Hf by done. cbn.
      by destruct (ascii_dec (quotechar d) a).
  - cbn [nl str_mem]. by destruct (ascii_dec nl_char a); [congruence|].
Qed.

(** Reading a written table in text mode changes nothing when its
    fields hold no carriage return. *)
Lemma text_mode_written (d : dialect) (rows : list (list string)) :
  is_crlf (quotechar d) = false -> is_crlf (delimiter d) = false ->
  Forall (Forall (fun f => str_mem cr_char f = false)) rows ->
  universal_newlines (write_rows d rows) = write_rows d rows.
Proof.
  intros Hq Hdl Hall. apply universal_newlines_id.
  apply write_rows_mem; [by apply crlf_not_cr | by apply crlf_not_cr | exact cr_not_nl | done].
Qed.

(** C23: the csv reader, on a file written with every field quoted and
    read in text mode as [instruments_from_csv] reads it, gives back the
    table written, for any dialect without escape character, with
    doubled quotes, whose delimiter and quote character differ and are
    not line ends: fields may hold the delimiter, the quote character and
    newlines, and rows may be empty, as long as each field is within the
    field-size limit and holds no carriage return. *)
Theorem csv_read_written_file (d : dialect) (field_limit : nat) (rows : list (list string)) :
  escapechar d = None -> doublequote d = true -> quotechar d <> delimiter d ->
  is_crlf (quotechar d) = false -> is_crlf (delimiter d) = false ->
  Forall (Forall (fun f => String.length f <= field_limit /\ str_mem cr_char f = false)) rows ->
  csv_read d field_limit (universal_newlines (write_rows d rows)) = Ok rows.
Proof.
  intros Hesc Hdq Hqd Hq Hdl [Hlen Hcr]%Forall_Forall_and.
  rewrite text_mode_written by done. by apply csv_read_write_rows.
Qed.

(** Reading an unclosed quote after a written table (see C31). *)
Lemma read_unclosed_quote (d : dialect) (field_limit : nat)
    (rows : list (list string)) (f : string) :
  escapechar d = None -> doublequote d = true -> quotechar d <> delimiter d ->
  is_crlf (quotechar d) = false -> is_crlf (delimiter d) = false -> strict d = false ->
  Forall (Forall (fun f => String.length f <= field_limit /\ str_mem cr_char f = false)) rows ->
  str_mem (quotechar d) f = false -> str_mem cr_char f = false ->
  S (String.length f) <= field_limit ->
  csv_read d field_limit (universal_newlines (write_rows d rows +:+ String (quotechar d) (f +:+ nl)))
  = Ok (rows ++ [[f +:+ nl]]).
Proof.
  intros Hesc Hdq Hqd Hq Hdl Hs [Hlen Hcr]%Forall_Forall_and Hfq Hfcr Hflen.
  rewrite universal_newlines_id.
  2:{ rewrite str_mem_app, write_rows_mem by
        (done || by apply crlf_not_cr || exact cr_not_nl).
      cbn [str_mem]. destruct (ascii_dec (quotechar d) cr_char) as [E|_];
        [by destruct (crlf_not_cr _ Hq)|].
      rewrite str_mem_app, Hfcr. cbn. by destruct (ascii_dec nl_char cr_char). }
  unfold csv_read. rewrite reader_rows_tokens, text_lines_tokens.
  2:{ right. exists (write_rows d rows +:+ String (quotechar d) f).
      by rewrite string_app_assoc. }
  rewrite nl_tokens_app, parse_written_rows by done.
  rewrite parse_unclosed_quote; try done.
  - rewrite str_mem_app, Hfq. cbn [nl str_mem]. destruct (ascii_dec nl_char (quotechar d)) as [E|_]; [|done].
    by destruct (quote_not_nl d Hq).  
  - rewrite length_string_app. cbn. lia.
Qed.

(** C31: an unclosed quote swallows the rest of the file.  After any
    table written with every field quoted, a line whose first field opens
    a quote that is never closed is read, with every line after it, as
    ONE field of ONE last row: its delimiters and line ends are kept in
    the field, and no error is raised (the dialect is not strict), so
    the rows it swallows are lost without notice. *)
Theorem csv_read_unclosed_quote (d : dialect) (field_limit : nat)
    (rows : list (list string)) (f : string) :
  escapechar d = None -> doublequote d = true -> quotechar d <> delimiter d ->
  is_crlf (quotechar d) = false -> is_crlf (delimiter d) = false -> strict d = false ->
  Forall (Forall (fun f => String.length f <= field_limit /\ str_mem cr_char f = false)) rows ->
  str_mem (quotechar d) f = false -> str_mem cr_char f = false ->
  S (String.length f) <= field_limit ->
  csv_read d field_limit (universal_newlines (write_rows d rows +:+ String (quotechar d) (f +:+ nl)))
  = Ok (rows ++ [[f +:+ nl]]).
Proof.
  intros Hesc Hdq Hqd Hq Hdl Hs Hall Hfq Hfcr Hflen.
  by apply read_unclosed_quote.
Qed.

(** ** Witnesses *)

Example csv_read_written_file_witness :
  csv_read gotag_dialect field_size_limit_default
    (universal_newlines (write_rows gotag_dialect sample_table)) = Ok sample_table.
Proof. apply csv_read_written_file; [reflexivity | reflexivity | decide_by_eval | reflexivity
  | reflexivity | decide_by_eval]. Defined.

Example csv_read_plain_witness :
  csv_read gotag_dialect field_size_limit_default sample_plain_text =
  Ok [["Category"; "Model"]; ["Violin"; "Yamaha"]; []; ["Cello"; ""]].
Proof.
  rewrite csv_read_plain; [reflexivity | reflexivity | reflexivity | decide_by_eval | decide_by_eval
    | reflexivity | reflexivity | decide_by_eval].
Defined.

Example csv_read_field_limit_witness :
  csv_read gotag_dialect 3 "abcd" = Err (field_limit_error 3) /\
  csv_read gotag_dialect 3 "abc" = Ok [["abc"]].
Proof.
  split; rewrite csv_read_field_limit by (reflexivity || discriminate || decide_by_eval);
    reflexivity.
Defined.

(** Text-mode reading is not transparent to the reader: a carriage return
    written inside a quoted field comes back as a newline. *)
Example quoted_cr_read_as_newline :
  csv_read gotag_dialect field_size_limit_default
    (universal_newlines (write_rows gotag_dialect [[String "a"%char (String cr_char "b")]])) =
  Ok [[String "a"%char (String nl_char "b")]].
Proof. vm_compute. reflexivity. Qed.

(** A stray quote opening the serial number of the first record: the
    next record is read into the same field. *)
Example csv_read_unclosed_quote_witness :
  csv_read gotag_dialect field_size_limit_default
    (universal_newlines (write_rows gotag_dialect [["Serial NO"; "PRINT"]] +:+
       String dquote (("12;TRUE" +:+ nl +:+ "34;TRUE") +:+ nl)))
  = Ok ([["Serial NO"; "PRINT"]] ++ [[("12;TRUE" +:+ nl +:+ "34;TRUE") +:+ nl]]).
Proof.
  apply csv_read_unclosed_quote;
    [reflexivity|reflexivity|decide_by_eval|reflexivity|reflexivity|reflexivity
    |decide_by_eval|reflexivity|reflexivity|].
  cbn [String.length String.append nl]. unfold field_size_limit_default. lia.
Defined.
