(* ===== verification/Effects.v ===== *)
(** * Effects of a run: files and reportlab calls

    A run of the program is observed through the effects it performs,
    in order: opening a file ([open(path)]), and the calls it makes on
    the reportlab canvas.  This file holds the events of such a trace,
    the file system the program reads, the reportlab data the code
    builds ([ParagraphStyle], [Paragraph], [Frame]) and reportlab's units
    and page size.  The program's own code is in the other files; the
    reportlab definitions here follow the library's documented defaults
    and constants. *)

From S2P Require Import Prelude PyStr.
From stdpp Require Import base strings gmap list.
From Stdlib Require Import QArith.

Local Close Scope Q_scope.
Local Open Scope gotag_scope.

#[export] Instance Q_eq_dec : EqDecision Q.
Proof. intros [a b] [c d]. solve_decision. Defined.

(** ** reportlab data *)

(** [reportlab.lib.styles.ParagraphStyle], reduced to the attributes the
    code sets; [ParagraphStyle(name=n)] starts from the library defaults
    ([Helvetica], 10 pt, no space after). *)
Record paragraph_style : Type := mk_paragraph_style {
  style_name : string;
  fontName : string;
  fontSize : nat;
  spaceAfter : nat
}.

Definition ParagraphStyle (name : string) : paragraph_style :=
  {| style_name := name; fontName := "Helvetica"; fontSize := 10; spaceAfter := 0 |}.

(** [Paragraph(text, style)]: [text] is reportlab markup. *)
Record paragraph : Type := Paragraph {
  para_text : string;
  para_style : paragraph_style
}.

(** [Frame(x, y, width, height, showBoundary=b)]: a rectangle of the page,
    in points, with its lower-left corner at [(x, y)]. *)
Record frame : Type := Frame {
  frame_x : Q;
  frame_y : Q;
  frame_width : Q;
  frame_height : Q;
  showBoundary : nat
}.

(** [reportlab.lib.units]: [inch = 72.0], [cm = inch / 2.54],
    [mm = cm * 0.1], in points. *)
Definition inch : Q := 72.
Definition cm : Q := (inch / (254 # 100))%Q.
Definition mm : Q := (cm * (1 # 10))%Q.

(** [reportlab.lib.pagesizes.A4 = (210*mm, 297*mm)]. *)
Definition A4 : Q * Q := ((210 * mm)%Q, (297 * mm)%Q).

(** ** Events *)

Inductive event : Type :=
| OpenFile (path : string)
  (** [open(path)], attempted *)
| NewCanvas (path : string) (pagesize : Q * Q)
  (** [Canvas(path, pagesize=...)] *)
| SetFont (name : string) (size : nat)
  (** [canvas.setFont(name, size)] *)
| AddFrame (f : frame) (parts : list paragraph)
  (** [f.addFromList(parts, canvas)] *)
| ShowPage
  (** [canvas.showPage()] *)
| SavePdf
  (** [canvas.save()] *)
.

#[export] Instance paragraph_style_eq_dec : EqDecision paragraph_style.
Proof. solve_decision. Defined.
#[export] Instance paragraph_eq_dec : EqDecision paragraph.
Proof. solve_decision. Defined.
#[export] Instance frame_eq_dec : EqDecision frame.
Proof. solve_decision. Defined.
#[export] Instance event_eq_dec : EqDecision event.
Proof. solve_decision. Defined.

(** A computation of the program. *)
Abbreviation Prog := (WM event).

(** ** Files *)

(** The files the program may read: path to contents. *)
Abbreviation filesystem := (gmap string string).

(** [with open(path) as f: f.read()]: the attempt is an event; a missing
    file raises [FileNotFoundError]; the file is read in text mode, so
    its line ends arrive translated ([universal_newlines]). *)
Definition open_read (fs : filesystem) (path : string) : Prog string :=
  emit (OpenFile path) ;;
  match fs !! path with
  | Some contents => wret (universal_newlines contents)
  | None => throw (FileNotFoundError path)
  end.

(** ** Observing traces *)

Definition is_show_page (e : event) : bool :=
  match e with ShowPage => true | _ => false end.

Definition is_frame (e : event) : bool :=
  match e with AddFrame _ _ => true | _ => false end.

Definition is_open (path : string) (e : event) : bool :=
  match e with OpenFile p => bool_decide (p = path) | _ => false end.

(** Number of events of a trace satisfying [p]. *)
Definition count_ev (p : event -> bool) (t : list event) : nat :=
  length (filter (fun e => p e = true) t).

Lemma count_ev_app p t1 t2 : count_ev p (t1 ++ t2) = count_ev p t1 + count_ev p t2.
Proof. unfold count_ev. by rewrite filter_app, length_app. Qed.

Lemma count_ev_cons p e t :
  count_ev p (e :: t) = (if p e then 1 else 0) + count_ev p t.
Proof. unfold count_ev. rewrite filter_cons. by destruct (p e). Qed.

Lemma count_ev_nil p : count_ev p [] = 0.
Proof. reflexivity. Qed.

#[export] Hint Rewrite count_ev_app count_ev_cons count_ev_nil : gotag.

Lemma open_read_found fs path contents :
  fs !! path = Some contents ->
  open_read fs path = ([OpenFile path], Ok (universal_newlines contents)).
Proof. intros H. unfold open_read. wsimp. by rewrite H. Qed.

Lemma open_read_missing fs path :
  fs !! path = None ->
  open_read fs path = ([OpenFile path], Err (FileNotFoundError path)).
Proof. intros H. unfold open_read. wsimp. by rewrite H. Qed.
