(* ===== verification/Instrument.v ===== *)
(** * The [Instrument] class

    An [Instrument] wraps one row of [csv.DictReader] (a Python dict from
    column names to values) and reads it through accessors, each a
    [self.row[key]] that raises [KeyError] when the column is absent
    ([src/main.py], lines 16-36; [src/make_tags.py] repeats the class). *)

From S2P Require Import Prelude PyStr.
From stdpp Require Import base strings gmap list.

Local Open Scope gotag_scope.

(** A [csv.DictReader] row: the dict from column names to values.
    [DictReader] stores the surplus fields of a long row under the key
    [None] (its [restkey]); no accessor can reach that key, so it is kept
    apart from the string-keyed entries, in [row_rest]. *)
Record dict_row : Type := mk_dict_row {
  row_fields : gmap string pyval;
  row_rest : option (list string)
}.

(** [row[key]] for a string key. *)
Definition getitem (d : dict_row) (key : string) : res pyval :=
  match row_fields d !! key with
  | Some v => Ok v
  | None => Err (KeyError key)
  end.

(** [class Instrument: def __init__(self, row): self.row = row] *)
Record Instrument : Type := mkInstrument { row : dict_row }.

Definition category (self : Instrument) : res pyval := getitem (row self) "Category".
Definition model (self : Instrument) : res pyval := getitem (row self) "Model".
Definition serial_no (self : Instrument) : res pyval := getitem (row self) "Serial NO".
Definition size (self : Instrument) : res pyval := getitem (row self) "Size".
Definition student (self : Instrument) : res pyval := getitem (row self) "Student".

(** [self.row['PRINT'] == 'TRUE']: an exact, case-sensitive comparison. *)
Definition print_please (self : Instrument) : res bool :=
  let? v := getitem (row self) "PRINT" in Ok (py_eq_str v "TRUE").

(** The columns the accessors read. *)
Definition instrument_columns : list string :=
  ["Category"; "Model"; "Serial NO"; "Size"; "Student"; "PRINT"].

(** An [Instrument] none of whose accessors raises [KeyError]. *)
Definition instrument_typed (i : Instrument) : Prop :=
  Forall (fun k => exists v, getitem (row i) k = Ok v) instrument_columns.

(** ** Lemmas *)

Lemma getitem_some d key v : row_fields d !! key = Some v -> getitem d key = Ok v.
Proof. unfold getitem. by intros ->. Qed.

Lemma getitem_none d key : row_fields d !! key = None -> getitem d key = Err (KeyError key).
Proof. unfold getitem. by intros ->. Qed.

(** Whether the row is printed, when its [PRINT] column is present. *)
Lemma print_please_value d v :
  row_fields d !! "PRINT" = Some v ->
  print_please (mkInstrument d) = Ok (py_eq_str v "TRUE").
Proof. intros H. unfold print_please. simpl. by rewrite (getitem_some _ _ _ H). Qed.

