(* ===== verification/CsvLoad.v ===== *)
(** * Loading the inventory

    [instruments_from_csv(csv_path)] ([src/main.py], lines 39-45) opens
    the file, iterates a [csv.DictReader] (delimiter [;], the double
    quote as quote character) and wraps each row in an [Instrument].  The tokenising
    of the file into rows of fields ([csv.reader]) is a library service,
    reached through the interface [CsvReader] ([PyCsv]); what [DictReader] does with
    those rows (Python's [csv.py], [DictReader.__next__]) is modelled:
    the first row names the columns, blank rows are skipped, a short row
    gets [None] ([restval]) for its missing columns and a long row keeps
    its surplus fields under the key [None] ([restkey]). *)

From S2P Require Import Prelude PyStr PyCsv Effects Instrument.
From stdpp Require Import base strings gmap list.
From Stdlib Require Import Ascii.

Local Open Scope gotag_scope.

(** [d = dict(zip(fieldnames, row))], then [d[restkey] = row[lf:]] for a
    long row or [d[key] = restval] for each missing key of a short row. *)
Definition dict_of_row (fieldnames row : list string) : dict_row :=
  let d := insert_all PyStr ∅ (zip fieldnames row) in
  let lf := length fieldnames in
  let lr := length row in
  if lf <? lr then mk_dict_row d (Some (drop lf row))
  else if lr <? lf then mk_dict_row (foldl (fun m k => <[k := PyNone]> m) d (drop lr fieldnames)) None
  else mk_dict_row d None.

(** [DictReader.__next__] after the header: [while row == []: row = next(...)]. *)
Fixpoint dict_rows (fieldnames : list string) (rows : list (list string)) : list dict_row :=
  match rows with
  | [] => []
  | [] :: rest => dict_rows fieldnames rest
  | row :: rest => dict_of_row fieldnames row :: dict_rows fieldnames rest
  end.

(** The first row is the header ([fieldnames]); an empty file has no rows. *)
Definition dict_reader (rows : list (list string)) : list dict_row :=
  match rows with
  | [] => []
  | header :: body => dict_rows header body
  end.

Definition instruments_from_csv `{CsvReader} (fs : filesystem) (csv_path : string)
    : Prog (list Instrument) :=
  csvfile <- open_read fs csv_path ;;
  rows <- lift (csv_reader csvfile) ;;
  wret (map mkInstrument (dict_reader rows)).

(** ** Samples *)

(** The header of the inventory and a row lacking its last two fields. *)
Definition inventory_header : list string :=
  ["Category"; "Model"; "Serial NO"; "Size"; "Student"; "PRINT"].

Definition short_row : list string := ["Viola"; "Gliga"; "77"; "15"].

(** A small inventory file: a header, a printable row, a blank line and
    a short row. *)
Definition sample_inventory : string :=
  String.concat nl ["Category;Model;Serial NO;Size;Student;PRINT";
    "Violin;Yamaha;123;4/4;Kari;TRUE"; ""; "Cello;Stentor;;1/2;Ola"; ""].

(** The sample inventory as a quoting writer writes it: the serial
    number of the violin holds the delimiter. *)
Definition written_inventory : string :=
  write_rows gotag_dialect [inventory_header; ["Violin"; "Yamaha"; "12;3"; "4/4"; "Kari"; "TRUE"]; []].

(** ** Rows as dicts *)

Lemma restval_notin (ks : list string) (m : gmap string pyval) k :
  k ∉ ks -> foldl (fun m key => <[key := PyNone]> m) m ks !! k = m !! k.
Proof.
  revert m. induction ks as [|k' ks IH]; intros m Hk; simpl; [done|].
  rewrite elem_of_cons in Hk. rewrite IH by naive_solver.
  apply lookup_insert_ne. naive_solver.
Qed.

Lemma restval_in (ks : list string) (m : gmap string pyval) k :
  k ∈ ks -> foldl (fun m key => <[key := PyNone]> m) m ks !! k = Some PyNone.
Proof.
  revert m. induction ks as [|k' ks IH]; intros m Hk; simpl; [by apply elem_of_nil in Hk|].
  destruct (decide (k ∈ ks)) as [Hin|Hnin]; [by apply IH|].
  rewrite restval_notin by done. rewrite elem_of_cons in Hk.
  destruct Hk as [->|]; [apply lookup_insert_eq|done].
Qed.

(** A key among the pairs [drop j (zip h r)] is a column of index [>= j]. *)
Lemma zip_drop_keys (h r : list string) j k :
  k ∈ (drop j (zip h r)).*1 -> exists j', h !! (j + j') = Some k.
Proof.
  intros Hk. apply list_elem_of_fmap in Hk as ([k' b] & -> & Hin).
  apply list_elem_of_lookup in Hin as [j' Hj']. rewrite lookup_drop in Hj'.
  apply lookup_zip_Some in Hj' as [Hh _]. by exists j'.
Qed.

Lemma drop_keys (h : list string) j k :
  k ∈ drop j h -> exists j', h !! (j + j') = Some k.
Proof.
  intros Hk. apply list_elem_of_lookup in Hk as [j' Hj'].
  rewrite lookup_drop in Hj'. by exists j'.
Qed.

Lemma elem_of_drop_lookup (h : list string) j j' k :
  j <= j' -> h !! j' = Some k -> k ∈ drop j h.
Proof.
  intros Hj Hk. apply list_elem_of_lookup. exists (j' - j).
  rewrite lookup_drop. by replace (j + (j' - j)) with j' by lia.
Qed.

(** The i-th field is the value of the i-th column name when no later
    column has the same name: [dict(zip(...))] keeps the last value of a
    repeated key, and [restval] only fills columns after the row's end. *)
Lemma dict_of_row_field (fieldnames row : list string) i k v :
  fieldnames !! i = Some k -> row !! i = Some v -> k ∉ drop (S i) fieldnames ->
  row_fields (dict_of_row fieldnames row) !! k = Some (PyStr v).
Proof.
  intros Hi Hv Hlater. unfold dict_of_row.
  assert (insert_all PyStr ∅ (zip fieldnames row) !! k = Some (PyStr v)) as Hd.
  { apply (insert_all_last _ _ _ i _ v); [by apply lookup_zip_Some|].
    intros (j' & Hj')%zip_drop_keys. apply Hlater. eapply elem_of_drop_lookup; [|done]. lia. }
  pose proof (lookup_lt_Some _ _ _ Hv).
  destruct (Nat.ltb_spec (length fieldnames) (length row)); [done|].
  destruct (Nat.ltb_spec (length row) (length fieldnames)); [|done]. simpl.
  rewrite restval_notin; [done|]. intros (j' & Hj')%drop_keys.
  apply Hlater. eapply elem_of_drop_lookup; [|done]. lia.
Qed.

(** With a header of distinct column names, the row dict maps the i-th
    column name to the i-th field, or to [None] when the row is too short
    to have one, and has no other string key. *)
Lemma dict_of_row_lookup (fieldnames row : list string) :
  NoDup fieldnames ->
  (forall i k, fieldnames !! i = Some k ->
     row_fields (dict_of_row fieldnames row) !! k =
     Some (match row !! i with Some v => PyStr v | None => PyNone end)) /\
  (forall k, k ∉ fieldnames -> row_fields (dict_of_row fieldnames row) !! k = None).
Proof.
  intros Hnd. unfold dict_of_row. split.
  - intros i k Hi. destruct (row !! i) as [v|] eqn:Hv.
    + apply (dict_of_row_field _ _ i); [done|done|].
      intros (j' & Hj')%drop_keys. pose proof (NoDup_lookup _ _ _ _ Hnd Hi Hj'). lia.
    + apply lookup_ge_None in Hv. pose proof (lookup_lt_Some _ _ _ Hi).
      destruct (Nat.ltb_spec (length fieldnames) (length row)); [lia|].
      destruct (Nat.ltb_spec (length row) (length fieldnames)); [|lia]. simpl.
      apply restval_in. apply list_elem_of_lookup. exists (i - length row).
      rewrite lookup_drop. by replace (length row + (i - length row)) with i by lia.
  - intros k Hk.
    assert (insert_all PyStr ∅ (zip fieldnames row) !! k = None) as Hd.
    { rewrite insert_all_notin; [done|]. intros Hin.
      rewrite <- (drop_0 (zip fieldnames row)) in Hin.
      apply zip_drop_keys in Hin as [j' Hj']. apply Hk, list_elem_of_lookup. by exists j'. }
    destruct (_ <? _); [done|]. destruct (_ <? _); [|done]. simpl.
    rewrite restval_notin; [done|]. intros (j' & Hj')%drop_keys.
    apply Hk, list_elem_of_lookup. by eexists.
Qed.

(** C20: [row[key]] on a [DictReader] row, for a header of distinct
    column names: the i-th column gives the i-th field, or [None] when the
    row is too short to have one (no error is raised for a short row), and
    a name that is not a column raises [KeyError]. *)
Theorem dict_of_row_getitem (fieldnames row : list string) :
  NoDup fieldnames ->
  (forall i k, fieldnames !! i = Some k ->
     getitem (dict_of_row fieldnames row) k =
     Ok (match row !! i with Some v => PyStr v | None => PyNone end)) /\
  (forall k, k ∉ fieldnames -> getitem (dict_of_row fieldnames row) k = Err (KeyError k)).
Proof.
  intros Hnd. destruct (dict_of_row_lookup fieldnames row Hnd) as [Hin Hout].
  split; intros.
  - apply getitem_some. eauto.
  - apply getitem_none. eauto.
Qed.

Example dict_of_row_getitem_witness :
  getitem (dict_of_row inventory_header short_row) "Serial NO" = Ok (PyStr "77") /\
  getitem (dict_of_row inventory_header short_row) "PRINT" = Ok PyNone /\
  getitem (dict_of_row inventory_header short_row) "Owner" = Err (KeyError "Owner").
Proof.
  destruct (dict_of_row_getitem inventory_header short_row ltac:(decide_by_eval)) as [Hin Hout].
  split; [exact (Hin 2 "Serial NO" eq_refl)|].
  split; [exact (Hin 5 "PRINT" eq_refl)|].
  apply Hout. decide_by_eval.
Defined.

(** C30: a column name repeated in the header: [row[key]] gives the
    field of the LAST column with that name, whatever the earlier columns
    hold ([dict(zip(fieldnames, row))] overwrites), as long as the row
    reaches that column. *)
Theorem dict_of_row_repeated_column (fieldnames row : list string) (i : nat) (k v : string) :
  fieldnames !! i = Some k -> row !! i = Some v -> k ∉ drop (S i) fieldnames ->
  getitem (dict_of_row fieldnames row) k = Ok (PyStr v).
Proof. intros Hi Hv Hl. apply getitem_some. by apply (dict_of_row_field _ _ i). Qed.

(** A header with two [PRINT] columns: the second one decides. *)
Example dict_of_row_repeated_column_witness :
  getitem (dict_of_row ["PRINT"; "Category"; "PRINT"] ["FALSE"; "Violin"; "TRUE"]) "PRINT"
  = Ok (PyStr "TRUE").
Proof.
  apply (dict_of_row_repeated_column _ _ 2); [reflexivity|reflexivity|decide_by_eval].
Defined.

(** C21: a short row whose [PRINT] column is missing is not printed: its
    [PRINT] is [None], which is not equal to ['TRUE'], so the loop skips
    it silently; no parsing error is raised. *)
Theorem short_row_not_printed (fieldnames row : list string) (i : nat) :
  NoDup fieldnames -> fieldnames !! i = Some "PRINT" -> length row <= i ->
  print_please (mkInstrument (dict_of_row fieldnames row)) = Ok false.
Proof.
  intros Hnd Hi Hlen.
  destruct (dict_of_row_lookup fieldnames row Hnd) as [Hin _].
  rewrite (print_please_value _ PyNone); [done|].
  rewrite (Hin i _ Hi). by rewrite (proj2 (lookup_ge_None row i) Hlen).
Qed.

Example short_row_not_printed_witness :
  print_please (mkInstrument (dict_of_row inventory_header short_row)) = Ok false.
Proof. apply (short_row_not_printed inventory_header short_row 5); [decide_by_eval|done|simpl; lia]. Defined.

(** ** Reading the inventory *)

Lemma dict_rows_filter (fieldnames : list string) (rows : list (list string)) :
  dict_rows fieldnames rows =
  map (dict_of_row fieldnames) (filter (fun r => r <> []) rows).
Proof.
  induction rows as [|r rows IH]; [done|]. destruct r as [|f fs]; cbn [dict_rows].
  - by rewrite filter_cons_False by naive_solver.
  - rewrite filter_cons_True by done. simpl. by rewrite IH.
Qed.

(** C22: [instruments_from_csv] opens the file once and, when the csv
    reader accepts its text, returns one [Instrument] per non-blank row
    after the header, in file order, each the dict of its row under the
    header's column names (none for an empty file); an error of the
    reader propagates. *)
Theorem instruments_from_csv_rows `{CsvReader} (fs : filesystem) (csv_path contents : string) :
  fs !! csv_path = Some contents ->
  instruments_from_csv fs csv_path =
  ([OpenFile csv_path],
   match csv_reader (universal_newlines contents) with
   | Ok [] => Ok []
   | Ok (header :: body) =>
       Ok (map (fun r => mkInstrument (dict_of_row header r)) (filter (fun r => r <> []) body))
   | Err e => Err e
   end).
Proof.
  intros Hfs. unfold instruments_from_csv.
  rewrite (open_read_found _ _ _ Hfs), wbind_ok. simpl.
  destruct (csv_reader _) as [[|header body]|e]; simpl; [done| |done].
  by rewrite dict_rows_filter, map_map.
Qed.

Example instruments_from_csv_rows_witness :
  instruments_from_csv {[ "./inventory.csv" := sample_inventory ]} "./inventory.csv" =
  ([OpenFile "./inventory.csv"],
   Ok [mkInstrument (dict_of_row inventory_header ["Violin"; "Yamaha"; "123"; "4/4"; "Kari"; "TRUE"]);
       mkInstrument (dict_of_row inventory_header ["Cello"; "Stentor"; ""; "1/2"; "Ola"])]).
Proof.
  rewrite (instruments_from_csv_rows _ _ sample_inventory); [|reflexivity].
  vm_compute. reflexivity.
Defined.

(** Loading a file written by the quoting writer (see C26). *)
Lemma load_written_csv (fs : filesystem) (csv_path : string)
    (header : list string) (body : list (list string)) :
  fs !! csv_path = Some (write_rows gotag_dialect (header :: body)) ->
  Forall (Forall (fun f => String.length f <= field_size_limit_default /\ str_mem cr_char f = false))
    (header :: body) ->
  instruments_from_csv fs csv_path =
  ([OpenFile csv_path],
   Ok (map (fun r => mkInstrument (dict_of_row header r)) (filter (fun r => r <> []) body))).
Proof.
  intros Hfs [Hlen Hcr]%Forall_Forall_and. unfold instruments_from_csv.
  rewrite (open_read_found _ _ _ Hfs), wbind_ok. cbn [csv_reader python_csv_reader lift].
  rewrite text_mode_written, csv_read_write_rows by (done || decide_by_eval).
  cbn. by rewrite dict_rows_filter, map_map.
Qed.

(** C26: the loader composed with the csv reader: a file written by a
    quoting writer, whose fields are within the field-size limit and
    hold no carriage return, loads as one [Instrument] per non-empty row
    after the header, each the dict of the row written, even when
    fields hold the delimiter, quote characters or newlines. *)
Theorem instruments_from_written_csv (fs : filesystem) (csv_path : string)
    (header : list string) (body : list (list string)) :
  fs !! csv_path = Some (write_rows gotag_dialect (header :: body)) ->
  Forall (Forall (fun f => String.length f <= field_size_limit_default /\ str_mem cr_char f = false))
    (header :: body) ->
  instruments_from_csv fs csv_path =
  ([OpenFile csv_path],
   Ok (map (fun r => mkInstrument (dict_of_row header r)) (filter (fun r => r <> []) body))).
Proof. apply load_written_csv. Qed.

Example instruments_from_written_csv_witness :
  instruments_from_csv {[ "./inventory.csv" := written_inventory ]} "./inventory.csv" =
  ([OpenFile "./inventory.csv"],
   Ok [mkInstrument (dict_of_row inventory_header ["Violin"; "Yamaha"; "12;3"; "4/4"; "Kari"; "TRUE"])]).
Proof.
  rewrite (instruments_from_written_csv _ _ inventory_header
    [["Violin"; "Yamaha"; "12;3"; "4/4"; "Kari"; "TRUE"]; []]); [reflexivity|reflexivity|].
  decide_by_eval.
Defined.

(** C32: a stray quote in the inventory hides every record after it.
    When the file is a written inventory followed by a line that opens a
    quote it never closes, [instruments_from_csv] raises nothing: it
    returns the written records and ONE more, whose first column holds the
    rest of the file and whose other columns are [None]; when [PRINT] is
    not the first column, that record is not printable, so no record from
    the stray quote on gets a tag, and nothing reports it. *)
Theorem instruments_from_csv_unclosed_quote (fs : filesystem) (csv_path : string)
    (header : list string) (body : list (list string)) (f : string) :
  fs !! csv_path = Some (write_rows gotag_dialect (header :: body) +:+ String dquote (f +:+ nl)) ->
  Forall (Forall (fun x => String.length x <= field_size_limit_default /\ str_mem cr_char x = false))
    (header :: body) ->
  str_mem dquote f = false -> str_mem cr_char f = false ->
  S (String.length f) <= field_size_limit_default ->
  "PRINT" ∈ drop 1 header ->
  instruments_from_csv fs csv_path =
  ([OpenFile csv_path],
   Ok (map (fun r => mkInstrument (dict_of_row header r)) (filter (fun r => r <> []) body) ++
       [mkInstrument (dict_of_row header [f +:+ nl])])) /\
  print_please (mkInstrument (dict_of_row header [f +:+ nl])) = Ok false.
Proof.
  intros Hfs Hall Hfq Hfcr Hflen Hp. split.
  - unfold instruments_from_csv.
    rewrite (open_read_found _ _ _ Hfs), wbind_ok. cbn [csv_reader python_csv_reader lift].
    rewrite read_unclosed_quote by (done || decide_by_eval). cbn.
    rewrite dict_rows_filter, filter_app, !map_app, map_map. by rewrite filter_cons_True.
  - unfold print_please. rewrite (getitem_some _ _ PyNone); [done|].
    unfold dict_of_row. cbn [row row_fields].
    destruct header as [|h1 [|h2 hs]]; [by apply elem_of_nil in Hp|by apply elem_of_nil in Hp|].
    cbn [length Nat.ltb Nat.leb]. by apply restval_in.
Qed.

(** C27: a file whose header names each column the accessors read, once,
    loads as instruments none of whose accessors raises [KeyError],
    whatever the length of their rows. *)
Theorem instruments_from_csv_typed `{CsvReader} (fs : filesystem) (csv_path contents : string)
    (header : list string) (body : list (list string)) :
  fs !! csv_path = Some contents ->
  csv_reader (universal_newlines contents) = Ok (header :: body) ->
  NoDup header -> Forall (fun k => k ∈ header) instrument_columns ->
  exists instruments,
    instruments_from_csv fs csv_path = ([OpenFile csv_path], Ok instruments) /\
    Forall instrument_typed instruments.
Proof.
  intros Hfs Hrows Hnd Hcols. eexists. split.
  { unfold instruments_from_csv. rewrite (open_read_found _ _ _ Hfs), wbind_ok.
    cbn [lift]. rewrite Hrows. reflexivity. }
  cbn. rewrite dict_rows_filter, map_map, Forall_map, Forall_forall. intros r _.
  unfold instrument_typed. cbn [row]. eapply Forall_impl; [exact Hcols|].
  intros k (i & Hi)%list_elem_of_lookup.
  eexists. apply getitem_some. by apply (proj1 (dict_of_row_lookup header r Hnd) i).
Qed.

Example instruments_from_csv_typed_witness :
  exists instruments,
    instruments_from_csv {[ "./inventory.csv" := sample_inventory ]} "./inventory.csv" =
      ([OpenFile "./inventory.csv"], Ok instruments) /\
    Forall instrument_typed instruments.
Proof.
  apply (instruments_from_csv_typed _ _ sample_inventory inventory_header
    [["Violin"; "Yamaha"; "123"; "4/4"; "Kari"; "TRUE"]; []; ["Cello"; "Stentor"; ""; "1/2"; "Ola"]]);
    [reflexivity | vm_compute; reflexivity | decide_by_eval | decide_by_eval].
Defined.

(** The sample inventory after a record whose serial number opens a quote. *)
Example instruments_from_csv_unclosed_quote_witness :
  instruments_from_csv
    {[ "./inventory.csv" := write_rows gotag_dialect [inventory_header] +:+
         String dquote ("12;4/4;Kari;TRUE" +:+ nl) ]} "./inventory.csv" =
  ([OpenFile "./inventory.csv"],
   Ok (map (fun r => mkInstrument (dict_of_row inventory_header r)) (filter (fun r => r <> []) []) ++
       [mkInstrument (dict_of_row inventory_header ["12;4/4;Kari;TRUE" +:+ nl])])) /\
  print_please (mkInstrument (dict_of_row inventory_header ["12;4/4;Kari;TRUE" +:+ nl])) = Ok false.
Proof.
  apply instruments_from_csv_unclosed_quote;
    [reflexivity|decide_by_eval|reflexivity|reflexivity| |decide_by_eval].
  cbn [String.length String.append nl]. unfold field_size_limit_default. lia.
Defined.
