(* ===== verification/TagText.v ===== *)
(** * The text of a tag

    [text_from_instrument] (the body of a tag), [replace_new_lines]
    (newlines to reportlab's [<br/>] markup), the paragraph styles
    [address_style] and [body_style], the hard-coded [return_address] of
    [src/main.py]. *)

From S2P Require Import Prelude PyStr Effects Instrument.
From stdpp Require Import base strings gmap list.
From Stdlib Require Import String Ascii.

Local Open Scope string_scope.
Local Open Scope gotag_scope.

(** [return_address]: a triple-quoted literal whose backslashes drop the
    first and the last newline, leaving two lines. *)
Definition return_address : string :=
  "GO! Orchestra" ++ nl ++ "Org nr. 922 581 762".

(** The f-string of [text_from_instrument], as written in the source: each
    line is indented by four spaces, the second line holds only the
    indentation, the sixth is empty, and the closing quotes follow four
    spaces after the student's name (the backslash joins the lines). *)
Definition tag_template (category model serial_no size student : string) : string :=
  "    " ++ category ++ nl ++
  "    " ++ nl ++
  "    " ++ model ++ nl ++
  "    Serial Nr: " ++ serial_no ++ nl ++
  "    Size: " ++ size ++ nl ++
  nl ++
  "    " ++ student ++ "    ".

Definition text_from_instrument (instrument : Instrument) : res string :=
  let? category := category instrument in
  let? model := model instrument in
  let? serial_no := serial_no instrument in
  let? n := py_len serial_no in
  let serial_no := if Nat.eqb n 0 then PyStr "N/A" else serial_no in
  let? size := Instrument.size instrument in
  let? student := student instrument in
  Ok (tag_template (py_format category) (py_format model) (py_format serial_no)
        (py_format size) (py_format student)).

(** [string.replace('\n', '<br/>')] *)
Definition replace_new_lines (s : string) : string :=
  py_replace nl "<br/>" s.

Definition address_style : paragraph_style :=
  let style := ParagraphStyle "Address" in
  {| style_name := style_name style; fontName := "Courier"; fontSize := 12;
     spaceAfter := 10 |}.

Definition body_style : paragraph_style :=
  let style := ParagraphStyle "Body" in
  {| style_name := style_name style; fontName := "Courier"; fontSize := 12;
     spaceAfter := spaceAfter style |}.

(** A row with an empty serial number and no size. *)
Definition violin_row : dict_row :=
  mk_dict_row (list_to_map [("Category", PyStr "Violin"); ("Model", PyStr "Yamaha");
    ("Serial NO", PyStr ""); ("Size", PyNone); ("Student", PyStr "Kari")]) None.

(** A short row: no serial number, size or student. *)
Definition short_cello_row : dict_row :=
  mk_dict_row (list_to_map [("Category", PyStr "Cello"); ("Model", PyStr "Stentor");
    ("Serial NO", PyNone); ("Size", PyNone); ("Student", PyNone); ("PRINT", PyNone)]) None.

(** ** The text of a tag *)

(** C16: on a row whose five text columns are present and whose serial
    number is a string, the tag text is the template filled with the
    values as f-strings format them ([None] prints as ["None"]), the serial
    number replaced by ["N/A"] exactly when it is empty. *)
Theorem text_from_instrument_ok (d : dict_row) (c m z st : pyval) (s : string) :
  getitem d "Category" = Ok c -> getitem d "Model" = Ok m ->
  getitem d "Serial NO" = Ok (PyStr s) -> getitem d "Size" = Ok z ->
  getitem d "Student" = Ok st ->
  text_from_instrument (mkInstrument d) =
  Ok (tag_template (py_format c) (py_format m) (if String.eqb s "" then "N/A" else s)
        (py_format z) (py_format st)).
Proof.
  intros Hc Hm Hs Hz Hst. unfold text_from_instrument, category, model, serial_no,
    Instrument.size, student; simpl.
  rewrite Hc, Hm, Hs, Hz, Hst. simpl. by destruct s.
Qed.

Example text_from_instrument_ok_witness :
  text_from_instrument (mkInstrument violin_row) =
  Ok (tag_template "Violin" "Yamaha" "N/A" "None" "Kari").
Proof.
  exact (text_from_instrument_ok violin_row (PyStr "Violin") (PyStr "Yamaha") PyNone
    (PyStr "Kari") "" eq_refl eq_refl eq_refl eq_refl eq_refl).
Defined.

(** C17: a serial number that is [None] (a short row) makes
    [len(serial_no)] raise [TypeError], once the columns read before it
    are present; the fields after it are not read. *)
Theorem text_from_instrument_serial_none (d : dict_row) (c m : pyval) :
  getitem d "Category" = Ok c -> getitem d "Model" = Ok m ->
  getitem d "Serial NO" = Ok PyNone ->
  text_from_instrument (mkInstrument d) =
  Err (TypeError "object of type 'NoneType' has no len()").
Proof.
  intros Hc Hm Hs. unfold text_from_instrument, category, model, serial_no; simpl.
  by rewrite Hc, Hm, Hs.
Qed.

Example text_from_instrument_serial_none_witness :
  text_from_instrument (mkInstrument short_cello_row) =
  Err (TypeError "object of type 'NoneType' has no len()").
Proof.
  exact (text_from_instrument_serial_none short_cello_row (PyStr "Cello") (PyStr "Stentor")
    eq_refl eq_refl eq_refl).
Defined.

(** ** The markup handed to [Paragraph] *)

Lemma replace_new_lines_char (s : string) :
  replace_new_lines s = replace_char nl_char "<br/>" s.
Proof. unfold replace_new_lines, nl. by rewrite py_replace_char. Qed.

(** C18: [replace_new_lines] is Python's [str.replace] of the newline by
    [<br/>], which is the per-character translation of each newline, and
    its result holds no newline. *)
Theorem replace_new_lines_spec (s : string) :
  replace_new_lines s = replace_char nl_char "<br/>" s /\
  str_mem nl_char (replace_new_lines s) = false.
Proof.
  rewrite replace_new_lines_char. split; [done|]. by apply replace_char_mem.
Qed.

(** Reading the markup back: in a translation of a text without [<], every
    [<br/>] comes from a newline. *)
Lemma replace_fuel_br_back (s : string) (fuel : nat) :
  str_mem "<"%char s = false ->
  String.length (replace_char nl_char "<br/>" s) < fuel ->
  replace_fuel fuel "<br/>" nl (replace_char nl_char "<br/>" s) = s.
Proof.
  revert fuel. induction s as [|c s IH]; intros [|fuel] Hs Hf; simpl in *; try lia; [done|].
  destruct (ascii_dec c "<"%char) as [->|Hlt]; [done|].
  destruct (ascii_dec c nl_char) as [->|Hnl].
  - simpl. rewrite PyStr.prefix_nil. simpl. f_equal. apply IH; [done|].
    rewrite length_string_app in Hf. simpl in Hf. lia.
  - cbn [String.append]. cbn [replace_fuel].
    replace (String.prefix "<br/>" (String c (replace_char nl_char "<br/>" s))) with false
      by (cbn [String.prefix]; destruct (ascii_dec "<"%char c) as [E|]; [congruence|done]).
    f_equal. apply IH; [done|]. simpl in Hf. lia.
Qed.

(** C19: the newline translation loses nothing: on a text without [<]
    (a tag body whose fields hold no markup), Python's
    [replace('<br/>', '\n')] applied to [replace_new_lines] gives the text
    back. *)
Theorem replace_new_lines_roundtrip (s : string) :
  str_mem "<"%char s = false ->
  py_replace "<br/>" nl (replace_new_lines s) = s.
Proof.
  intros Hs. rewrite replace_new_lines_char. unfold py_replace. cbn [String.eqb].
  apply replace_fuel_br_back; [done|lia].
Qed.

Example replace_new_lines_roundtrip_witness :
  py_replace "<br/>" nl (replace_new_lines (tag_template "Violin" "Yamaha" "N/A" "4/4" "Kari"))
  = tag_template "Violin" "Yamaha" "N/A" "4/4" "Kari".
Proof. apply replace_new_lines_roundtrip. vm_compute. reflexivity. Defined.
