(* ===== verification/Layout.v ===== *)
(** * The layout loop of [main]

    The loop [for instrument in instruments: ...] of [main]
    ([src/main.py], lines 99-120; [src/make_tags.py], lines 110-131)
    skips the records whose [PRINT] is not [TRUE], places the others on a
    [rows] x [cols] grid of [tag_width] x [tag_height] frames, and calls
    [canvas.showPage()] when a page is full.  Its state is the pair of
    locals [tag_index] (the slot on the current page) and [page] (0 until
    the first tag, then the number of the current page).

    The section [Loop] translates one iteration ([page_break],
    [place_tag], [loop_body]) and the loop ([main_loop]).  The abstract
    specification [spec_trace] places the k-th printable record (from 0)
    at page [k / (rows*cols)], row [(k mod (rows*cols)) / cols] and
    column [(k mod (rows*cols)) mod cols], with a page break before every
    slot [k > 0] with [k mod (rows*cols) = 0]; [main_loop_refines] proves
    that the loop emits exactly this trace.  The loop is written against
    the interface [TagScript] of the helpers it calls, so that it serves
    both scripts; the lemmas of the section [AddressSource] relate a run
    that reads the address from a file to one with a constant address. *)

From S2P Require Import Prelude PyStr Effects Instrument TagText.
From stdpp Require Import base strings gmap list.
From Stdlib Require Import QArith Lia.

Local Close Scope Q_scope.
Local Open Scope gotag_scope.

(** ** Configuration and state *)

(** The constants of [main]: [tag_width = 69 * mm], [tag_height = 98 * mm],
    [rows = 3], [cols = 3]. *)
Record layout_config : Type := mk_layout_config {
  tag_width : Q;
  tag_height : Q;
  rows : nat;
  cols : nat
}.

Definition main_config : layout_config :=
  {| tag_width := (69 * mm)%Q; tag_height := (98 * mm)%Q; rows := 3; cols := 3 |}.

Record loop_state : Type := mk_loop_state {
  tag_index : nat;
  page : nat
}.

(** [tag_index = 0], [page = 0] *)
Definition loop_init : loop_state := mk_loop_state 0 0.

Definition capacity (cfg : layout_config) : nat := rows cfg * cols cfg.

(** ** The script around the loop

    The loop calls five helpers of its own script: [print_please] of the
    [Instrument] class, [text_from_instrument], [replace_new_lines] and the
    two styles.  [src/main.py] and [src/make_tags.py] each define their
    own copies; the loop is written once against this interface, and
    [main_py_script] gathers those of [src/main.py]. *)
Class TagScript := {
  script_print_please : Instrument -> res bool;
  script_text_from_instrument : Instrument -> res string;
  script_replace_new_lines : string -> string;
  script_address_style : paragraph_style;
  script_body_style : paragraph_style
}.

Definition main_py_script : TagScript := {|
  script_print_please := print_please;
  script_text_from_instrument := text_from_instrument;
  script_replace_new_lines := replace_new_lines;
  script_address_style := address_style;
  script_body_style := body_style
|}.

Section WithScript.
Context `{script : TagScript}.

(** The two paragraphs of a tag: the address, then the record. *)
Definition tag_parts (address_text inst_text : string) : list paragraph :=
  [Paragraph (script_replace_new_lines address_text) script_address_style;
   Paragraph (script_replace_new_lines inst_text) script_body_style].

(** [x = col * tag_width], [y = row * tag_height]. *)
Definition grid_frame (cfg : layout_config) (col row : nat) : frame :=
  Frame (inject_Z (Z.of_nat col) * tag_width cfg)%Q
        (inject_Z (Z.of_nat row) * tag_height cfg)%Q
        (tag_width cfg) (tag_height cfg) 1.

Section Loop.
Context (cfg : layout_config).
(** The address paragraph's text: [return_address] in [src/main.py],
    [address(args.address)] (a file read) in [src/make_tags.py]. *)
Context (get_address : Prog string).

(** [if tag_index % (rows * cols) == 0: if page == 0: page = 1
    else: canvas.showPage(); page += 1; tag_index = 0] *)
Definition page_break (st : loop_state) : Prog loop_state :=
  m <- lift (py_mod (tag_index st) (rows cfg * cols cfg)) ;;
  if m =? 0 then
    if page st =? 0 then wret (mk_loop_state (tag_index st) 1)
    else (emit ShowPage ;; wret (mk_loop_state 0 (page st + 1)))
  else wret st.

(** From [inst_text = text_from_instrument(instrument)] to
    [tag_index += 1]. *)
Definition place_tag (st : loop_state) (instrument : Instrument) : Prog loop_state :=
  inst_text <- lift (script_text_from_instrument instrument) ;;
  col <- lift (py_mod (tag_index st) (cols cfg)) ;;
  row' <- lift (py_floor_div (tag_index st) (cols cfg)) ;;
  let tag := grid_frame cfg col row' in
  address_text <- get_address ;;
  emit (AddFrame tag (tag_parts address_text inst_text)) ;;
  wret (mk_loop_state (tag_index st + 1) (page st)).

(** One iteration: [if not instrument.print_please(): continue]. *)
Definition loop_body (st : loop_state) (instrument : Instrument) : Prog loop_state :=
  p <- lift (script_print_please instrument) ;;
  if p then (st' <- page_break st ;; place_tag st' instrument)
  else wret st.

Fixpoint main_loop (st : loop_state) (instruments : list Instrument) : Prog loop_state :=
  match instruments with
  | [] => wret st
  | instrument :: rest => st' <- loop_body st instrument ;; main_loop st' rest
  end.
End Loop.

(** ** Abstract specification of the layout *)

Section Spec.
Context (cfg : layout_config).

(** Slot [k] (0-based, printable records only). *)
Definition slot_page (k : nat) : nat := k / capacity cfg.
Definition slot_row (k : nat) : nat := (k mod capacity cfg) / cols cfg.
Definition slot_col (k : nat) : nat := (k mod capacity cfg) mod cols cfg.
Definition slot_frame (k : nat) : frame := grid_frame cfg (slot_col k) (slot_row k).

(** A new page starts at every slot [k > 0] that is a multiple of the
    capacity; the first page needs no break. *)
Definition breaks_before (k : nat) : bool :=
  negb (k =? 0) && (k mod capacity cfg =? 0).

(** [address_events] are the effects of reading the address, performed
    before each frame ([] for the constant of [src/main.py]). *)
Fixpoint spec_trace (address_events : list event) (address_text : string) (k : nat)
    (texts : list string) : list event :=
  match texts with
  | [] => []
  | t :: ts =>
      (if breaks_before k then [ShowPage] else []) ++ address_events ++
      AddFrame (slot_frame k) (tag_parts address_text t) ::
      spec_trace address_events address_text (S k) ts
  end.

(** The loop state after [k] printable records. *)
Definition state_after (k : nat) : loop_state :=
  match k with
  | 0 => loop_init
  | S k' => mk_loop_state (S (k' mod capacity cfg)) (S (k' / capacity cfg))
  end.
End Spec.

(** The texts of the printable records, in order; the first error of
    [print_please] or [text_from_instrument] aborts. *)
Fixpoint printable_texts (instruments : list Instrument) : res (list string) :=
  match instruments with
  | [] => Ok []
  | i :: rest =>
      let? p := script_print_please i in
      if p then
        let? t := script_text_from_instrument i in
        let? ts := printable_texts rest in Ok (t :: ts)
      else printable_texts rest
  end.

(** ** Pages of a trace *)

(** The frames of a trace, each with the number of [showPage] calls made
    before it (the 0-based page it is drawn on). *)
Fixpoint placements_from (p : nat) (t : list event) : list (nat * frame) :=
  match t with
  | [] => []
  | ShowPage :: t' => placements_from (S p) t'
  | AddFrame f _ :: t' => (p, f) :: placements_from p t'
  | _ :: t' => placements_from p t'
  end.

Definition placements (t : list event) : list (nat * frame) := placements_from 0 t.

(** The events [evs] of reading the address, before each frame. *)
Definition reads_before_frames (evs : list event) (e : event) : list event :=
  match e with
  | AddFrame _ _ => evs ++ [e]
  | _ => [e]
  end.

(** Events that neither draw nor break pages (reading a file). *)
Definition quiet (e : event) : bool := negb (is_show_page e || is_frame e).

(** ** The page lifecycle *)

Section LifecycleDefs.
Context (cfg : layout_config) (get_address : Prog string).

(** One iteration of the loop that does not raise. *)
Inductive loop_step : loop_state -> loop_state -> Prop :=
| loop_step_run st st' instrument t :
    loop_body cfg get_address st instrument = (t, Ok st') -> loop_step st st'.

Definition reachable (st : loop_state) : Prop := rtc loop_step loop_init st.

(** Between iterations the loop is either before the first page
    ([page = 0], nothing placed) or on an open page holding between 1 and
    [rows*cols] tags. *)
Definition lifecycle_inv (st : loop_state) : Prop :=
  (page st = 0 /\ tag_index st = 0) \/
  (page st <> 0 /\ 1 <= tag_index st <= capacity cfg).

(** A frame of the grid: column below [cols], row below [rows]. *)
Definition in_grid (e : event) : Prop :=
  match e with
  | AddFrame f _ => exists c r, c < cols cfg /\ r < rows cfg /\ f = grid_frame cfg c r
  | _ => True
  end.
End LifecycleDefs.

(** ** A sample inventory

    Ten printable violins (students [Ada] to [Jo], no serial number) with
    two records that are not printed around them: [FALSE], and [true],
    which is not [TRUE]. *)

Definition sample_instrument (student print : string) : Instrument :=
  mkInstrument (mk_dict_row (list_to_map [("Category", PyStr "Violin");
    ("Model", PyStr "Yamaha"); ("Serial NO", PyStr ""); ("Size", PyStr "4/4");
    ("Student", PyStr student); ("PRINT", PyStr print)]) None).

Definition sample_students : list string :=
  ["Ada"; "Bo"; "Cy"; "Di"; "Ed"; "Fa"; "Gu"; "Hal"; "Ivo"; "Jo"].

Definition sample_printable : list Instrument :=
  map (fun s => sample_instrument s "TRUE") sample_students.

Definition sample_tags : list Instrument :=
  sample_instrument "Kim" "FALSE" :: take 5 sample_printable ++
  sample_instrument "Lu" "true" :: drop 5 sample_printable.

Definition sample_texts : list string :=
  map (fun s => tag_template "Violin" "Yamaha" "N/A" "4/4" s) sample_students.

(** ** The loop implements the specification *)

Section Refinement.
Context (cfg : layout_config).
Hypothesis Hcap : capacity cfg <> 0.

Lemma cols_nonzero : cols cfg <> 0.
Proof. intros H. apply Hcap. unfold capacity. rewrite H. lia. Qed.

(** The page-break test at slot [k]: a [showPage] exactly when
    [breaks_before k], and the state then holds slot [k mod capacity] of
    page [k / capacity + 1]. *)
Lemma page_break_state_after (k : nat) :
  page_break cfg (state_after cfg k) =
  ((if breaks_before cfg k then [ShowPage] else []),
   Ok (mk_loop_state (k mod capacity cfg) (S (k / capacity cfg)))).
Proof.
  unfold page_break, breaks_before. fold (capacity cfg).
  destruct k as [|k]; simpl state_after; cbn [tag_index page];
    rewrite py_mod_ok by exact Hcap; wsimp.
  - destruct (mod_div_zero (capacity cfg)) as [-> ->]. reflexivity.
  - destruct (succ_mod_div (capacity cfg) k Hcap) as [Hwrap Hstay].
    destruct (decide (S (k mod capacity cfg) = capacity cfg)) as [He|He].
    + destruct (Hwrap He) as [-> ->]. rewrite He, Nat.Div0.mod_same.
      simpl. repeat f_equal. lia.
    + destruct (Hstay He) as [-> ->].
      pose proof (Nat.mod_upper_bound k _ Hcap).
      rewrite Nat.mod_small by lia. reflexivity.
Qed.

(** Placing the record at slot [k]: the address is read, the frame of
    slot [k] is added, and the state is the one after [k + 1] records. *)
Lemma place_tag_slot get_address address_events address_text k instrument t :
  get_address = (address_events, Ok address_text) ->
  script_text_from_instrument instrument = Ok t ->
  place_tag cfg get_address (mk_loop_state (k mod capacity cfg) (S (k / capacity cfg)))
    instrument =
  (address_events ++ [AddFrame (slot_frame cfg k) (tag_parts address_text t)],
   Ok (state_after cfg (S k))).
Proof.
  intros Ha Ht. pose proof cols_nonzero as Hc.
  unfold place_tag. cbn [tag_index page]. rewrite Ht. wsimp.
  rewrite Ha, wbind_ok. simpl. rewrite Nat.add_1_r. reflexivity.
Qed.

Lemma loop_body_printable get_address address_events address_text k instrument t :
  get_address = (address_events, Ok address_text) ->
  script_print_please instrument = Ok true ->
  script_text_from_instrument instrument = Ok t ->
  loop_body cfg get_address (state_after cfg k) instrument =
  ((if breaks_before cfg k then [ShowPage] else []) ++ address_events ++
     [AddFrame (slot_frame cfg k) (tag_parts address_text t)],
   Ok (state_after cfg (S k))).
Proof.
  intros Ha Hp Ht. unfold loop_body. rewrite Hp. wsimp.
  rewrite page_break_state_after, wbind_ok.
  by rewrite (place_tag_slot _ _ _ _ _ _ Ha Ht).
Qed.

Lemma loop_body_skipped get_address st instrument :
  script_print_please instrument = Ok false ->
  loop_body cfg get_address st instrument = ([], Ok st).
Proof. intros Hp. unfold loop_body. by rewrite Hp. Qed.
End Refinement.

(** The loop refines the closed-form layout from any slot [k]: from the
    state after [k] printable records, on records whose printable texts
    are [texts], [main_loop] performs exactly [spec_trace] (page breaks,
    address reads and the frame of each slot) and ends in the state after
    [k + length texts] records. *)
Lemma main_loop_from (cfg : layout_config) (get_address : Prog string)
    (address_events : list event) (address_text : string)
    (instruments : list Instrument) (texts : list string) (k : nat) :
  capacity cfg <> 0 ->
  get_address = (address_events, Ok address_text) ->
  printable_texts instruments = Ok texts ->
  main_loop cfg get_address (state_after cfg k) instruments =
  (spec_trace cfg address_events address_text k texts,
   Ok (state_after cfg (k + length texts))).
Proof.
  intros Hcap Ha. revert k texts.
  induction instruments as [|i rest IH]; intros k texts Ht; simpl in Ht.
  - invc Ht. simpl. by rewrite Nat.add_0_r.
  - destruct (script_print_please i) as [[]|e] eqn:Hp; simpl in Ht; [| |discriminate].
    + destruct (script_text_from_instrument i) as [t|e] eqn:Htxt; simpl in Ht; [|discriminate].
      destruct (printable_texts rest) as [ts|e] eqn:Hts; simpl in Ht; [|discriminate].
      injection Ht as <-. simpl main_loop.
      rewrite (loop_body_printable _ Hcap _ _ _ _ _ _ Ha Hp Htxt), wbind_ok.
      rewrite (IH (S k) ts eq_refl). simpl. rewrite <- !app_assoc.
      by rewrite Nat.add_succ_r.
    + simpl main_loop. rewrite (loop_body_skipped _ _ _ _ Hp), wbind_ok.
      rewrite (IH k texts Ht). done.
Qed.

(** C1: the loop of [main] refines the closed-form layout.  From its
    initial state ([tag_index = 0], [page = 0]), on records whose printable
    texts are [texts], the loop performs exactly [spec_trace]: before slot
    [k] a [showPage] when [k > 0] and [k mod (rows*cols) = 0], then the
    address read and the frame of slot [k] holding the address and the
    k-th text; it ends in the state after [length texts] records. *)
Theorem main_loop_refines (cfg : layout_config) (get_address : Prog string)
    (address_events : list event) (address_text : string)
    (instruments : list Instrument) (texts : list string) :
  capacity cfg <> 0 ->
  get_address = (address_events, Ok address_text) ->
  printable_texts instruments = Ok texts ->
  main_loop cfg get_address loop_init instruments =
  (spec_trace cfg address_events address_text 0 texts, Ok (state_after cfg (length texts))).
Proof. intros Hcap Ha Ht. exact (main_loop_from cfg _ _ _ _ _ 0 Hcap Ha Ht). Qed.

Lemma placements_from_quiet p t1 t2 :
  forallb quiet t1 = true -> placements_from p (t1 ++ t2) = placements_from p t2.
Proof.
  induction t1 as [|e t1 IH]; simpl; [done|].
  rewrite andb_true_iff. intros [He Ht]. destruct e; simpl in He; try done; auto.
Qed.

Lemma count_show_page_quiet t :
  forallb quiet t = true -> count_ev is_show_page t = 0.
Proof.
  induction t as [|e t IH]; simpl; [done|].
  rewrite andb_true_iff. intros [He Ht]. wsimp. rewrite IH by done.
  by destruct e.
Qed.

Section Pages.
Context (cfg : layout_config).
Hypothesis Hcap : capacity cfg <> 0.

(** Pages completed before slot [k]: [(k - 1) / capacity]; a break
    before slot [k] moves to page [k / capacity]. *)
Lemma pages_before_step (k : nat) :
  (if breaks_before cfg k then S ((k - 1) / capacity cfg) else (k - 1) / capacity cfg)
  = k / capacity cfg.
Proof.
  unfold breaks_before. destruct k as [|k]; simpl.
  - by destruct (mod_div_zero (capacity cfg)) as [_ ->].
  - rewrite Nat.sub_0_r.
    destruct (succ_mod_div (capacity cfg) k Hcap) as [Hwrap Hstay].
    destruct (decide (S (k mod capacity cfg) = capacity cfg)) as [He|He].
    + by destruct (Hwrap He) as [-> ->].
    + destruct (Hstay He) as [-> ->]. reflexivity.
Qed.

Lemma spec_trace_placements address_events address_text k texts :
  forallb quiet address_events = true ->
  placements_from ((k - 1) / capacity cfg)
    (spec_trace cfg address_events address_text k texts) =
  map (fun j => (slot_page cfg j, slot_frame cfg j)) (seq k (length texts)).
Proof.
  intros Hq. revert k. induction texts as [|t ts IH]; intros k; simpl; [done|].
  pose proof (pages_before_step k) as Hp.
  destruct (breaks_before cfg k); simpl; rewrite placements_from_quiet by done;
    simpl; rewrite Hp; f_equal; rewrite <- (IH (S k)); simpl; by rewrite Nat.sub_0_r.
Qed.

Lemma spec_trace_show_pages address_events address_text k texts :
  forallb quiet address_events = true ->
  count_ev is_show_page (spec_trace cfg address_events address_text k texts)
  + (k - 1) / capacity cfg
  = (k + length texts - 1) / capacity cfg.
Proof.
  intros Hq. revert k. induction texts as [|t ts IH]; intros k; simpl.
  - by rewrite Nat.add_0_r.
  - wsimp. rewrite (count_show_page_quiet _ Hq).
    specialize (IH (S k)). pose proof (pages_before_step k) as Hp.
    rewrite Nat.add_succ_r. simpl in *. rewrite !Nat.sub_0_r in *.
    destruct (breaks_before cfg k); simpl in *; lia.
Qed.
End Pages.

(** ** Consequences for a run of the loop *)

Section Run.
Context (cfg : layout_config) (get_address : Prog string)
  (address_events : list event) (address_text : string).
Hypothesis Hcap : capacity cfg <> 0.
Hypothesis Haddr : get_address = (address_events, Ok address_text).
Hypothesis Hquiet : forallb quiet address_events = true.

Lemma main_loop_init instruments texts :
  printable_texts instruments = Ok texts ->
  main_loop cfg get_address loop_init instruments =
  (spec_trace cfg address_events address_text 0 texts, Ok (state_after cfg (length texts))).
Proof. intros Ht. exact (main_loop_from cfg _ _ _ _ _ 0 Hcap Haddr Ht). Qed.

(** C2: the k-th printable record (from 0) is drawn on page
    [k / (rows*cols)], in the frame of row [(k mod (rows*cols)) / cols]
    and column [(k mod (rows*cols)) mod cols]; there is one frame per
    printable record and no other. *)
Theorem main_loop_placements instruments texts :
  printable_texts instruments = Ok texts ->
  placements (main_loop cfg get_address loop_init instruments).1 =
  map (fun k => (slot_page cfg k, slot_frame cfg k)) (seq 0 (length texts)).
Proof.
  intros Ht. rewrite (main_loop_init _ _ Ht). unfold placements. simpl.
  pose proof (spec_trace_placements cfg Hcap _ address_text 0 texts Hquiet) as H.
  by rewrite Nat.Div0.div_0_l in H.
Qed.

(** C3: a run over [n] printable records calls [showPage] exactly
    [(n - 1) / (rows*cols)] times (never for [n = 0]), and its [page]
    counter ends at [ceil(n / (rows*cols))], the number of pages it
    opened. *)
Theorem main_loop_page_count instruments texts :
  printable_texts instruments = Ok texts ->
  count_ev is_show_page (main_loop cfg get_address loop_init instruments).1
    = (length texts - 1) / capacity cfg /\
  exists st, (main_loop cfg get_address loop_init instruments).2 = Ok st /\
    page st = (length texts + capacity cfg - 1) / capacity cfg.
Proof.
  intros Ht. rewrite (main_loop_init _ _ Ht). simpl. split.
  - pose proof (spec_trace_show_pages cfg Hcap _ address_text 0 texts Hquiet) as H.
    rewrite Nat.Div0.div_0_l in H. simpl in H. lia.
  - eexists; split; [reflexivity|].
    destruct (length texts) as [|n]; simpl.
    + symmetry. apply Nat.div_small. lia.
    + replace (n + capacity cfg - 0) with (n + 1 * capacity cfg) by lia.
      rewrite Nat.div_add by exact Hcap. lia.
Qed.

(** C4: records whose [PRINT] is not [TRUE] never consume a slot: two
    inventories with the same printable texts, in the same order, give
    the same run, whatever non-printable records surround them. *)
Theorem main_loop_skips instruments1 instruments2 texts :
  printable_texts instruments1 = Ok texts ->
  printable_texts instruments2 = Ok texts ->
  main_loop cfg get_address loop_init instruments1 =
  main_loop cfg get_address loop_init instruments2.
Proof. intros H1 H2. by rewrite (main_loop_init _ _ H1), (main_loop_init _ _ H2). Qed.
End Run.

(** The sample: ten printable records give one [showPage] and end on
    page 2; the tenth tag is alone on the second page, in row 0 and
    column 0. *)

(** ** The page lifecycle: the invariant of reachable states *)

Section Lifecycle.
Context (cfg : layout_config) (get_address : Prog string).

Lemma page_break_cases st :
  lifecycle_inv cfg st ->
  (capacity cfg = 0 /\ page_break cfg st = ([], Err ZeroDivisionError)) \/
  (capacity cfg <> 0 /\ exists t st1, page_break cfg st = (t, Ok st1) /\
     Forall (in_grid cfg) t /\ tag_index st1 < capacity cfg /\ page st1 <> 0).
Proof.
  intros Hinv. unfold page_break. fold (capacity cfg).
  destruct (decide (capacity cfg = 0)) as [Hc|Hc].
  { left. split; [done|]. by rewrite Hc. }
  right. split; [done|]. rewrite py_mod_ok by done. wsimp.
  destruct (Nat.eqb_spec (tag_index st mod capacity cfg) 0) as [Hm|Hm];
    [destruct (Nat.eqb_spec (page st) 0) as [Hp|Hp]|].
  - do 2 eexists; split; [reflexivity|]. simpl. split; [done|]. destruct Hinv; lia.
  - do 2 eexists; split; [reflexivity|]. simpl. repeat split; [by repeat constructor|lia|lia].
  - do 2 eexists; split; [reflexivity|]. split; [done|].
    destruct Hinv as [[_ Hi]|[Hp Hi]].
    + rewrite Hi, Nat.Div0.mod_0_l in Hm. lia.
    + split; [|done]. destruct (decide (tag_index st = capacity cfg)) as [He|He]; [|lia].
      rewrite He, Nat.Div0.mod_same in Hm. lia.
Qed.

Lemma place_tag_trace st instrument :
  tag_index st < capacity cfg ->
  Forall (in_grid cfg) get_address.1 ->
  Forall (in_grid cfg) (place_tag cfg get_address st instrument).1 /\
  forall st', (place_tag cfg get_address st instrument).2 = Ok st' ->
    st' = mk_loop_state (tag_index st + 1) (page st).
Proof.
  intros Hlt Hga. unfold place_tag.
  destruct (script_text_from_instrument instrument) as [txt|e]; [|done].
  pose proof cols_nonzero cfg ltac:(lia) as Hc.
  rewrite py_mod_ok, py_floor_div_ok, !wbind_lift_ok by done.
  rewrite wbind_fst, wbind_snd. destruct get_address as [ta [a|e]]; simpl in *.
  - split; [|by intros ? [= <-]].
    apply Forall_app; split; [done|]. repeat constructor.
    exists (tag_index st mod cols cfg), (tag_index st / cols cfg).
    split; [by apply Nat.mod_upper_bound|]. split; [|done].
    apply Nat.Div0.div_lt_upper_bound. unfold capacity in Hlt. lia.
  - by rewrite app_nil_r.
Qed.

Lemma loop_body_lifecycle st instrument :
  lifecycle_inv cfg st -> Forall (in_grid cfg) get_address.1 ->
  Forall (in_grid cfg) (loop_body cfg get_address st instrument).1 /\
  forall st', (loop_body cfg get_address st instrument).2 = Ok st' -> lifecycle_inv cfg st'.
Proof.
  intros Hinv Hga. unfold loop_body.
  destruct (script_print_please instrument) as [[]|e]; rewrite ?wbind_lift_ok; simpl;
    [|by split; [constructor|intros ? [= <-]]|by split; [constructor|]].
  rewrite wbind_fst, wbind_snd.
  destruct (page_break_cases st Hinv) as [[_ ->]|[_ (t & st1 & -> & Ht & Hlt & Hp)]];
    simpl; [by split; [constructor|]|].
  destruct (place_tag_trace st1 instrument Hlt Hga) as [Hpt Hres].
  split; [by apply Forall_app|]. intros st' H. apply Hres in H as ->.
  right. simpl. lia.
Qed.

(** C5: every state reachable by iterations of the loop that do not
    raise satisfies the page-lifecycle invariant. *)
Theorem reachable_lifecycle st :
  Forall (in_grid cfg) get_address.1 -> reachable cfg get_address st -> lifecycle_inv cfg st.
Proof.
  intros Hga. revert st. apply rtc_ind_r.
  - left. done.
  - intros st2 st3 _ Hstep IH. destruct Hstep as [st2 st3 instrument t Hrun].
    eapply loop_body_lifecycle; [exact IH|exact Hga|]. by rewrite Hrun.
Qed.

Lemma main_loop_in_grid_from st instruments :
  Forall (in_grid cfg) get_address.1 -> lifecycle_inv cfg st ->
  Forall (in_grid cfg) (main_loop cfg get_address st instruments).1.
Proof.
  intros Hga. revert st. induction instruments as [|i rest IH]; intros st Hinv; simpl.
  { constructor. }
  destruct (loop_body_lifecycle st i Hinv Hga) as [Ht Hst].
  rewrite wbind_fst. apply Forall_app; split; [done|].
  destruct (loop_body cfg get_address st i) as [t [st'|e]]; simpl in *; [|constructor].
  by apply IH, Hst.
Qed.

(** C6: every frame the loop draws, before it ends or raises, is a cell
    of the grid: its column is below [cols] and its row below [rows]. *)
Theorem main_loop_in_grid instruments :
  Forall (in_grid cfg) get_address.1 ->
  Forall (in_grid cfg) (main_loop cfg get_address loop_init instruments).1.
Proof. intros Hga. apply main_loop_in_grid_from; [done|]. by left. Qed.
End Lifecycle.

(** ** What the loop can emit *)

Section LoopEvents.
Context (cfg : layout_config) (get_address : Prog string) (P : event -> Prop).
Hypothesis HP_show : P ShowPage.
Hypothesis HP_frame : forall f ps, P (AddFrame f ps).
Hypothesis HP_addr : Forall P get_address.1.

Lemma page_break_events st : Forall P (page_break cfg st).1.
Proof.
  unfold page_break. rewrite wbind_fst.
  destruct (py_mod _ _) as [m|e]; simpl; [|constructor].
  destruct (m =? 0); [destruct (page st =? 0)|]; simpl; by repeat constructor.
Qed.

Lemma place_tag_events st instrument : Forall P (place_tag cfg get_address st instrument).1.
Proof.
  unfold place_tag. rewrite wbind_fst.
  destruct (script_text_from_instrument _); cbn [fst snd lift app]; [|constructor].
  rewrite wbind_fst. destruct (py_mod _ _); cbn [fst snd lift app]; [|constructor].
  rewrite wbind_fst. destruct (py_floor_div _ _); cbn [fst snd lift app]; [|constructor].
  rewrite wbind_fst. apply Forall_app; split; [done|].
  destruct get_address.2; simpl; by repeat constructor.
Qed.

Lemma loop_body_events st instrument : Forall P (loop_body cfg get_address st instrument).1.
Proof.
  unfold loop_body. rewrite wbind_fst.
  destruct (script_print_please _) as [[]|]; cbn [fst snd lift app]; [|constructor|constructor].
  rewrite wbind_fst. apply Forall_app; split; [apply page_break_events|].
  destruct (page_break cfg st).2; [apply place_tag_events|constructor].
Qed.

Lemma main_loop_events st instruments : Forall P (main_loop cfg get_address st instruments).1.
Proof.
  revert st. induction instruments as [|i rest IH]; intros st; simpl; [constructor|].
  rewrite wbind_fst. apply Forall_app; split; [apply loop_body_events|].
  destruct (loop_body cfg get_address st i).2; [apply IH|constructor].
Qed.
End LoopEvents.

(** When reading the address raises, the loop raises at the first
    printable record. *)
Lemma main_loop_address_error cfg get_address address_events e instruments t texts k :
  capacity cfg <> 0 ->
  get_address = (address_events, Err e) ->
  printable_texts instruments = Ok (t :: texts) ->
  (main_loop cfg get_address (state_after cfg k) instruments).2 = Err e.
Proof.
  intros Hcap Ha. induction instruments as [|i rest IH]; intros Ht; simpl in Ht; [done|].
  simpl main_loop. rewrite wbind_snd.
  destruct (script_print_please i) as [[]|e'] eqn:Hp; simpl in Ht; [| |done].
  - destruct (script_text_from_instrument i) as [t'|e'] eqn:Htxt; simpl in Ht; [|done].
    unfold loop_body. rewrite Hp, wbind_lift_ok, wbind_snd, page_break_state_after by done.
    simpl. unfold place_tag. rewrite Htxt, wbind_lift_ok.
    pose proof (cols_nonzero cfg Hcap).
    rewrite py_mod_ok, py_floor_div_ok, !wbind_lift_ok by done.
    rewrite wbind_snd, Ha. done.
  - rewrite (loop_body_skipped cfg get_address _ _ Hp). simpl. by apply IH.
Qed.

(** A run over records none of which is printable draws nothing and
    never reads the address. *)
Lemma main_loop_nothing_printable cfg get_address st instruments :
  printable_texts instruments = Ok [] ->
  main_loop cfg get_address st instruments = ([], Ok st).
Proof.
  induction instruments as [|i rest IH]; intros Ht; simpl in *; [done|].
  destruct (script_print_please i) as [[]|e] eqn:Hp; simpl in Ht; try discriminate.
  - destruct (script_text_from_instrument i); simpl in Ht; [|done].
    by destruct (printable_texts rest).
  - rewrite (loop_body_skipped cfg get_address _ _ Hp), wbind_ok, IH by done. done.
Qed.

(** Each slot of the specification reads the address once. *)
Lemma spec_trace_count_address cfg p address_text k texts :
  count_ev (is_open p) (spec_trace cfg [OpenFile p] address_text k texts) = length texts.
Proof.
  revert k. induction texts as [|t ts IH]; intros k; simpl; [done|].
  wsimp. rewrite IH. unfold is_open. rewrite bool_decide_eq_true_2 by done.
  destruct (breaks_before cfg k); simpl; lia.
Qed.

(** The loop raises the first error of the records, in record order:
    [KeyError] or [TypeError] of [print_please] or [text_from_instrument]. *)
Lemma main_loop_error_from cfg get_address address_events address_text instruments e k :
  capacity cfg <> 0 ->
  get_address = (address_events, Ok address_text) ->
  printable_texts instruments = Err e ->
  (main_loop cfg get_address (state_after cfg k) instruments).2 = Err e.
Proof.
  intros Hcap Ha. revert k. induction instruments as [|i rest IH]; intros k Ht; simpl in Ht;
    [done|]. simpl main_loop. rewrite wbind_snd.
  destruct (script_print_please i) as [[]|e'] eqn:Hp; simpl in Ht.
  - destruct (script_text_from_instrument i) as [t|e'] eqn:Htxt; simpl in Ht.
    + destruct (printable_texts rest) eqn:Hrest; simpl in Ht; [done|]. injection Ht as ->.
      rewrite (loop_body_printable cfg Hcap _ _ _ _ _ _ Ha Hp Htxt). simpl. exact (IH (S k) eq_refl).
    + injection Ht as ->. unfold loop_body. rewrite Hp, wbind_lift_ok, wbind_snd,
        page_break_state_after by done. simpl. unfold place_tag. by rewrite Htxt.
  - rewrite (loop_body_skipped cfg get_address _ _ Hp). simpl. by apply IH.
  - injection Ht as ->. unfold loop_body. by rewrite Hp.
Qed.

(** ** Where the address comes from *)

Section AddressSource.
Context (cfg : layout_config) (evs : list event) (text : string).

(** With an address source that performs [evs] and gives [text], the
    loop does what it does with the constant [text], reading before each
    frame. *)
Lemma place_tag_address_source st instrument :
  place_tag cfg (evs, Ok text) st instrument =
  wmap_trace (reads_before_frames evs) (place_tag cfg (wret text) st instrument).
Proof.
  unfold place_tag. destruct (script_text_from_instrument instrument); [|done].
  rewrite !wbind_lift_ok. destruct (py_mod _ _); [|done].
  rewrite !wbind_lift_ok. destruct (py_floor_div _ _); [|done].
  rewrite !wbind_lift_ok. unfold wmap_trace. cbn. by rewrite app_nil_r.
Qed.

Lemma loop_body_address_source st instrument :
  loop_body cfg (evs, Ok text) st instrument =
  wmap_trace (reads_before_frames evs) (loop_body cfg (wret text) st instrument).
Proof.
  unfold loop_body. destruct (script_print_please instrument) as [[]|e]; [|done|done].
  rewrite !wbind_lift_ok.
  rewrite <- (wmap_trace_id (reads_before_frames evs) (page_break cfg st)) at 1.
  - apply wmap_trace_bind. intros st'. apply place_tag_address_source.
  - unfold page_break. rewrite wbind_fst.
    destruct (py_mod _ _) as [m|e]; simpl; [|constructor].
    destruct (m =? 0); [destruct (page st =? 0)|]; simpl; by repeat constructor.
Qed.

Lemma main_loop_address_source st instruments :
  main_loop cfg (evs, Ok text) st instruments =
  wmap_trace (reads_before_frames evs) (main_loop cfg (wret text) st instruments).
Proof.
  revert st. induction instruments as [|i rest IH]; intros st; [done|]. simpl.
  rewrite loop_body_address_source. apply wmap_trace_bind. intros st'. apply IH.
Qed.
End AddressSource.
End WithScript.

(** ** Witnesses, for the loop of [src/main.py] *)

#[export] Existing Instance main_py_script.

Example main_loop_refines_witness :
  main_loop main_config (wret return_address) loop_init sample_tags =
  (spec_trace main_config [] return_address 0 sample_texts,
   Ok (state_after main_config (length sample_texts))).
Proof.
  apply main_loop_refines; [unfold capacity; simpl; lia|reflexivity|vm_compute; reflexivity].
Defined.

Example main_loop_placements_witness :
  placements (main_loop main_config (wret return_address) loop_init sample_tags).1 =
  map (fun k => (slot_page main_config k, slot_frame main_config k))
    (seq 0 (length sample_texts)).
Proof.
  apply (main_loop_placements main_config (wret return_address) [] return_address);
    [unfold capacity; simpl; lia|reflexivity|reflexivity|vm_compute; reflexivity].
Defined.

Example main_loop_page_count_witness :
  count_ev is_show_page (main_loop main_config (wret return_address) loop_init sample_tags).1
    = (length sample_texts - 1) / capacity main_config /\
  exists st, (main_loop main_config (wret return_address) loop_init sample_tags).2 = Ok st /\
    page st = (length sample_texts + capacity main_config - 1) / capacity main_config.
Proof.
  apply (main_loop_page_count main_config (wret return_address) [] return_address);
    [unfold capacity; simpl; lia|reflexivity|reflexivity|vm_compute; reflexivity].
Defined.

Example main_loop_skips_witness :
  main_loop main_config (wret return_address) loop_init sample_tags =
  main_loop main_config (wret return_address) loop_init sample_printable.
Proof.
  apply (main_loop_skips main_config (wret return_address) [] return_address)
    with (texts := sample_texts);
    [unfold capacity; simpl; lia|reflexivity|vm_compute; reflexivity|vm_compute; reflexivity].
Defined.

Example reachable_lifecycle_witness : lifecycle_inv main_config (mk_loop_state 1 1).
Proof.
  apply (reachable_lifecycle main_config (wret return_address)); [constructor|].
  apply rtc_once. eapply (loop_step_run main_config (wret return_address) loop_init _
    (sample_instrument "Ada" "TRUE")). compute. reflexivity.
Defined.

Example main_loop_in_grid_witness :
  Forall (in_grid main_config) (main_loop main_config (wret return_address) loop_init sample_tags).1.
Proof. apply main_loop_in_grid. constructor. Defined.
