(* ===== verification/Geometry.v ===== *)
(** * Geometry of the tags

    The frames of [main] are [Frame(col * tag_width, row * tag_height,
    tag_width, tag_height)] (reportlab's origin is the lower-left corner
    of the page, so row 0 is the bottom row).  This file proves that a
    grid cell lies on the page when [cols * tag_width] and
    [rows * tag_height] fit the page, that distinct cells do not overlap,
    and, for the configuration of [main] (3 x 3 frames of 69 mm x 98 mm on
    A4, 210 mm x 297 mm), that every tag of a run lies on the page and no
    two tags of a page overlap. *)

From S2P Require Import Prelude PyStr Effects Instrument TagText Layout.
From stdpp Require Import base strings gmap list.
From Stdlib Require Import QArith Qring Lia.

Local Close Scope Q_scope.
Local Open Scope gotag_scope.

(** ** Rectangles *)

Definition frame_inside (pagesize : Q * Q) (f : frame) : Prop :=
  (0 <= frame_x f)%Q /\ (frame_x f + frame_width f <= pagesize.1)%Q /\
  (0 <= frame_y f)%Q /\ (frame_y f + frame_height f <= pagesize.2)%Q.

(** The interiors of two frames do not meet. *)
Definition frames_disjoint (f1 f2 : frame) : Prop :=
  (frame_x f1 + frame_width f1 <= frame_x f2)%Q \/
  (frame_x f2 + frame_width f2 <= frame_x f1)%Q \/
  (frame_y f1 + frame_height f1 <= frame_y f2)%Q \/
  (frame_y f2 + frame_height f2 <= frame_y f1)%Q.

(** The grid of [cfg] fits a page of size [pagesize]. *)
Definition grid_fits (cfg : layout_config) (pagesize : Q * Q) : bool :=
  Qle_bool 0 (tag_width cfg) && Qle_bool 0 (tag_height cfg) &&
  Qle_bool (inject_Z (Z.of_nat (cols cfg)) * tag_width cfg) pagesize.1 &&
  Qle_bool (inject_Z (Z.of_nat (rows cfg)) * tag_height cfg) pagesize.2.

(** ** Scaling lengths by naturals *)

Lemma nat_scale_le (a b : nat) (u : Q) :
  (0 <= u)%Q -> a <= b -> (inject_Z (Z.of_nat a) * u <= inject_Z (Z.of_nat b) * u)%Q.
Proof.
  intros Hu Hab. apply Qmult_le_compat_r; [|done].
  rewrite <- Zle_Qle. lia.
Qed.

Lemma nat_scale_succ (a : nat) (u : Q) :
  (inject_Z (Z.of_nat a) * u + u == inject_Z (Z.of_nat (S a)) * u)%Q.
Proof. rewrite Nat2Z.inj_succ, <- Z.add_1_r, inject_Z_plus. ring. Qed.

Lemma nat_scale_nonneg (a : nat) (u : Q) : (0 <= u)%Q -> (0 <= inject_Z (Z.of_nat a) * u)%Q.
Proof. intros Hu. rewrite <- (Qmult_0_l u). apply (nat_scale_le 0 a u Hu). lia. Qed.

(** The end of cell [a] is at most the start of cell [b] when [a < b]. *)
Lemma nat_scale_lt (a b : nat) (u : Q) :
  (0 <= u)%Q -> a < b -> (inject_Z (Z.of_nat a) * u + u <= inject_Z (Z.of_nat b) * u)%Q.
Proof. intros Hu Hab. rewrite nat_scale_succ. by apply nat_scale_le. Qed.

(** ** Cells of the grid *)

Section Cells.
Context (cfg : layout_config).

Lemma grid_fits_spec pagesize :
  grid_fits cfg pagesize = true ->
  (0 <= tag_width cfg)%Q /\ (0 <= tag_height cfg)%Q /\
  (inject_Z (Z.of_nat (cols cfg)) * tag_width cfg <= pagesize.1)%Q /\
  (inject_Z (Z.of_nat (rows cfg)) * tag_height cfg <= pagesize.2)%Q.
Proof. unfold grid_fits. rewrite !andb_true_iff, !Qle_bool_iff. tauto. Qed.

Lemma grid_frame_inside pagesize c r :
  grid_fits cfg pagesize = true -> c < cols cfg -> r < rows cfg ->
  frame_inside pagesize (grid_frame cfg c r).
Proof.
  intros Hfit Hc Hr. destruct (grid_fits_spec _ Hfit) as (Hw & Hh & Hcw & Hrh).
  unfold frame_inside, grid_frame; simpl.
  repeat split; try by apply nat_scale_nonneg.
  - eapply Qle_trans; [by apply nat_scale_lt|done].
  - eapply Qle_trans; [by apply nat_scale_lt|done].
Qed.

Lemma grid_frame_disjoint c1 r1 c2 r2 :
  (0 <= tag_width cfg)%Q -> (0 <= tag_height cfg)%Q -> (c1, r1) <> (c2, r2) ->
  frames_disjoint (grid_frame cfg c1 r1) (grid_frame cfg c2 r2).
Proof.
  intros Hw Hh Hne. unfold frames_disjoint, grid_frame; simpl.
  destruct (Nat.lt_trichotomy c1 c2) as [Hc|[<-|Hc]];
    [by left; apply nat_scale_lt|
    |by right; left; apply nat_scale_lt].
  destruct (Nat.lt_trichotomy r1 r2) as [Hr|[<-|Hr]]; [|congruence|].
  - by right; right; left; apply nat_scale_lt.
  - by right; right; right; apply nat_scale_lt.
Qed.

(** Two slots of the same page have different cells. *)
Lemma slot_cell_injective j1 j2 :
  capacity cfg <> 0 -> slot_page cfg j1 = slot_page cfg j2 -> j1 <> j2 ->
  (slot_col cfg j1, slot_row cfg j1) <> (slot_col cfg j2, slot_row cfg j2).
Proof.
  unfold slot_page, slot_col, slot_row. intros Hcap Hp Hne [= Hc Hr].
  pose proof (Nat.div_mod_eq j1 (capacity cfg)).
  pose proof (Nat.div_mod_eq j2 (capacity cfg)).
  pose proof (Nat.div_mod_eq (j1 mod capacity cfg) (cols cfg)).
  pose proof (Nat.div_mod_eq (j2 mod capacity cfg) (cols cfg)).
  assert (j1 mod capacity cfg = j2 mod capacity cfg) by congruence.
  apply Hne. congruence.
Qed.
End Cells.

(** ** The tags of [main] on A4 *)

Lemma main_config_fits : grid_fits main_config A4 = true.
Proof. vm_compute. reflexivity. Qed.

Lemma main_config_capacity : capacity main_config = 9.
Proof. reflexivity. Qed.

Lemma main_config_nonneg : (0 <= tag_width main_config)%Q /\ (0 <= tag_height main_config)%Q.
Proof. destruct (grid_fits_spec _ _ main_config_fits). tauto. Qed.

(** C7: with the constants of [main] (3 x 3 tags of 69 mm x 98 mm), every
    frame the loop draws lies on the A4 page, for any inventory (including
    runs that raise part-way) and any address source that draws nothing
    itself. *)
Theorem main_loop_frames_on_A4 (get_address : Prog string) (instruments : list Instrument)
    (f : frame) (ps : list paragraph) :
  Forall (in_grid main_config) get_address.1 ->
  AddFrame f ps ∈ (main_loop main_config get_address loop_init instruments).1 ->
  frame_inside A4 f.
Proof.
  intros Hga Hin.
  pose proof (main_loop_in_grid_from main_config get_address loop_init instruments Hga
                ltac:(by left)) as Hall.
  rewrite Forall_forall in Hall. destruct (Hall _ Hin) as (c & r & Hc & Hr & ->).
  by apply grid_frame_inside; [apply main_config_fits| |].
Qed.

(** The fifth tag of the sample (slot 4: row 1, column 1) is on the page. *)
Example main_loop_frames_on_A4_witness : frame_inside A4 (slot_frame main_config 4).
Proof.
  apply (main_loop_frames_on_A4 (wret return_address) sample_tags _
           (tag_parts return_address (tag_template "Violin" "Yamaha" "N/A" "4/4" "Ed")));
    [constructor|decide_by_eval].
Defined.

(** C8: in a run of [main] over an inventory whose printable records all
    format, two different tags drawn on the same page do not overlap. *)
Theorem main_loop_same_page_disjoint (get_address : Prog string)
    (address_events : list event) (address_text : string)
    (instruments : list Instrument) (texts : list string)
    (i j p : nat) (f1 f2 : frame) :
  get_address = (address_events, Ok address_text) ->
  forallb quiet address_events = true ->
  printable_texts instruments = Ok texts ->
  placements (main_loop main_config get_address loop_init instruments).1 !! i = Some (p, f1) ->
  placements (main_loop main_config get_address loop_init instruments).1 !! j = Some (p, f2) ->
  i <> j ->
  frames_disjoint f1 f2.
Proof.
  intros Ha Hq Ht Hi Hj Hne.
  rewrite (main_loop_init main_config get_address address_events address_text
             ltac:(done) Ha instruments texts Ht) in Hi, Hj.
  pose proof (spec_trace_placements main_config ltac:(done) _ address_text 0 texts Hq) as Hpl.
  rewrite Nat.Div0.div_0_l in Hpl. unfold placements in Hi, Hj. simpl in Hi, Hj.
  rewrite Hpl in Hi, Hj.
  rewrite list_lookup_fmap in Hi, Hj.
  apply fmap_Some in Hi as (k1 & Hk1 & Hp1). apply fmap_Some in Hj as (k2 & Hk2 & Hp2).
  apply lookup_seq in Hk1 as [-> _]. apply lookup_seq in Hk2 as [-> _]. simpl in *.
  simplify_eq. destruct main_config_nonneg as [Hw Hh].
  apply grid_frame_disjoint; [done|done|].
  apply slot_cell_injective; [done|congruence|lia].
Qed.

Example main_loop_same_page_disjoint_witness :
  frames_disjoint (slot_frame main_config 0) (slot_frame main_config 1).
Proof.
  apply (main_loop_same_page_disjoint (wret return_address) [] return_address sample_tags
           sample_texts 0 1 0);
    [reflexivity|reflexivity|vm_compute; reflexivity|vm_compute; reflexivity
    |vm_compute; reflexivity|lia].
Defined.
