(* ===== verification/MakeTags.v ===== *)
(** * The configurable entry point [src/make_tags.py]

    [src/make_tags.py] repeats the helpers of [src/main.py] (the
    [Instrument] class, [instruments_from_csv], [text_from_instrument],
    [replace_new_lines] and the two styles), adds [address(txt_path)],
    which reads the return address from a file, and takes its three paths
    from [argparse].  The module [make_tags] translates that file on its
    own: its helpers, the [TagScript] they give the loop
    ([make_tags_script]), the result of [parser.parse_args()] ([args]) and
    [main].  The loop itself is the one of [Layout], run with this script
    and with a file read as the source of the address. *)

From S2P Require Import Prelude PyStr PyCsv Effects Instrument CsvLoad TagText Layout.
From stdpp Require Import base strings gmap list.
From Stdlib Require Import String Ascii QArith.

Local Close Scope Q_scope.
Local Open Scope string_scope.
Local Open Scope gotag_scope.

Module make_tags.

(** ** [class Instrument] (lines 13-33) *)

Definition category (self : Instrument) : res pyval := getitem (row self) "Category".
Definition model (self : Instrument) : res pyval := getitem (row self) "Model".
Definition serial_no (self : Instrument) : res pyval := getitem (row self) "Serial NO".
Definition size (self : Instrument) : res pyval := getitem (row self) "Size".
Definition student (self : Instrument) : res pyval := getitem (row self) "Student".

Definition print_please (self : Instrument) : res bool :=
  let? v := getitem (row self) "PRINT" in Ok (py_eq_str v "TRUE").

(** ** The helpers (lines 36-86) *)

(** [with open(txt_path, 'r') as f: return f.read()] *)
Definition address (fs : filesystem) (txt_path : string) : Prog string :=
  open_read fs txt_path.

Definition instruments_from_csv `{CsvReader} (fs : filesystem) (csv_path : string)
    : Prog (list Instrument) :=
  csvfile <- open_read fs csv_path ;;
  rows <- lift (csv_reader csvfile) ;;
  wret (map mkInstrument (dict_reader rows)).

Definition text_from_instrument (instrument : Instrument) : res string :=
  let? category := category instrument in
  let? model := model instrument in
  let? serial_no := serial_no instrument in
  let? n := py_len serial_no in
  let serial_no := if Nat.eqb n 0 then PyStr "N/A" else serial_no in
  let? size := size instrument in
  let? student := student instrument in
  Ok (tag_template (py_format category) (py_format model) (py_format serial_no)
        (py_format size) (py_format student)).

Definition replace_new_lines (s : string) : string :=
  py_replace nl "<br/>" s.

Definition address_style : paragraph_style :=
  let style := ParagraphStyle "Address" in
  {| style_name := style_name style; fontName := "Courier"; fontSize := 12;
     spaceAfter := 10 |}.

Definition body_style : paragraph_style :=
  let style := ParagraphStyle "Body" in
  {| style_name := style_name style; fontName := "Courier"; fontSize := 12;
     spaceAfter := spaceAfter style |}.

(** The helpers the loop of this [main] calls. *)
Definition make_tags_script : TagScript := {|
  script_print_please := print_please;
  script_text_from_instrument := text_from_instrument;
  script_replace_new_lines := replace_new_lines;
  script_address_style := address_style;
  script_body_style := body_style
|}.

(** ** [main()] (lines 89-133) *)

(** The three results of [parser.parse_args()]. *)
Record args : Type := mk_args {
  address_path : string;
  inventory_path : string;
  output_path : string
}.

(** The defaults of the three flags. *)
Definition default_args : args := mk_args "./address.txt" "./inventory.csv" "./inventory.pdf".

Section WithReader.
Context `{CsvReader}.

(** From [instruments = instruments_from_csv(args.inventory)] to
    [canvas.save()]; the address paragraph of each tag is
    [address(args.address)], read again for every tag. *)
Definition main (fs : filesystem) (a : args) : Prog unit :=
  instruments <- instruments_from_csv fs (inventory_path a) ;;
  emit (NewCanvas (output_path a) A4) ;;
  emit (SetFont "Courier" 16) ;;
  _ <- main_loop (script := make_tags_script) main_config (address fs (address_path a))
         loop_init instruments ;;
  emit SavePdf.
End WithReader.

(** ** The helpers are those of [src/main.py] *)

Lemma make_tags_script_main_py : make_tags_script = main_py_script.
Proof. reflexivity. Qed.

Lemma instruments_from_csv_main_py `{CsvReader} (fs : filesystem) (csv_path : string) :
  instruments_from_csv fs csv_path = CsvLoad.instruments_from_csv fs csv_path.
Proof. reflexivity. Qed.
End make_tags.
