(* ===== verification/Main.v ===== *)
(** * The entry points

    [main()] of [src/main.py] (hard-coded paths and address) as
    [main_py.main], composed of the loader, the canvas calls and the
    layout loop; a model of the reportlab [Canvas] page stream, to count
    the pages of the document a run produces; and the theorems on runs of
    both entry points ([make_tags.main] is in [MakeTags]), including the
    refinement of [main_py.main] by [make_tags.main]. *)

From S2P Require Import Prelude PyStr PyCsv Effects Instrument CsvLoad TagText Layout Geometry MakeTags.
From stdpp Require Import base strings gmap list.
From Stdlib Require Import QArith Lia.

Local Close Scope Q_scope.
Local Open Scope gotag_scope.

(** ** [src/main.py] *)

Module main_py.
Section WithReader.
Context `{CsvReader}.

Definition main (fs : filesystem) : Prog unit :=
  instruments <- instruments_from_csv fs "./violin_inventory.csv" ;;
  emit (NewCanvas "tuto1.pdf" A4) ;;
  emit (SetFont "Courier" 16) ;;
  _ <- main_loop main_config (wret return_address) loop_init instruments ;;
  emit SavePdf.
End WithReader.
End main_py.

(** ** reportlab's page stream

    reportlab's [Canvas] accumulates the operators of the current page;
    [setFont] and drawing append to it, [showPage()] closes the current
    page (empty or not), and [save()] first closes the current page when
    it holds anything ("If there is current data a ShowPage is executed
    automatically"), then writes the file.  A document is the list of the
    pages closed, each the list of the calls it holds. *)

Record page_stream : Type := mk_page_stream {
  closed_pages : list (list event);
  current_page : list event
}.

Definition canvas_call (c : page_stream) (e : event) : page_stream :=
  match e with
  | SetFont _ _ | AddFrame _ _ => mk_page_stream (closed_pages c) (current_page c ++ [e])
  | ShowPage => mk_page_stream (closed_pages c ++ [current_page c]) []
  | SavePdf =>
      match current_page c with
      | [] => c
      | _ => mk_page_stream (closed_pages c ++ [current_page c]) []
      end
  | _ => c
  end.

Definition document (t : list event) : list (list event) :=
  closed_pages (foldl canvas_call (mk_page_stream [] []) t).

(** The number of frames on the current page once slots [0 .. k-1] are
    drawn. *)
Definition frames_on_page (cap k : nat) : nat :=
  if k =? 0 then 0 else S ((k - 1) mod cap).

(** ** The two entry points side by side *)

(** How a trace of [src/main.py] becomes one of [src/make_tags.py] with
    the paths [a]: the inventory and the output are those of [a], and the
    address file is opened before each frame. *)
Definition retarget (a : make_tags.args) (e : event) : list event :=
  match e with
  | OpenFile _ => [OpenFile (make_tags.inventory_path a)]
  | NewCanvas _ size => [NewCanvas (make_tags.output_path a) size]
  | AddFrame _ _ => [OpenFile (make_tags.address_path a); e]
  | _ => [e]
  end.

(** ** Sample file systems *)

(** The sample inventory of [CsvLoad] under both inventory paths, and an
    address file. *)
Definition sample_fs : filesystem :=
  {[ "./violin_inventory.csv" := sample_inventory; "./inventory.csv" := sample_inventory;
     "./address.txt" := return_address ]}.

(** The same inventory without an address file. *)
Definition sample_fs_no_address : filesystem := {[ "./inventory.csv" := sample_inventory ]}.

(** An inventory with its header only. *)
Definition header_only_fs : filesystem :=
  {[ "./violin_inventory.csv" := "Category;Model;Serial NO;Size;Student;PRINT" ]}.

(** An inventory whose [PRINT] column comes first, with a printable row
    that stops after the model: its serial number is [None]. *)
Definition short_printable_fs : filesystem :=
  {[ "./violin_inventory.csv" := String.concat nl
       ["PRINT;Category;Model;Serial NO;Size;Student"; "TRUE;Viola;Gliga"] ]}.

(** An inventory whose first line is blank. *)
Definition blank_header_inventory : string :=
  String.concat nl [""; "Violin;Yamaha;TRUE"].

Definition blank_header_fs : filesystem :=
  {[ "./violin_inventory.csv" := blank_header_inventory ]}.

Definition sample_instruments : list Instrument :=
  [mkInstrument (dict_of_row inventory_header ["Violin"; "Yamaha"; "123"; "4/4"; "Kari"; "TRUE"]);
   mkInstrument (dict_of_row inventory_header ["Cello"; "Stentor"; ""; "1/2"; "Ola"])].

Definition sample_instruments_texts : list string :=
  [tag_template "Violin" "Yamaha" "123" "4/4" "Kari"].

(** ** The inventory as a table

    The reference reading of an inventory whose rows have the six columns
    of [inventory_header]: the text of a row's tag, and whether its
    [PRINT] field is exactly [TRUE]. *)
Definition row_text (r : list string) : string :=
  match r with
  | [c; m; s; z; st; _] => tag_template c m (if String.eqb s "" then "N/A" else s) z st
  | _ => ""
  end.

Definition row_printed (r : list string) : bool :=
  match r with
  | [_; _; _; _; _; p] => String.eqb p "TRUE"
  | _ => false
  end.

(** A written inventory of three rows: two to print, one not. *)
Definition written_table : list (list string) :=
  [["Violin"; "Yamaha"; "12;3"; "4/4"; "Kari"; "TRUE"];
   ["Viola"; "Gliga"; ""; "15"; "Ola"; "FALSE"];
   ["Cello"; "Stentor"; ""; "1/2"; "Per"; "TRUE"]].

(** ** Runs of the entry points *)

Section Runs.
Context `{CsvReader}.

(** The shape of both entry points: load, open the canvas, set the font,
    run the loop, save when the loop did not raise. *)
Lemma entry_point_run (load : Prog (list Instrument)) (path_in out : string)
    (get_address : Prog string) (instruments : list Instrument) :
  load = ([OpenFile path_in], Ok instruments) ->
  (instruments <- load ;;
   emit (NewCanvas out A4) ;; emit (SetFont "Courier" 16) ;;
   _ <- main_loop main_config get_address loop_init instruments ;;
   emit SavePdf) =
  ([OpenFile path_in; NewCanvas out A4; SetFont "Courier" 16] ++
     (main_loop main_config get_address loop_init instruments).1 ++
     match (main_loop main_config get_address loop_init instruments).2 with
     | Ok _ => [SavePdf] | Err _ => [] end,
   match (main_loop main_config get_address loop_init instruments).2 with
   | Ok _ => Ok tt | Err e => Err e end).
Proof.
  intros ->. rewrite wbind_ok. simpl.
  destruct (main_loop main_config get_address loop_init instruments) as [t [st|e]]; simpl;
    [done|by rewrite app_nil_r].
Qed.

(** The loop never saves: [save()] comes after it. *)
Lemma main_loop_no_save cfg get_address st instruments :
  Forall (fun ev => ev <> SavePdf) get_address.1 ->
  SavePdf ∉ (main_loop cfg get_address st instruments).1.
Proof.
  intros Hga Hin.
  pose proof (main_loop_events cfg get_address (fun ev => ev <> SavePdf)
                ltac:(done) ltac:(done) Hga st instruments) as Hev.
  rewrite Forall_forall in Hev. by apply Hev in Hin.
Qed.

Lemma prefix_no_save path_in out t :
  SavePdf ∉ t -> SavePdf ∉ [OpenFile path_in; NewCanvas out A4; SetFont "Courier" 16] ++ t.
Proof. intros Ht Hin. repeat (apply elem_of_cons in Hin as [Hin|Hin]; [done|]). done. Qed.

(** A record that fails aborts an entry point with its error, before
    [save()]. *)
Lemma entry_point_record_error (load : Prog (list Instrument)) (path_in out : string)
    (get_address : Prog string) (address_events : list event) (address_text : string)
    (instruments : list Instrument) (e : exc) :
  load = ([OpenFile path_in], Ok instruments) ->
  get_address = (address_events, Ok address_text) ->
  Forall (fun ev => ev <> SavePdf) address_events ->
  printable_texts instruments = Err e ->
  (instruments <- load ;; emit (NewCanvas out A4) ;; emit (SetFont "Courier" 16) ;;
   _ <- main_loop main_config get_address loop_init instruments ;; emit SavePdf).2 = Err e /\
  SavePdf ∉ (instruments <- load ;; emit (NewCanvas out A4) ;; emit (SetFont "Courier" 16) ;;
   _ <- main_loop main_config get_address loop_init instruments ;; emit SavePdf).1.
Proof.
  intros Hload Ha Hev Ht. rewrite (entry_point_run _ _ _ _ _ Hload).
  pose proof (main_loop_error_from main_config get_address address_events address_text
                instruments e 0 ltac:(done) Ha Ht) as Herr.
  simpl in Herr. rewrite Herr. split; [done|]. rewrite app_nil_r.
  apply prefix_no_save, main_loop_no_save. by rewrite Ha.
Qed.

(** C9: [main] of [src/main.py], end to end: on an inventory that loads
    and whose printable records format, it reads the inventory, opens the
    canvas [tuto1.pdf] on A4, sets the font, performs exactly the layout
    of the specification with the hard-coded return address, and saves. *)
Theorem main_py_refines (fs : filesystem) (instruments : list Instrument)
    (texts : list string) :
  instruments_from_csv fs "./violin_inventory.csv" =
    ([OpenFile "./violin_inventory.csv"], Ok instruments) ->
  printable_texts instruments = Ok texts ->
  main_py.main fs =
  ([OpenFile "./violin_inventory.csv"; NewCanvas "tuto1.pdf" A4; SetFont "Courier" 16] ++
     spec_trace main_config [] return_address 0 texts ++ [SavePdf], Ok tt).
Proof.
  intros Hload Ht. unfold main_py.main. rewrite (entry_point_run _ _ _ _ _ Hload).
  by rewrite (main_loop_init main_config (wret return_address) [] return_address
                ltac:(done) eq_refl instruments texts Ht).
Qed.

(** C15: when the inventory file is missing, [main] raises
    [FileNotFoundError] right after trying to open it: no canvas is
    created and nothing is saved. *)
Theorem main_py_missing_inventory (fs : filesystem) :
  fs !! "./violin_inventory.csv" = None ->
  main_py.main fs =
  ([OpenFile "./violin_inventory.csv"], Err (FileNotFoundError "./violin_inventory.csv")).
Proof.
  intros Hfs. unfold main_py.main, instruments_from_csv.
  by rewrite (open_read_missing _ _ Hfs).
Qed.

(** The run of [make_tags] when the address file exists. *)
Lemma make_tags_run (fs : filesystem) (a : make_tags.args) (instruments : list Instrument)
    (texts : list string) (address_text : string) :
  make_tags.instruments_from_csv fs (make_tags.inventory_path a) =
    ([OpenFile (make_tags.inventory_path a)], Ok instruments) ->
  printable_texts (script := make_tags.make_tags_script) instruments = Ok texts ->
  fs !! make_tags.address_path a = Some address_text ->
  make_tags.main fs a =
  ([OpenFile (make_tags.inventory_path a); NewCanvas (make_tags.output_path a) A4;
    SetFont "Courier" 16] ++
     spec_trace main_config [OpenFile (make_tags.address_path a)] (universal_newlines address_text) 0 texts ++
     [SavePdf], Ok tt).
Proof.
  intros Hload Ht Hfs. unfold make_tags.main. rewrite (entry_point_run _ _ _ _ _ Hload).
  by rewrite (main_loop_init main_config (make_tags.address fs (make_tags.address_path a))
                [OpenFile (make_tags.address_path a)] (universal_newlines address_text)
                ltac:(done) (open_read_found _ _ _ Hfs) instruments texts Ht).
Qed.

(** C12: [make_tags] opens the address file once per printed tag, not
    once per run: a run over [n] printable records opens it [n] times
    (the address is reused verbatim, but reread each time). *)
Theorem make_tags_address_reads (fs : filesystem) (a : make_tags.args)
    (instruments : list Instrument) (texts : list string) (address_text : string) :
  make_tags.instruments_from_csv fs (make_tags.inventory_path a) =
    ([OpenFile (make_tags.inventory_path a)], Ok instruments) ->
  printable_texts (script := make_tags.make_tags_script) instruments = Ok texts ->
  fs !! make_tags.address_path a = Some address_text ->
  make_tags.address_path a <> make_tags.inventory_path a ->
  count_ev (is_open (make_tags.address_path a)) (make_tags.main fs a).1 = length texts.
Proof.
  intros Hload Ht Hfs Hne. rewrite (make_tags_run _ _ _ _ _ Hload Ht Hfs). simpl.
  wsimp. rewrite spec_trace_count_address. unfold is_open.
  rewrite bool_decide_eq_false_2 by congruence. lia.
Qed.

(** C13: a missing address file is noticed only when a tag is drawn:
    with no printable record the run succeeds and saves; with one or
    more, it raises [FileNotFoundError] at the first printable record,
    after the canvas was created, and nothing is saved. *)
Theorem make_tags_missing_address (fs : filesystem) (a : make_tags.args)
    (instruments : list Instrument) (texts : list string) :
  make_tags.instruments_from_csv fs (make_tags.inventory_path a) =
    ([OpenFile (make_tags.inventory_path a)], Ok instruments) ->
  printable_texts (script := make_tags.make_tags_script) instruments = Ok texts ->
  fs !! make_tags.address_path a = None ->
  (make_tags.main fs a).2 =
    (if bool_decide (texts = []) then Ok tt
     else Err (FileNotFoundError (make_tags.address_path a))) /\
  (SavePdf ∈ (make_tags.main fs a).1 <-> texts = []).
Proof.
  intros Hload Ht Hfs. unfold make_tags.main. rewrite (entry_point_run _ _ _ _ _ Hload).
  destruct texts as [|t ts]; simpl.
  - rewrite main_loop_nothing_printable by done. simpl. split; [done|].
    split; [done|]. intros _. set_solver.
  - pose proof (main_loop_address_error main_config (make_tags.address fs (make_tags.address_path a))
               [OpenFile (make_tags.address_path a)] _ instruments t ts 0 ltac:(done)
               (open_read_missing _ _ Hfs) Ht) as Herr.
    simpl in Herr. rewrite Herr.
    split; [done|]. split; [|done]. rewrite app_nil_r. intros Hin. exfalso. revert Hin.
    apply prefix_no_save, main_loop_no_save.
    unfold make_tags.address. rewrite (open_read_missing _ _ Hfs). by repeat constructor.
Qed.

(** C14: a record that fails (a missing column: [KeyError]; a missing
    serial number: [TypeError]) aborts [main] with the first such error in
    file order, and [save()] is never called, so no PDF is written. *)
Theorem main_py_record_error (fs : filesystem) (instruments : list Instrument) (e : exc) :
  instruments_from_csv fs "./violin_inventory.csv" =
    ([OpenFile "./violin_inventory.csv"], Ok instruments) ->
  printable_texts instruments = Err e ->
  (main_py.main fs).2 = Err e /\ SavePdf ∉ (main_py.main fs).1.
Proof.
  intros Hload Ht. unfold main_py.main.
  exact (entry_point_record_error _ _ _ _ [] return_address _ _ Hload eq_refl ltac:(constructor) Ht).
Qed.

(** C28: the configurable entry point does what [src/main.py] does.  On
    an inventory with the same contents at both paths and an address file
    that reads (in text mode) as the hard-coded [return_address],
    [make_tags.main] with its own helpers performs the run of
    [main_py.main], events and outcome, with its own inventory and output
    paths and one read of the address file before each tag; this holds
    on every outcome, errors of the loader and of the records included. *)
Theorem make_tags_refines_main_py (fs : filesystem) (a : make_tags.args)
    (contents address_contents : string) :
  fs !! "./violin_inventory.csv" = Some contents ->
  fs !! make_tags.inventory_path a = Some contents ->
  fs !! make_tags.address_path a = Some address_contents ->
  universal_newlines address_contents = return_address ->
  make_tags.main fs a = wmap_trace (retarget a) (main_py.main fs).
Proof.
  intros Hmain Hinv Haddr Htext.
  unfold make_tags.main, main_py.main, make_tags.instruments_from_csv, instruments_from_csv.
  rewrite (open_read_found _ _ _ Hmain), (open_read_found _ _ _ Hinv), !wbind_ok.
  cbn [fst snd]. destruct (csv_reader (universal_newlines contents)) as [rows|e]; [|done].
  rewrite !wbind_lift_ok. cbn [wret fst snd app]. rewrite !wbind_ok, !wbind_emit.
  cbn [fst snd app].
  unfold make_tags.address. rewrite (open_read_found _ _ _ Haddr), Htext.
  change (@main_loop make_tags.make_tags_script) with (@main_loop main_py_script).
  rewrite main_loop_address_source.
  set (run := main_loop main_config (wret return_address) loop_init _).
  assert (Forall (fun e => retarget a e = reads_before_frames [OpenFile (make_tags.address_path a)] e)
            run.1) as Hev.
  { apply (main_loop_events main_config (wret return_address)); [done|done|constructor]. }
  unfold wmap_trace. rewrite !wbind_fst, !wbind_snd. cbn [fst snd flat_map app].
  rewrite flat_map_app, (flat_map_Forall_ext _ _ _ Hev).
  by destruct run.2.
Qed.

(** A non-empty row under an empty header has no column: [PRINT] raises. *)
Lemma printable_texts_no_header (r : list string) (rest : list Instrument) :
  r <> [] -> printable_texts (mkInstrument (dict_of_row [] r) :: rest) = Err (KeyError "PRINT").
Proof.
  intros Hr. destruct r as [|f r]; [done|]. reflexivity.
Qed.

Lemma filter_nonempty_cons (rows : list (list string)) :
  Exists (fun r => r <> []) rows ->
  exists r rest, r <> [] /\ filter (fun r => r <> []) rows = r :: rest.
Proof.
  induction 1 as [r rows Hr|r rows _ IH].
  - exists r, (filter (fun r => r <> []) rows). split; [done|]. by rewrite filter_cons_True.
  - destruct (decide (r = [])) as [->|Hr].
    + rewrite filter_cons_False; [exact IH|]. by intros Hn.
    + exists r, (filter (fun r => r <> []) rows). split; [done|]. by rewrite filter_cons_True.
Qed.

(** C29: an inventory whose first line is blank: [DictReader] takes that
    empty row as its header, so every later row has no column and the
    first non-blank one raises [KeyError('PRINT')]; [main] aborts after
    creating the canvas and nothing is saved. *)
Theorem main_py_blank_first_line (fs : filesystem) (contents : string)
    (rows : list (list string)) :
  fs !! "./violin_inventory.csv" = Some contents ->
  csv_reader (universal_newlines contents) = Ok ([] :: rows) ->
  Exists (fun r => r <> []) rows ->
  (main_py.main fs).2 = Err (KeyError "PRINT") /\ SavePdf ∉ (main_py.main fs).1.
Proof.
  intros Hfs Hrows Hex. unfold main_py.main.
  apply (entry_point_record_error _ "./violin_inventory.csv" "tuto1.pdf" _ [] return_address
           (map mkInstrument (dict_rows [] rows))); [|done|constructor|].
  - unfold instruments_from_csv. rewrite (open_read_found _ _ _ Hfs), wbind_ok.
    cbn [lift]. by rewrite Hrows.
  - destruct (filter_nonempty_cons rows Hex) as (r & rest & Hr & Hf).
    rewrite dict_rows_filter, Hf. by apply printable_texts_no_header.
Qed.
End Runs.

Example main_py_refines_witness :
  main_py.main sample_fs =
  ([OpenFile "./violin_inventory.csv"; NewCanvas "tuto1.pdf" A4; SetFont "Courier" 16] ++
     spec_trace main_config [] return_address 0 sample_instruments_texts ++ [SavePdf], Ok tt).
Proof.
  apply (main_py_refines sample_fs sample_instruments);
    [vm_compute; reflexivity|vm_compute; reflexivity].
Defined.

Example main_py_missing_inventory_witness :
  main_py.main ∅ =
  ([OpenFile "./violin_inventory.csv"], Err (FileNotFoundError "./violin_inventory.csv")).
Proof. apply main_py_missing_inventory. reflexivity. Defined.

Example main_py_record_error_witness :
  (main_py.main short_printable_fs).2 = Err (TypeError "object of type 'NoneType' has no len()") /\
  SavePdf ∉ (main_py.main short_printable_fs).1.
Proof.
  apply (main_py_record_error short_printable_fs
    [mkInstrument (dict_of_row ["PRINT"; "Category"; "Model"; "Serial NO"; "Size"; "Student"]
                     ["TRUE"; "Viola"; "Gliga"])]);
    [vm_compute; reflexivity|vm_compute; reflexivity].
Defined.

Example make_tags_address_reads_witness :
  count_ev (is_open "./address.txt") (make_tags.main sample_fs make_tags.default_args).1
  = length sample_instruments_texts.
Proof.
  apply (make_tags_address_reads sample_fs make_tags.default_args sample_instruments
           sample_instruments_texts return_address);
    [vm_compute; reflexivity|vm_compute; reflexivity|reflexivity|discriminate].
Defined.

Example make_tags_refines_main_py_witness :
  make_tags.main sample_fs make_tags.default_args =
  wmap_trace (retarget make_tags.default_args) (main_py.main sample_fs).
Proof.
  apply (make_tags_refines_main_py _ _ sample_inventory return_address);
    reflexivity.
Defined.

Example main_py_blank_first_line_witness :
  (main_py.main blank_header_fs).2 = Err (KeyError "PRINT") /\
  SavePdf ∉ (main_py.main blank_header_fs).1.
Proof.
  apply (main_py_blank_first_line _ blank_header_inventory [["Violin"; "Yamaha"; "TRUE"]]);
    [reflexivity | vm_compute; reflexivity | by repeat constructor].
Defined.

Example make_tags_missing_address_witness :
  (make_tags.main sample_fs_no_address make_tags.default_args).2 =
    (if bool_decide (sample_instruments_texts = []) then Ok tt
     else Err (FileNotFoundError "./address.txt")) /\
  (SavePdf ∈ (make_tags.main sample_fs_no_address make_tags.default_args).1 <->
   sample_instruments_texts = []).
Proof.
  apply (make_tags_missing_address sample_fs_no_address make_tags.default_args
           sample_instruments);
    [vm_compute; reflexivity|vm_compute; reflexivity|reflexivity].
Defined.

(** ** Pages of the document *)

Lemma canvas_block (c : page_stream) (b : bool) (f : frame) (ps : list paragraph) :
  foldl canvas_call c ((if b then [ShowPage] else []) ++ [AddFrame f ps]) =
  mk_page_stream (closed_pages c ++ (if b then [current_page c] else []))
    ((if b then [] else current_page c) ++ [AddFrame f ps]).
Proof. destruct b; simpl; [done|]. destruct c; simpl. by rewrite app_nil_r. Qed.

(** Over the layout of the specification, from a page that already holds
    something, every [showPage] closes a page and the current page never
    ends up empty. *)
Lemma canvas_spec_trace cfg address_text k texts (c : page_stream) :
  current_page c <> [] ->
  length (closed_pages (foldl canvas_call c (spec_trace cfg [] address_text k texts))) =
    length (closed_pages c) + count_ev is_show_page (spec_trace cfg [] address_text k texts) /\
  current_page (foldl canvas_call c (spec_trace cfg [] address_text k texts)) <> [].
Proof.
  revert k c. induction texts as [|t ts IH]; intros k c Hc; simpl; [rewrite count_ev_nil; split; [lia|done]|].
  rewrite cons_middle, app_assoc, foldl_app, canvas_block.
  destruct (IH (S k) (mk_page_stream (closed_pages c ++ (if breaks_before cfg k
    then [current_page c] else [])) ((if breaks_before cfg k then [] else current_page c) ++
    [AddFrame (slot_frame cfg k) (tag_parts address_text t)]))) as [Hlen Hcur];
    [simpl; intros [_ ?]%app_nil; discriminate|].
  split; [|done]. rewrite Hlen. simpl. wsimp.
  destruct (breaks_before cfg k); simpl; rewrite ?length_app; simpl; lia.
Qed.

(** The document of a run that performs the specified layout of
    [texts] between [setFont] and [save()]. *)
Lemma document_spec_run (texts : list string) :
  length (document ([OpenFile "./violin_inventory.csv"; NewCanvas "tuto1.pdf" A4;
     SetFont "Courier" 16] ++ spec_trace main_config [] return_address 0 texts ++ [SavePdf]))
  = (length texts - 1) / 9 + 1.
Proof.
  unfold document. simpl. rewrite foldl_app.
  destruct (canvas_spec_trace main_config return_address 0 texts
              (mk_page_stream [] [SetFont "Courier" 16]) ltac:(done)) as [Hlen Hcur].
  destruct (foldl canvas_call _ (spec_trace _ _ _ _ _)) as [cl cur] eqn:Hst.
  simpl in *. destruct cur as [|e cur]; [done|]. simpl. rewrite length_app. simpl.
  rewrite Hlen.
  pose proof (spec_trace_show_pages main_config ltac:(done) [] return_address 0 texts
                ltac:(done)) as Hsp.
  rewrite Nat.Div0.div_0_l in Hsp. simpl in Hsp. lia.
Qed.

Section Document.
Context `{CsvReader}.

(** C10: the PDF written by [main] of [src/main.py] over [n] printable
    records has [(n - 1) / 9 + 1] pages: [ceil(n / 9)] when [n > 0], and
    one blank page when [n = 0], because [setFont] has already written to
    the first page when [save()] runs. *)
Theorem main_py_pages (fs : filesystem) (instruments : list Instrument) (texts : list string) :
  instruments_from_csv fs "./violin_inventory.csv" =
    ([OpenFile "./violin_inventory.csv"], Ok instruments) ->
  printable_texts instruments = Ok texts ->
  length (document (main_py.main fs).1) = (length texts - 1) / 9 + 1.
Proof.
  intros Hload Ht. unfold main_py.main. rewrite (entry_point_run _ _ _ _ _ Hload).
  rewrite (main_loop_init main_config (wret return_address) [] return_address
             ltac:(done) eq_refl instruments texts Ht).
  apply document_spec_run.
Qed.
End Document.

(** An inventory with no record gives a document of one (blank) page. *)
Example main_py_pages_witness :
  length (document (main_py.main header_only_fs).1) = (length (@nil string) - 1) / 9 + 1.
Proof. apply (main_py_pages header_only_fs []); [vm_compute; reflexivity|reflexivity]. Defined.


Lemma frames_on_page_step (cfg : layout_config) (k : nat) :
  capacity cfg <> 0 ->
  (breaks_before cfg k = true ->
     frames_on_page (capacity cfg) k = capacity cfg /\ frames_on_page (capacity cfg) (S k) = 1) /\
  (breaks_before cfg k = false ->
     frames_on_page (capacity cfg) (S k) = frames_on_page (capacity cfg) k + 1).
Proof.
  intros Hc. unfold breaks_before, frames_on_page. destruct k as [|k]; simpl.
  - destruct (mod_div_zero (capacity cfg)) as [-> _]. split; [done|]. lia.
  - rewrite Nat.sub_0_r. destruct (succ_mod_div (capacity cfg) k Hc) as [Hw Hs].
    destruct (decide (S (k mod capacity cfg) = capacity cfg)) as [He|He].
    + destruct (Hw He) as [-> _]. split; [lia|done].
    + destruct (Hs He) as [-> _]. split; [done|lia].
Qed.

(** Over the layout of the specification every page closed holds
    [capacity] frames and the current page the frames drawn since the last
    break. *)
Lemma canvas_spec_frames cfg address_text k texts (c : page_stream) :
  capacity cfg <> 0 ->
  Forall (fun p => count_ev is_frame p = capacity cfg) (closed_pages c) ->
  count_ev is_frame (current_page c) = frames_on_page (capacity cfg) k ->
  Forall (fun p => count_ev is_frame p = capacity cfg)
    (closed_pages (foldl canvas_call c (spec_trace cfg [] address_text k texts))) /\
  count_ev is_frame (current_page (foldl canvas_call c (spec_trace cfg [] address_text k texts)))
    = frames_on_page (capacity cfg) (k + length texts).
Proof.
  intros Hcap. revert k c. induction texts as [|t ts IH]; intros k c Hcl Hcnt; simpl.
  { by rewrite Nat.add_0_r. }
  rewrite cons_middle, app_assoc, foldl_app, canvas_block, <- Nat.add_succ_comm.
  destruct (frames_on_page_step cfg k Hcap) as [Hbr Hno].
  apply IH; simpl; destruct (breaks_before cfg k) eqn:Hb; simpl.
  - destruct (Hbr eq_refl) as [Hk _]. apply Forall_app; split; [done|].
    constructor; [congruence|constructor].
  - by rewrite app_nil_r.
  - destruct (Hbr eq_refl) as [_ ->]. done.
  - rewrite count_ev_app, Hcnt, Hno by done. done.
Qed.

Section PageFrames.
Context `{CsvReader}.

(** C11: every page of the PDF written by [main] of [src/main.py] holds
    exactly 9 tags except the last, which holds the remaining
    [(n - 1) mod 9 + 1] (none when no record is printable). *)
Theorem main_py_page_frames (fs : filesystem) (instruments : list Instrument)
    (texts : list string) :
  instruments_from_csv fs "./violin_inventory.csv" =
    ([OpenFile "./violin_inventory.csv"], Ok instruments) ->
  printable_texts instruments = Ok texts ->
  exists full last, document (main_py.main fs).1 = full ++ [last] /\
    Forall (fun p => count_ev is_frame p = 9) full /\
    count_ev is_frame last = frames_on_page 9 (length texts).
Proof.
  intros Hload Ht. unfold main_py.main. rewrite (entry_point_run _ _ _ _ _ Hload).
  rewrite (main_loop_init main_config (wret return_address) [] return_address
             ltac:(done) eq_refl instruments texts Ht).
  unfold document. simpl. rewrite foldl_app.
  destruct (canvas_spec_frames main_config return_address 0 texts
              (mk_page_stream [] [SetFont "Courier" 16]) ltac:(done) ltac:(constructor)
              eq_refl) as [Hcl Hcnt].
  destruct (canvas_spec_trace main_config return_address 0 texts
              (mk_page_stream [] [SetFont "Courier" 16]) ltac:(done)) as [_ Hne].
  destruct (foldl canvas_call _ (spec_trace _ _ _ _ _)) as [cl cur] eqn:Hst.
  simpl in *. destruct cur as [|e cur]; [done|]. simpl.
  exists cl, (e :: cur). split; [done|]. split; [done|]. done.
Qed.
End PageFrames.

Example main_py_page_frames_witness :
  exists full last, document (main_py.main sample_fs).1 = full ++ [last] /\
    Forall (fun p => count_ev is_frame p = 9) full /\
    count_ev is_frame last = frames_on_page 9 (length sample_instruments_texts).
Proof.
  apply (main_py_page_frames sample_fs sample_instruments);
    [vm_compute; reflexivity|vm_compute; reflexivity].
Defined.

(** ** From the bytes of the inventory to the pages of the PDF *)

(** A row with the six columns of [inventory_header]: [print_please] and
    [text_from_instrument] of its [Instrument] read it in place. *)
Lemma full_row_instrument (r : list string) :
  length r = 6 ->
  print_please (mkInstrument (dict_of_row inventory_header r)) = Ok (row_printed r) /\
  text_from_instrument (mkInstrument (dict_of_row inventory_header r)) = Ok (row_text r).
Proof.
  intros Hlen.
  destruct r as [|c [|m [|s [|z [|st [|p [|]]]]]]]; simpl in Hlen; try lia.
  destruct (dict_of_row_lookup inventory_header [c; m; s; z; st; p] ltac:(decide_by_eval))
    as [Hin _].
  split.
  - by rewrite (print_please_value _ _ (Hin 5 "PRINT" eq_refl)).
  - unfold text_from_instrument, category, model, serial_no, Instrument.size, student; simpl.
    rewrite (getitem_some _ _ _ (Hin 0 "Category" eq_refl)),
      (getitem_some _ _ _ (Hin 1 "Model" eq_refl)),
      (getitem_some _ _ _ (Hin 2 "Serial NO" eq_refl)),
      (getitem_some _ _ _ (Hin 3 "Size" eq_refl)),
      (getitem_some _ _ _ (Hin 4 "Student" eq_refl)).
    simpl. by destruct s.
Qed.

Lemma printable_texts_written (body : list (list string)) :
  Forall (fun r => length r = 6) body ->
  printable_texts (map (fun r => mkInstrument (dict_of_row inventory_header r))
                     (filter (fun r => r <> []) body)) =
  Ok (map row_text (filter row_printed body)).
Proof.
  induction 1 as [|r body Hr Hall IH]; [done|].
  rewrite filter_cons_True by (by destruct r; [discriminate|]).
  destruct (full_row_instrument r Hr) as [Hp Ht].
  cbn [map printable_texts script_print_please script_text_from_instrument main_py_script].
  rewrite Hp. cbn [rbind].
  destruct (row_printed r) eqn:E.
  - rewrite filter_cons_True by (rewrite E; exact I). rewrite Ht, IH. done.
  - rewrite filter_cons_False by (rewrite E; intros []). exact IH.
Qed.

(** C33: [main] of [src/main.py], end to end from the bytes of the
    inventory: on a file written with every field quoted under the header
    of the six columns, whose rows have the six fields (which may hold the
    delimiter, quotes and newlines, but no carriage return), [main] reads
    it, draws the tags of exactly the rows whose [PRINT] is [TRUE], in
    file order, at the slots of the specified layout, saves, and the PDF
    has [(n - 1) / 9 + 1] pages for [n] such rows. *)
Theorem main_py_written_inventory (fs : filesystem) (body : list (list string)) :
  fs !! "./violin_inventory.csv" = Some (write_rows gotag_dialect (inventory_header :: body)) ->
  Forall (fun r => length r = 6 /\
    Forall (fun f => String.length f <= field_size_limit_default /\ str_mem cr_char f = false) r)
    body ->
  main_py.main fs =
  ([OpenFile "./violin_inventory.csv"; NewCanvas "tuto1.pdf" A4; SetFont "Courier" 16] ++
     spec_trace main_config [] return_address 0 (map row_text (filter row_printed body)) ++
     [SavePdf], Ok tt) /\
  length (document (main_py.main fs).1) = (length (filter row_printed body) - 1) / 9 + 1.
Proof.
  intros Hfs [Hlen Hfields]%Forall_and.
  assert (instruments_from_csv fs "./violin_inventory.csv" =
    ([OpenFile "./violin_inventory.csv"],
     Ok (map (fun r => mkInstrument (dict_of_row inventory_header r))
           (filter (fun r => r <> []) body)))) as Hload.
  { apply load_written_csv; [done|]. constructor; [decide_by_eval|done]. }
  assert (main_py.main fs =
    ([OpenFile "./violin_inventory.csv"; NewCanvas "tuto1.pdf" A4; SetFont "Courier" 16] ++
       spec_trace main_config [] return_address 0 (map row_text (filter row_printed body)) ++
       [SavePdf], Ok tt)) as Hrun.
  { unfold main_py.main. rewrite (entry_point_run _ _ _ _ _ Hload).
    by rewrite (main_loop_init main_config (wret return_address) [] return_address
                  ltac:(done) eq_refl _ _ (printable_texts_written body Hlen)). }
  split; [done|]. rewrite Hrun. cbn [fst]. by rewrite document_spec_run, length_map.
Qed.

Example main_py_written_inventory_witness :
  main_py.main {[ "./violin_inventory.csv" := write_rows gotag_dialect (inventory_header :: written_table) ]} =
  ([OpenFile "./violin_inventory.csv"; NewCanvas "tuto1.pdf" A4; SetFont "Courier" 16] ++
     spec_trace main_config [] return_address 0
       [tag_template "Violin" "Yamaha" "12;3" "4/4" "Kari"; tag_template "Cello" "Stentor" "N/A" "1/2" "Per"] ++
     [SavePdf], Ok tt) /\
  length (document (main_py.main {[ "./violin_inventory.csv" :=
    write_rows gotag_dialect (inventory_header :: written_table) ]}).1) = (2 - 1) / 9 + 1.
Proof.
  apply (main_py_written_inventory _ written_table); [reflexivity|decide_by_eval].
Defined.
